(** * Bellingcat Radar Interference Tracker (RIT.js): a shallow embedding

    The Earth Engine script [RIT.js] is a set of event handlers over one
    shared widget graph (map layers, inspector panel, labels, selectors).
    The handlers are embedded as functions on an explicit [State]; the
    Earth Engine client library calls they make ([ee.Date.getRange],
    [filterDate], [select], [merge], [max], [ee.Image.cat],
    [ui.Chart.image.series], [ui.data.ActiveList.set], ...) are embedded
    next to them, following the Earth Engine API reference. *)

From Stdlib Require Import ZArith QArith Qround Lia.
From Stdlib Require Import DecimalString Sorted.
From stdpp Require Import base option list strings.

Local Open Scope Z_scope.

Set Default Proof Using "Type".

(** ** 1. Dates: [ee.Date], [ee.DateRange]

    An [ee.Date] is an instant, in milliseconds since 1970-01-01T00:00Z.
    Calendar units are those of the proleptic Gregorian calendar in UTC. *)

Module Calendar.

Definition msPerDay : Z := 86400000.

Definition is_leap (y : Z) : bool :=
  (y mod 4 =? 0) && (negb (y mod 100 =? 0) || (y mod 400 =? 0)).

Definition days_in_month (y m : Z) : Z :=
  if m =? 2 then (if is_leap y then 29 else 28)
  else if (m =? 4) || (m =? 6) || (m =? 9) || (m =? 11) then 30
  else 31.

Definition days_in_year (y : Z) : Z := if is_leap y then 366 else 365.

(** Days before 1 March of (March-based) year [y], counted from 1 March of
    year 0. *)
Definition days_before_year (y : Z) : Z :=
  365 * y + y / 4 - y / 100 + y / 400.

(** Day number (days since 1970-01-01) of the civil date [y]-[m]-[d].  The
    year is taken to start on 1 March, so that the leap day comes last. *)
Definition days_from_civil (y m d : Z) : Z :=
  let y' := if m <=? 2 then y - 1 else y in
  let mp := if 2 <? m then m - 3 else m + 9 in
  let doy := (153 * mp + 2) / 5 + d - 1 in
  days_before_year y' + doy - 719468.

(** Civil date of a day number: 400-year era, century, 4-year cycle, year,
    then month and day of the March-based year. *)
Definition civil_from_days (z : Z) : Z * Z * Z :=
  let z' := z + 719468 in
  let era := z' / 146097 in
  let doe := z' mod 146097 in
  let c := Z.min (doe / 36524) 3 in
  let doc := doe - 36524 * c in
  let q := Z.min (doc / 1461) 24 in
  let doq := doc - 1461 * q in
  let a := Z.min (doq / 365) 3 in
  let doy := doq - 365 * a in
  let y' := 400 * era + 100 * c + 4 * q + a in
  let mp := (5 * doy + 2) / 153 in
  let d := doy - (153 * mp + 2) / 5 + 1 in
  let m := if mp <? 10 then mp + 3 else mp - 9 in
  (if m <=? 2 then y' + 1 else y', m, d).

Definition day_of (t : Z) : Z := t / msPerDay.

(** First instant of a civil day. *)
Definition instant (y m d : Z) : Z := msPerDay * days_from_civil y m d.

Definition next_month (y m : Z) : Z * Z :=
  if m =? 12 then (y + 1, 1) else (y, m + 1).

End Calendar.

Import Calendar.

(** [ee.DateRange]: a start (inclusive) and an end (exclusive). *)
Record DateRange := mkDateRange { dr_start : Z; dr_end : Z }.

Inductive Unit := year | month | day.

(** [ee.Date.getRange(unit)]: "Returns a DateRange covering the unit of the
    specified type that contains this date". *)
Definition getRange (t : Z) (u : Unit) : DateRange :=
  let '(y, m, d) := civil_from_days (day_of t) in
  match u with
  | year => mkDateRange (instant y 1 1) (instant (y + 1) 1 1)
  | month =>
      let '(y2, m2) := next_month y m in
      mkDateRange (instant y m 1) (instant y2 m2 1)
  | day => mkDateRange (msPerDay * day_of t) (msPerDay * (day_of t + 1))
  end.

(** Auxiliary definitions of the calendar facts. *)

Fixpoint all_from (n : nat) (z : Z) (f : Z -> bool) : bool :=
  match n with
  | O => true
  | S k => f z && all_from k (z + 1) f
  end.

(** Month and day inside a March-based year. *)
Definition mp_of_doy (doy : Z) : Z := (5 * doy + 2) / 153.
Definition dom_of_doy (doy : Z) : Z := doy - (153 * mp_of_doy doy + 2) / 5 + 1.
Definition mlen (mp : Z) : Z :=
  if mp =? 11 then 29
  else if (mp =? 1) || (mp =? 3) || (mp =? 6) || (mp =? 8) then 30 else 31.

Definition doy_ok (doy : Z) : bool :=
  let mp := mp_of_doy doy in
  let d := dom_of_doy doy in
  (0 <=? mp) && (mp <=? 11) && (1 <=? d) && (d <=? mlen mp)
  && ((negb (mp =? 11)) || (d =? doy - 336)).

(** Days of year [y] before the first of month [m]. *)
Definition days_before_month (y m : Z) : Z :=
  let feb := if is_leap y then 29 else 28 in
  if m =? 1 then 0 else if m =? 2 then 31 else
  31 + feb +
  (if m =? 3 then 0 else if m =? 4 then 31 else if m =? 5 then 61
   else if m =? 6 then 92 else if m =? 7 then 122 else if m =? 8 then 153
   else if m =? 9 then 184 else if m =? 10 then 214 else if m =? 11 then 245
   else 275).

(** A window is canonical for a unit when it starts at 00:00 UTC on the
    first day of the unit and ends where the next unit starts. *)
Definition is_canonical (u : Unit) (w : DateRange) : bool :=
  let s := dr_start w in
  let '(y, m, d) := civil_from_days (day_of s) in
  (s mod msPerDay =? 0) &&
  match u with
  | day => dr_end w =? s + msPerDay
  | month => (d =? 1) && (dr_end w =? s + msPerDay * days_in_month y m)
  | year => (d =? 1) && (m =? 1) && (dr_end w =? s + msPerDay * days_in_year y)
  end.

(** ** Calendar facts *)

Section CalendarFacts.

Lemma all_from_spec n : forall z0 f, all_from n z0 f = true ->
  forall z, z0 <= z < z0 + Z.of_nat n -> f z = true.
Proof.
  induction n as [|k IH]; intros z0 f H z Hz; [lia|].
  simpl in H. apply andb_prop in H as [H1 H2].
  destruct (Z.eq_dec z z0) as [->|]; [done|].
  apply (IH (z0 + 1)); [done|lia].
Qed.

Lemma doy_ok_all : all_from 366 0 doy_ok = true.
Proof. vm_compute. reflexivity. Qed.

Lemma doy_facts doy : 0 <= doy <= 365 ->
  0 <= mp_of_doy doy <= 11 /\ 1 <= dom_of_doy doy <= mlen (mp_of_doy doy)
  /\ (mp_of_doy doy = 11 -> dom_of_doy doy = doy - 336).
Proof.
  intros Hd. pose proof (all_from_spec 366 0 doy_ok doy_ok_all doy) as H.
  specialize (H ltac:(lia)). unfold doy_ok in H. cbv zeta in H.
  repeat (apply andb_prop in H as [H ?]).
  repeat split; lia.
Qed.

Lemma days_before_year_era era c q a :
  0 <= c <= 3 -> 0 <= q <= 24 -> 0 <= a <= 3 ->
  days_before_year (400 * era + 100 * c + 4 * q + a)
  = 146097 * era + 36524 * c + 1461 * q + 365 * a.
Proof.
  intros Hc Hq Ha. unfold days_before_year.
  Z.div_mod_to_equations. lia.
Qed.

Lemma is_leap_era era c q a :
  0 <= c <= 3 -> 0 <= q <= 24 -> 0 <= a <= 3 ->
  is_leap (400 * era + 100 * c + 4 * q + a + 1)
  = (a =? 3) && ((q <? 24) || (c =? 3)).
Proof.
  intros Hc Hq Ha. unfold is_leap.
  destruct (Z.eqb_spec a 3), (Z.ltb_spec q 24), (Z.eqb_spec c 3); simpl;
    repeat match goal with
    | |- context [?x mod ?k =? 0] => destruct (Z.eqb_spec (x mod k) 0)
    end; simpl; try reflexivity; exfalso;
    Z.div_mod_to_equations; lia.
Qed.

(** The cascade era / century / cycle / year of a day of era. *)
Lemma cascade_bounds doe :
  0 <= doe < 146097 ->
  let c := Z.min (doe / 36524) 3 in
  let doc := doe - 36524 * c in
  let q := Z.min (doc / 1461) 24 in
  let doq := doc - 1461 * q in
  let a := Z.min (doq / 365) 3 in
  let doy := doq - 365 * a in
  0 <= c <= 3 /\ 0 <= q <= 24 /\ 0 <= a <= 3 /\ 0 <= doy <= 365 /\
  (doy = 365 -> a = 3 /\ (q < 24 \/ c = 3)) /\
  doe = 36524 * c + 1461 * q + 365 * a + doy.
Proof.
  intros Hdoe c doc q doq a doy.
  assert (Hc : 0 <= c <= 3 /\ 0 <= doc <= 36524 /\ (c < 3 -> doc < 36524)).
  { subst doc c. Z.div_mod_to_equations. lia. }
  assert (Hq : 0 <= q <= 24 /\ 0 <= doq <= 1460 /\ (q < 24 -> doq < 1461)
               /\ (q = 24 -> doq = doc - 35064)).
  { subst doq q. clearbody doc. clear Hdoe. Z.div_mod_to_equations. lia. }
  assert (Ha : 0 <= a <= 3 /\ 0 <= doy <= 365 /\ (a < 3 -> doy < 365)).
  { subst doy a. clearbody doq. clear Hc. Z.div_mod_to_equations. lia. }
  repeat split; try lia.
Qed.

Lemma mlen_days_in_month y mp :
  0 <= mp <= 10 ->
  days_in_month y (if mp <? 10 then mp + 3 else mp - 9) = mlen mp.
Proof.
  intros H.
  assert (mp = 0 \/ mp = 1 \/ mp = 2 \/ mp = 3 \/ mp = 4 \/ mp = 5 \/ mp = 6
          \/ mp = 7 \/ mp = 8 \/ mp = 9 \/ mp = 10) as Hcases by lia.
  repeat (destruct Hcases as [->|Hcases]; [reflexivity|]). by subst.
Qed.

(** Every day number is the day number of its own civil date, and that
    date is a date of the calendar. *)
Lemma civil_from_days_valid z :
  let '(y, m, d) := civil_from_days z in
  1 <= m <= 12 /\ 1 <= d <= days_in_month y m /\ days_from_civil y m d = z.
Proof.
  unfold civil_from_days.
  set (z' := z + 719468). set (era := z' / 146097). set (doe := z' mod 146097).
  assert (Hz : z' = 146097 * era + doe /\ 0 <= doe < 146097).
  { subst era doe. Z.div_mod_to_equations. lia. }
  destruct Hz as [Hz Hdoe].
  pose proof (cascade_bounds doe Hdoe) as Hb. cbv zeta in Hb.
  set (c := Z.min (doe / 36524) 3) in *.
  set (doc := doe - 36524 * c) in *.
  set (q := Z.min (doc / 1461) 24) in *.
  set (doq := doc - 1461 * q) in *.
  set (a := Z.min (doq / 365) 3) in *.
  set (doy := doq - 365 * a) in *.
  destruct Hb as (Hc & Hq & Ha & Hdoy & H365 & Hsum).
  clearbody doy a q c. clear doq doc.
  pose proof (doy_facts doy Hdoy) as (Hmp & Hd & Hfeb).
  fold (mp_of_doy doy). fold (dom_of_doy doy).
  unfold dom_of_doy in *. set (mp := mp_of_doy doy) in *. clearbody mp.
  set (d := doy - (153 * mp + 2) / 5 + 1) in *.
  assert (Hdfc : forall y m, (if m <=? 2 then y - 1 else y)
                             = 400 * era + 100 * c + 4 * q + a ->
                 (if 2 <? m then m - 3 else m + 9) = mp ->
                 days_from_civil y m d = z).
  { intros y m Hy Hm. unfold days_from_civil. rewrite Hy, Hm.
    rewrite days_before_year_era by lia. subst d. lia. }
  destruct (Z.ltb_spec mp 10) as [Hlt|Hge].
  - replace (mp + 3 <=? 2) with false by lia.
    split; [lia|]. split.
    + pose proof (mlen_days_in_month (400 * era + 100 * c + 4 * q + a) mp) as E.
      replace (mp <? 10) with true in E by lia. rewrite E by lia. lia.
    + apply Hdfc.
      * replace (mp + 3 <=? 2) with false by lia. reflexivity.
      * replace (2 <? mp + 3) with true by lia. lia.
  - replace (mp - 9 <=? 2) with true by lia.
    split; [lia|]. split.
    + destruct (Z.eq_dec mp 10) as [->|Hne].
      * change (days_in_month _ (10 - 9)) with 31.
        change (mlen 10) with 31 in Hd. lia.
      * assert (mp = 11) as -> by lia. specialize (Hfeb eq_refl).
        change (11 - 9) with 2. unfold days_in_month. simpl.
        rewrite is_leap_era by lia.
        destruct (Z.eq_dec doy 365) as [E|E].
        -- destruct (H365 E) as [-> Hqc].
           replace ((q <? 24) || (c =? 3))%bool with true
             by (destruct Hqc; lia).
           change (mlen 11) with 29 in Hd. simpl. lia.
        -- change (mlen 11) with 29 in Hd.
           destruct ((a =? 3) && ((q <? 24) || (c =? 3))); lia.
    + apply Hdfc.
      * replace (mp - 9 <=? 2) with true by lia. lia.
      * replace (2 <? mp - 9) with false by lia. lia.
Qed.

(** *** Consecutive months and years *)

Lemma days_before_year_succ y :
  days_before_year (y + 1) = days_before_year y + days_in_year (y + 1).
Proof.
  unfold days_before_year, days_in_year, is_leap.
  repeat match goal with
  | |- context [?x mod ?k =? 0] => destruct (Z.eqb_spec (x mod k) 0)
  end; simpl; Z.div_mod_to_equations; lia.
Qed.

Lemma month_cases m : 1 <= m <= 12 ->
  m = 1 \/ m = 2 \/ m = 3 \/ m = 4 \/ m = 5 \/ m = 6 \/ m = 7 \/ m = 8
  \/ m = 9 \/ m = 10 \/ m = 11 \/ m = 12.
Proof. lia. Qed.

Ltac each_month H :=
  let C := fresh "C" in
  pose proof (month_cases _ H) as C;
  repeat (destruct C as [->|C]); [..|subst].

Lemma days_from_civil_month y m d : 1 <= m <= 12 ->
  days_from_civil y m d = days_from_civil y 1 1 + days_before_month y m + (d - 1).
Proof.
  intros Hm. unfold days_from_civil, days_before_month.
  pose proof (days_before_year_succ (y - 1)) as Hy.
  replace (y - 1 + 1) with y in Hy by lia. unfold days_in_year in Hy.
  each_month Hm; simpl; destruct (is_leap y); Z.div_mod_to_equations; lia.
Qed.

Lemma days_before_month_next y m : 1 <= m <= 12 ->
  days_before_month y m + days_in_month y m
  = if m =? 12 then days_in_year y else days_before_month y (m + 1).
Proof.
  intros Hm. unfold days_before_month, days_in_month, days_in_year.
  each_month Hm; simpl; destruct (is_leap y); Z.div_mod_to_equations; lia.
Qed.

Lemma days_from_civil_year_succ y :
  days_from_civil (y + 1) 1 1 = days_from_civil y 1 1 + days_in_year y.
Proof.
  unfold days_from_civil. simpl.
  pose proof (days_before_year_succ (y - 1)) as Hy.
  replace (y - 1 + 1) with y in Hy by lia.
  replace (y + 1 - 1) with y by lia. lia.
Qed.

Lemma days_from_civil_next_month y m : 1 <= m <= 12 ->
  days_from_civil (next_month y m).1 (next_month y m).2 1
  = days_from_civil y m 1 + days_in_month y m.
Proof.
  intros Hm. unfold next_month.
  pose proof (days_before_month_next y m Hm) as Hn.
  rewrite (days_from_civil_month y m 1 Hm).
  destruct (Z.eqb_spec m 12) as [->|Hne]; simpl.
  - rewrite days_from_civil_year_succ. lia.
  - rewrite (days_from_civil_month y (m + 1) 1) by lia. lia.
Qed.

Lemma days_in_month_pos y m : 28 <= days_in_month y m <= 31.
Proof.
  unfold days_in_month.
  destruct (m =? 2), (is_leap y),
    ((m =? 4) || (m =? 6) || (m =? 9) || (m =? 11)); lia.
Qed.

Lemma days_in_year_cases y : days_in_year y = 365 \/ days_in_year y = 366.
Proof. unfold days_in_year. destruct (is_leap y); auto. Qed.

Lemma days_before_month_bounds y m d :
  1 <= m <= 12 -> 1 <= d <= days_in_month y m ->
  0 <= days_before_month y m + (d - 1) < days_in_year y.
Proof.
  intros Hm. unfold days_before_month, days_in_month, days_in_year.
  each_month Hm; simpl; destruct (is_leap y); Z.div_mod_to_equations; lia.
Qed.

(** *** Day numbers determine civil dates *)

Lemma days_before_year_mono a b : a <= b -> days_before_year a <= days_before_year b.
Proof. intros H. unfold days_before_year. Z.div_mod_to_equations. lia. Qed.

Lemma days_from_civil_jan1_mono y y' :
  y < y' -> days_from_civil (y + 1) 1 1 <= days_from_civil y' 1 1.
Proof.
  intros H. unfold days_from_civil. simpl.
  pose proof (days_before_year_mono (y + 1 - 1) (y' - 1) ltac:(lia)). lia.
Qed.

Lemma days_before_month_lt y m m' :
  1 <= m <= 12 -> 1 <= m' <= 12 -> m < m' ->
  days_before_month y m + days_in_month y m <= days_before_month y m'.
Proof.
  intros Hm Hm' Hlt. unfold days_before_month, days_in_month.
  each_month Hm; each_month Hm'; try lia; simpl; destruct (is_leap y); lia.
Qed.

Lemma days_from_civil_inj y m d y' m' d' :
  1 <= m <= 12 -> 1 <= d <= days_in_month y m ->
  1 <= m' <= 12 -> 1 <= d' <= days_in_month y' m' ->
  days_from_civil y m d = days_from_civil y' m' d' ->
  (y, m, d) = (y', m', d').
Proof.
  intros Hm Hd Hm' Hd' E.
  rewrite (days_from_civil_month y m d Hm) in E.
  rewrite (days_from_civil_month y' m' d' Hm') in E.
  pose proof (days_before_month_bounds y m d Hm Hd) as B.
  pose proof (days_before_month_bounds y' m' d' Hm' Hd') as B'.
  pose proof (days_from_civil_year_succ y) as S.
  pose proof (days_from_civil_year_succ y') as S'.
  assert (y = y') as <-.
  { destruct (Z.lt_trichotomy y y') as [L|[L|L]]; [|done|].
    - pose proof (days_from_civil_jan1_mono y y' L). lia.
    - pose proof (days_from_civil_jan1_mono y' y L). lia. }
  assert (m = m') as <-.
  { destruct (Z.lt_trichotomy m m') as [L|[L|L]]; [|done|].
    - pose proof (days_before_month_lt y m m' Hm Hm' L). lia.
    - pose proof (days_before_month_lt y m' m Hm' Hm L). lia. }
  f_equal. lia.
Qed.

Lemma civil_from_days_from_civil y m d :
  1 <= m <= 12 -> 1 <= d <= days_in_month y m ->
  civil_from_days (days_from_civil y m d) = (y, m, d).
Proof.
  intros Hm Hd.
  pose proof (civil_from_days_valid (days_from_civil y m d)) as V.
  destruct (civil_from_days (days_from_civil y m d)) as [[y' m'] d'].
  destruct V as (Vm & Vd & E).
  by apply days_from_civil_inj.
Qed.

(** *** Windows of [getRange] *)

Lemma day_of_bounds t : msPerDay * day_of t <= t < msPerDay * (day_of t + 1).
Proof. unfold day_of, msPerDay. Z.div_mod_to_equations. lia. Qed.

Lemma day_of_instant n : day_of (msPerDay * n) = n.
Proof. unfold day_of, msPerDay. Z.div_mod_to_equations. lia. Qed.

Lemma instant_mod y m d : instant y m d mod msPerDay = 0.
Proof. unfold instant, msPerDay. Z.div_mod_to_equations. lia. Qed.

Lemma day_of_civil y m d : day_of (instant y m d) = days_from_civil y m d.
Proof. apply day_of_instant. Qed.

Lemma getRange_contains t u :
  dr_start (getRange t u) <= t < dr_end (getRange t u).
Proof.
  pose proof (day_of_bounds t) as Hb.
  pose proof (civil_from_days_valid (day_of t)) as V.
  unfold getRange. destruct (civil_from_days (day_of t)) as [[y m] d].
  destruct V as (Vm & Vd & E).
  pose proof (days_from_civil_month y m d Vm) as Em.
  pose proof (days_before_month_bounds y m d Vm Vd) as Bm.
  destruct u; simpl.
  - pose proof (days_from_civil_year_succ y) as S.
    unfold instant, msPerDay in *. lia.
  - pose proof (days_from_civil_next_month y m Vm) as N.
    pose proof (days_from_civil_month y m 1 Vm) as E1.
    pose proof (days_in_month_pos y m) as Pm.
    pose proof (days_before_month_next y m Vm) as Nm.
    pose proof (days_in_year_cases y) as Cy.
    destruct (next_month y m) as [y2 m2]. simpl in *.
    assert (days_from_civil y m d < days_from_civil y2 m2 1).
    { rewrite N, Em, E1. unfold days_in_month in *.
      destruct (m =? 2), (is_leap y),
        ((m =? 4) || (m =? 6) || (m =? 9) || (m =? 11)); lia. }
    unfold instant, msPerDay in *. lia.
  - lia.
Qed.

Lemma getRange_canonical t u : is_canonical u (getRange t u) = true.
Proof.
  pose proof (civil_from_days_valid (day_of t)) as V.
  unfold getRange, is_canonical.
  destruct (civil_from_days (day_of t)) as [[y m] d].
  destruct V as (Vm & Vd & E).
  pose proof (days_in_month_pos y m) as Pm.
  pose proof (days_in_month_pos y 1) as P1.
  destruct u.
  - cbn [dr_start dr_end]. rewrite day_of_civil.
    rewrite civil_from_days_from_civil by lia.
    rewrite instant_mod.
    pose proof (days_from_civil_year_succ y) as S.
    unfold instant, msPerDay. lia.
  - pose proof (days_from_civil_next_month y m Vm) as N.
    destruct (next_month y m) as [y2 m2]. cbn [dr_start dr_end fst snd] in *.
    rewrite day_of_civil.
    rewrite civil_from_days_from_civil by lia.
    rewrite instant_mod. unfold instant, msPerDay. lia.
  - cbn [dr_start dr_end]. rewrite day_of_instant.
    destruct (civil_from_days (day_of t)) as [[y' m'] d'].
    replace ((msPerDay * day_of t) mod msPerDay) with 0
      by (unfold msPerDay; Z.div_mod_to_equations; lia).
    lia.
Qed.

(** *** The windows of a unit partition time, and nest *)

Lemma civil_year_bounds y m d :
  1 <= m <= 12 -> 1 <= d <= days_in_month y m ->
  days_from_civil y 1 1 <= days_from_civil y m d < days_from_civil (y + 1) 1 1.
Proof.
  intros Hm Hd. rewrite (days_from_civil_month y m d Hm), days_from_civil_year_succ.
  pose proof (days_before_month_bounds y m d Hm Hd). lia.
Qed.

Lemma civil_month_bounds y m d :
  1 <= m <= 12 -> 1 <= d <= days_in_month y m ->
  days_from_civil y m 1 <= days_from_civil y m d
  < days_from_civil y m 1 + days_in_month y m.
Proof.
  intros Hm Hd.
  rewrite (days_from_civil_month y m d Hm), (days_from_civil_month y m 1 Hm). lia.
Qed.

Lemma getRange_unique t t' u :
  dr_start (getRange t u) <= t' < dr_end (getRange t u) ->
  getRange t' u = getRange t u.
Proof.
  pose proof (day_of_bounds t') as Hb'.
  pose proof (civil_from_days_valid (day_of t)) as V.
  pose proof (civil_from_days_valid (day_of t')) as V'.
  unfold getRange.
  destruct (civil_from_days (day_of t)) as [[y m] d].
  destruct (civil_from_days (day_of t')) as [[y' m'] d'].
  destruct V as (Vm & Vd & E). destruct V' as (Vm' & Vd' & E').
  destruct u; cbn [dr_start dr_end].
  - intros Hin.
    pose proof (civil_year_bounds y' m' d' Vm' Vd') as B'.
    assert (Hn : days_from_civil y 1 1 <= day_of t' < days_from_civil (y + 1) 1 1)
      by (unfold instant, msPerDay in *; lia).
    assert (y' = y) as ->; [|done].
    destruct (Z.lt_trichotomy y y') as [L|[L|L]]; [|done|].
    + pose proof (days_from_civil_jan1_mono y y' L). lia.
    + pose proof (days_from_civil_jan1_mono y' y L). lia.
  - pose proof (days_from_civil_next_month y m Vm) as N.
    destruct (next_month y m) as [y2 m2] eqn:En. cbn [fst snd dr_start dr_end] in *.
    intros Hin.
    assert (Hn : days_from_civil y m 1 <= day_of t'
                 < days_from_civil y m 1 + days_in_month y m)
      by (unfold instant, msPerDay in *; lia).
    assert (Hinj : (y, m, day_of t' - days_from_civil y m 1 + 1) = (y', m', d')).
    { apply days_from_civil_inj; [done|lia|done|done|].
      rewrite (days_from_civil_month y m _ Vm), E'.
      rewrite (days_from_civil_month y m 1 Vm) in Hn |- *. lia. }
    injection Hinj as <- <- _. by rewrite En.
  - intros Hin. assert (day_of t' = day_of t) as ->; [|done].
    unfold day_of, msPerDay in *. Z.div_mod_to_equations. lia.
Qed.

Lemma getRange_nested t :
  dr_start (getRange t year) <= dr_start (getRange t month) /\
  dr_start (getRange t month) <= dr_start (getRange t day) /\
  dr_end (getRange t day) <= dr_end (getRange t month) /\
  dr_end (getRange t month) <= dr_end (getRange t year).
Proof.
  pose proof (civil_from_days_valid (day_of t)) as V.
  unfold getRange. destruct (civil_from_days (day_of t)) as [[y m] d].
  destruct V as (Vm & Vd & E).
  pose proof (days_from_civil_next_month y m Vm) as N.
  destruct (next_month y m) as [y2 m2]. cbn [fst snd dr_start dr_end] in *.
  pose proof (days_from_civil_month y m 1 Vm) as M1.
  pose proof (days_from_civil_month y m d Vm) as Md.
  pose proof (days_in_month_pos y m) as Pm.
  pose proof (days_before_month_bounds y m d Vm Vd) as Bd.
  pose proof (days_before_month_bounds y m 1 Vm ltac:(lia)) as B1.
  pose proof (days_before_month_bounds y m (days_in_month y m) Vm ltac:(lia)) as Be.
  pose proof (days_from_civil_year_succ y) as S.
  unfold instant, msPerDay. lia.
Qed.

(** A one-day range that starts at 00:00 UTC and holds [t] is the UTC
    day of [t]. *)
Lemma canonical_day_range (t : Z) (range : DateRange) :
  is_canonical day range = true ->
  dr_start range <= t < dr_end range ->
  range = getRange t day.
Proof.
  unfold is_canonical. destruct range as [s e]. cbn [dr_start dr_end].
  destruct (civil_from_days (day_of s)) as [[y m] d].
  intros Hc Ht. apply andb_prop in Hc as [Hmod Hend].
  apply Z.eqb_eq in Hmod, Hend. subst e.
  unfold getRange. destruct (civil_from_days (day_of t)) as [[y' m'] d'].
  assert (Hs : s = msPerDay * day_of t).
  { unfold day_of, msPerDay in *. Z.div_mod_to_equations. lia. }
  rewrite Hs. f_equal. lia.
Qed.

End CalendarFacts.

(** ** 2. Strings: date formats and number formats *)

Definition show_N (n : N) : string := NilZero.string_of_uint (N.to_uint n).

(** Decimal digits of [n], zero-padded on the left to [width] characters. *)
Definition pad (width : nat) (n : N) : string :=
  let s := show_N n in
  String.concat "" (replicate (width - String.length s) "0") +:+ s.

Definition monthName (m : Z) : string :=
  if m =? 1 then "January" else if m =? 2 then "February"
  else if m =? 3 then "March" else if m =? 4 then "April"
  else if m =? 5 then "May" else if m =? 6 then "June"
  else if m =? 7 then "July" else if m =? 8 then "August"
  else if m =? 9 then "September" else if m =? 10 then "October"
  else if m =? 11 then "November" else "December".

(** [ee.Date.format("MMMM dd, YYYY")]: month name, two-digit day of the
    month, year of era on at least four digits. *)
Definition format_MMMM_dd_YYYY (t : Z) : string :=
  let '(y, m, d) := civil_from_days (day_of t) in
  let yoe := if 0 <? y then y else 1 - y in
  monthName m +:+ " " +:+ pad 2 (Z.to_N d) +:+ ", " +:+ pad 4 (Z.to_N yoe).

(** [ee.Date(string)] on the one form the script uses, "YYYY-MM-DD": the
    first instant of that day, or nothing when the text is no such date. *)
Definition digits (s : string) : option Z :=
  if String.eqb s "" then None
  else (fun u => Z.of_N (N.of_uint u)) <$> NilEmpty.uint_of_string s.

Definition parse_date (s : string) : option Z :=
  if negb (String.length s =? 10)%nat then None else
  if negb (String.eqb (String.substring 4 1 s) "-" && String.eqb (String.substring 7 1 s) "-")
  then None else
  y ← digits (String.substring 0 4 s);
  m ← digits (String.substring 5 2 s);
  d ← digits (String.substring 8 2 s);
  if (1 <=? m) && (m <=? 12) && (1 <=? d) && (d <=? days_in_month y m)
  then Some (instant y m d) else None.

(** [Number.prototype.toFixed(2)] on a rational: two decimals, rounded
    half away from zero. *)
Definition toFixed2 (q : Q) : string :=
  let n := (Z.abs (Qnum q) * 200 + Z.pos (Qden q)) / (2 * Z.pos (Qden q)) in
  (if Qnum q <? 0 then "-" else "") +:+ show_N (Z.to_N (n / 100))
  +:+ "." +:+ pad 2 (Z.to_N (n mod 100)).

Example format_example :
  format_MMMM_dd_YYYY (instant 2021 12 14) = "December 14, 2021".
Proof. vm_compute. reflexivity. Qed.

Example parse_example : parse_date "2021-12-14" = Some (instant 2021 12 14).
Proof. vm_compute. reflexivity. Qed.

Example toFixed2_example :
  (toFixed2 49.949916, toFixed2 (-106.3122), toFixed2 31.9735)
  = ("49.95", "-106.31", "31.97").
Proof. vm_compute. reflexivity. Qed.

(** ** 3. Earth Engine images and collections

    Backscatter is a floating-point number of decibels.  The script only
    ever compares values (the max reducer), so values are kept abstract,
    with the order they are compared by. *)

Class Backscatter (V : Type) := {
  vleb : V -> V -> bool;
  vleb_refl : forall x, vleb x x = true;
  vleb_trans : forall x y z, vleb x y = true -> vleb y z = true -> vleb x z = true;
  vleb_total : forall x y, vleb x y = true \/ vleb y x = true
}.

Definition vmax `{Backscatter V} (x y : V) : V := if vleb x y then y else x.

(** The maximum of the values at hand; nothing when there is none. *)
Fixpoint vmax_list `{Backscatter V} (vs : list V) : option V :=
  match vs with
  | [] => None
  | v :: rest =>
      Some (match vmax_list rest with None => v | Some w => vmax v w end)
  end.

Inductive Reducer := Reducer_max.

Definition reduce `{Backscatter V} (r : Reducer) (vs : list V) : option V :=
  match r with Reducer_max => vmax_list vs end.

(** The slots of a [ui.data.ActiveList] (section 4): an element, or nothing
    in a slot that was skipped. *)
Abbreviation ActiveList A := (list (option A)).

Section Tracker.

Context {Pixel V : Type} {decibel : Backscatter V}.

(** A band: for every pixel a value, or nothing where the pixel is masked
    (outside the footprint of the pass, or without data). *)
Definition Raster : Type := Pixel -> option V.

(** [ee.Image].  The metadata the script reads are the acquisition time
    [system:time_start], [instrumentMode] and [orbitProperties_pass]; an
    image computed by a reduction has none of them. *)
Record Image := mkImage {
  system_time_start : option Z;
  instrumentMode : option string;
  orbitProperties_pass : option string;
  bands : list (string * Raster)
}.

Definition ImageCollection : Type := list Image.

Fixpoint band (n : string) (bs : list (string * Raster)) : option Raster :=
  match bs with
  | [] => None
  | (n', r) :: rest => if String.eqb n n' then Some r else band n rest
  end.

Definition bandNames (img : Image) : list string := (bands img).*1.

(** In COPERNICUS/S1_GRD the property [transmitterReceiverPolarisation]
    of a scene lists its polarisation bands, which are all its bands but
    the incidence [angle]. *)
Definition transmitterReceiverPolarisation (img : Image) : list string :=
  List.filter (fun n => negb (String.eqb n "angle")) (bandNames img).

(** [ee.Filter.listContains(property, value)] and [ee.Filter.eq]. *)
Definition Filter_listContains (prop : Image -> list string) (v : string)
  (img : Image) : bool :=
  existsb (String.eqb v) (prop img).

Definition Filter_eq (prop : Image -> option string) (v : string)
  (img : Image) : bool :=
  match prop img with Some x => String.eqb x v | None => false end.

(** [ImageCollection.filterDate(start, end)]: the images whose
    [system:time_start] is at or after [start] and before [end]. *)
Definition in_window (s e : Z) (img : Image) : bool :=
  match system_time_start img with
  | Some t => (s <=? t) && (t <? e)
  | None => false
  end.

Definition filterDate (s e : Z) (c : ImageCollection) : ImageCollection :=
  List.filter (in_window s e) c.

(** [select(name)]: every image keeps its metadata and its band [name]. *)
Definition Image_select (n : string) (img : Image) : Image :=
  {| system_time_start := system_time_start img;
     instrumentMode := instrumentMode img;
     orbitProperties_pass := orbitProperties_pass img;
     bands := match band n (bands img) with
              | Some r => [(n, r)]
              | None => []
              end |}.

Definition select (n : string) (c : ImageCollection) : ImageCollection :=
  map (Image_select n) c.

Definition Collection_merge (a b : ImageCollection) : ImageCollection := a ++ b.

(** [ImageCollection.max()]: "calculating the maximum value of each pixel
    across the stack of all matching bands.  Bands are matched by name."
    A pixel masked in every image stays masked; the reduction of a
    collection without images is an image without bands. *)
Definition pixel_max (rs : list Raster) : Raster :=
  fun p => vmax_list (omap (fun r => r p) rs).

Definition stack (n : string) (c : ImageCollection) : list Raster :=
  omap (fun img => band n (bands img)) c.

Definition Collection_max (c : ImageCollection) : Image :=
  {| system_time_start := None;
     instrumentMode := None;
     orbitProperties_pass := None;
     bands := match c with
              | [] => []
              | first :: _ =>
                  map (fun n => (n, pixel_max (stack n c))) (bandNames first)
              end |}.

(** [Image.addBands(dstImg, srcImg)]: the bands of the first image, then
    those of the second; a band whose name is taken "will be renamed with
    a numerical suffix (foo to foo_1 unless foo_1 exists, then foo_2
    unless it exists, etc)".  The metadata are those of the first image. *)
Fixpoint suffixed (fuel k : nat) (used : list string) (n : string) : string :=
  let n' := n +:+ "_" +:+ show_N (N.of_nat k) in
  match fuel with
  | O => n'
  | S fuel' =>
      if existsb (String.eqb n') used then suffixed fuel' (S k) used n else n'
  end.

Definition fresh (used : list string) (n : string) : string :=
  if existsb (String.eqb n) used then suffixed (length used) 1 used n else n.

Definition addBands (acc bs : list (string * Raster)) : list (string * Raster) :=
  foldl (fun acc b => acc ++ [(fresh acc.*1 b.1, b.2)]) acc bs.

Definition Image_addBands (dstImg srcImg : Image) : Image :=
  {| system_time_start := system_time_start dstImg;
     instrumentMode := instrumentMode dstImg;
     orbitProperties_pass := orbitProperties_pass dstImg;
     bands := addBands (bands dstImg) (bands srcImg) |}.

(** [ee.Image.cat(images)]: the first image with the bands of the others
    added in order. *)
Definition Image_cat (imgs : list Image) : Image :=
  match imgs with
  | [] => mkImage None None None []
  | first :: rest => foldl Image_addBands first rest
  end.

(** [footprint point d]: the pixels the platform takes around [point] for
    the distance [d], the last argument of [ui.Chart.image.series] (500 in
    the script).  Which pixels these are is the platform's.  The
    reduction of a band over them is the reducer over those that are not
    masked; nothing when there is no such pixel. *)
Variable footprint : Q * Q -> Z -> list Pixel.

Definition reduceRegion (r : Reducer) (region : Q * Q) (scale : Z)
  (b : Raster) : option V :=
  reduce r (omap b (footprint region scale)).

(** [ui.Chart.image.series(collection, region, reducer, scale)], on a
    collection of one-band images: a data point per image, at the image's
    [system:time_start], with the reduction of the band over the region;
    an image whose reduction is null gives no point. *)
Definition series_point (region : Q * Q) (r : Reducer) (scale : Z)
  (img : Image) : option (Z * V) :=
  t ← system_time_start img;
  b ← head (bands img);
  v ← reduceRegion r region scale b.2;
  Some (t, v).

Definition image_series (c : ImageCollection) (region : Q * Q) (r : Reducer)
  (scale : Z) : list (Z * V) :=
  omap (series_point region r scale) c.

(** *** Step 1 of the script: load data *)

Variable sentinel1 : ImageCollection.

Definition vh : ImageCollection :=
  List.filter (Filter_eq instrumentMode "IW")
    (List.filter (Filter_listContains transmitterReceiverPolarisation "VV")
      (List.filter (Filter_listContains transmitterReceiverPolarisation "VH")
        sentinel1)).

Definition vhA : ImageCollection :=
  List.filter (Filter_eq orbitProperties_pass "ASCENDING") vh.
Definition vhD : ImageCollection :=
  List.filter (Filter_eq orbitProperties_pass "DESCENDING") vh.

(** ** 4. The user interface

    [ui.data.ActiveList], the list behind [mapPanel.layers()] and
    [inspectorPanel.widgets()].  [set(i, x)] writes slot [i].  What a
    write past the end does is the platform's: here, as with a JavaScript
    array, it extends the list and leaves the slots in between empty.
    The script writes past the end of the layers only at the end itself
    (slots 0 to 3 in turn on an empty map), where this is an append; of
    the inspector it writes slot 11 when it has ten widgets, and only the
    position of the contact line and the number of slots until the first
    selection of a location depend on the choice. *)

Definition ActiveList_get {A} (i : nat) (l : ActiveList A) : option A :=
  mjoin (l !! i).

Definition ActiveList_set {A} (i : nat) (x : A) (l : ActiveList A)
  : ActiveList A :=
  if decide (i < length l)%nat then <[i := Some x]> l
  else l ++ replicate (i - length l) None ++ [Some x].

Definition ActiveList_add {A} (x : A) (l : ActiveList A) : ActiveList A :=
  l ++ [Some x].

(** [forEach] and [map] with a callback that mutates the element. *)
Definition ActiveList_forEach {A} (f : A -> A) (l : ActiveList A)
  : ActiveList A :=
  map (fmap f) l.

(** [l.get(i).method(...)]: mutates the element in slot [i]; on an empty
    slot [get] gives undefined and the method call throws. *)
Definition ActiveList_update {A} (i : nat) (f : A -> A) (l : ActiveList A)
  : option (ActiveList A) :=
  x ← ActiveList_get i l; Some (<[i := Some (f x)]> l).

Inductive Geometry :=
  | Point (lon lat : Q)
  | Polygon (coords : list (list (Q * Q)))
  | MultiPolygon (coords : list (list (list (Q * Q)))).

(** What a map layer displays. *)
Inductive EEObject :=
  | Displayed_Collection (c : ImageCollection)
  | Displayed_Image (i : Image)
  | Styled (g : Geometry) (color fillColor : string) (pointSize : Z)
  | Painted (strokes : list (Geometry * Z * Z)).

Record VisParams := mkVis {
  vis_min : list Z;
  vis_max : list Z;
  vis_opacity : option Q;
  vis_palette : list string
}.

(** [ui.Map.Layer(eeObject, visParams, name, shown, opacity)].  A layer
    made without a name has the platform's default label, here [None]. *)
Record Layer := mkLayer {
  eeObject : EEObject;
  visParams : VisParams;
  name : option string;
  shown : bool;
  opacity : Q
}.

Definition setShown (b : bool) (l : Layer) : Layer :=
  {| eeObject := eeObject l; visParams := visParams l; name := name l;
     shown := b; opacity := opacity l |}.

Definition setOpacity (o : Q) (l : Layer) : Layer :=
  {| eeObject := eeObject l; visParams := visParams l; name := name l;
     shown := shown l; opacity := o |}.

(** The handlers a chart can be given with [onClick]. *)
Inductive Callback := Callback_getDate.

(** The chart of [generateChart]: its data points, its options and the
    handler registered for clicks on its points. *)
Record Chart := mkChart {
  chart_data : list (Z * V);
  chart_title : string;
  chart_vAxis_title : string;
  chart_lineWidth : Z;
  chart_series : string;
  chart_onClick : option Callback
}.

Definition onClick (cb : Callback) (c : Chart) : Chart :=
  mkChart (chart_data c) (chart_title c) (chart_vAxis_title c)
    (chart_lineWidth c) (chart_series c) (Some cb).

(** The widgets that are created once and then mutated in place are
    referred to by name; their values live in the [State]. *)
Inductive Global :=
  | the_date | the_image_info | the_lon | the_lat
  | the_layerSelect | the_opacitySlider | the_dateSlider | the_locationSelect.

#[warnings="-register-all"]
Inductive Widget :=
  | Label (value : string) (style : list (string * string))
      (targetUrl : option string)
  | Panel (items : list Widget) (layout : option string)
      (style : list (string * string))
  | ChartWidget (c : Chart)
  | Shared (g : Global).

Record State := mkState {
  center : Q * Q * Z;
  layers : ActiveList Layer;
  widgets : ActiveList Widget;
  date : string;
  image_info : string;
  lon : string;
  lat : string;
  layerSelect : string;
  opacitySlider : Q;
  dateSlider : option DateRange;
  locationSelect : option string
}.

Definition with_center (c : Q * Q * Z) (st : State) : State :=
  mkState c (layers st) (widgets st) (date st) (image_info st) (lon st)
    (lat st) (layerSelect st) (opacitySlider st) (dateSlider st)
    (locationSelect st).

Definition with_layers (ls : ActiveList Layer) (st : State) : State :=
  mkState (center st) ls (widgets st) (date st) (image_info st) (lon st)
    (lat st) (layerSelect st) (opacitySlider st) (dateSlider st)
    (locationSelect st).

Definition with_widgets (ws : ActiveList Widget) (st : State) : State :=
  mkState (center st) (layers st) ws (date st) (image_info st) (lon st)
    (lat st) (layerSelect st) (opacitySlider st) (dateSlider st)
    (locationSelect st).

Definition with_date (s : string) (st : State) : State :=
  mkState (center st) (layers st) (widgets st) s (image_info st) (lon st)
    (lat st) (layerSelect st) (opacitySlider st) (dateSlider st)
    (locationSelect st).

Definition with_image_info (s : string) (st : State) : State :=
  mkState (center st) (layers st) (widgets st) (date st) s (lon st)
    (lat st) (layerSelect st) (opacitySlider st) (dateSlider st)
    (locationSelect st).

Definition with_lon_lat (x y : string) (st : State) : State :=
  mkState (center st) (layers st) (widgets st) (date st) (image_info st) x
    y (layerSelect st) (opacitySlider st) (dateSlider st)
    (locationSelect st).

Definition with_layerSelect (s : string) (st : State) : State :=
  mkState (center st) (layers st) (widgets st) (date st) (image_info st)
    (lon st) (lat st) s (opacitySlider st) (dateSlider st)
    (locationSelect st).

Definition with_opacitySlider (o : Q) (st : State) : State :=
  mkState (center st) (layers st) (widgets st) (date st) (image_info st)
    (lon st) (lat st) (layerSelect st) o (dateSlider st)
    (locationSelect st).

Definition with_dateSlider (r : DateRange) (st : State) : State :=
  mkState (center st) (layers st) (widgets st) (date st) (image_info st)
    (lon st) (lat st) (layerSelect st) (opacitySlider st) (Some r)
    (locationSelect st).

Definition with_locationSelect (s : string) (st : State) : State :=
  mkState (center st) (layers st) (widgets st) (date st) (image_info st)
    (lon st) (lat st) (layerSelect st) (opacitySlider st) (dateSlider st)
    (Some s).

(** *** Step 4: the imagery aggregation menu *)

Definition selectItems : list string := ["Day"; "Month"; "Year"].

(** The local [dict] of the handler, on the three items the select
    offers ([selectItems]); for a string that is no key of it the label
    gets "undefined".  (The members a JavaScript object inherits are not
    keys here: no such string can be selected.) *)
Definition dict (selected : string) : string :=
  if String.eqb selected "Day" then "daily"
  else if String.eqb selected "Month" then "monthly"
  else if String.eqb selected "Year" then "yearly"
  else "undefined".

Definition name_is (s : string) (l : Layer) : bool :=
  match name l with Some n => String.eqb s n | None => false end.

(** [layerSelect]'s [onChange]: every layer of the map is shown when its
    name is the selected item and hidden otherwise; the label is set once
    for each layer visited. *)
Definition layerSelect_onChange (selected : string) (st : State) : State :=
  let ls := ActiveList_forEach (fun element => setShown (name_is selected element) element)
              (layers st) in
  let st' := with_layers ls st in
  if existsb (fun e => bool_decide (is_Some e)) (layers st)
  then with_image_info
         ("You are currently viewing " +:+ dict selected +:+ " Sentinel-1 imagery from ")
         st'
  else st'.

(** *** Step 5: the opacity slider *)

Definition opacitySlider_onSlide (value : Q) (st : State) : State :=
  with_layers (ActiveList_forEach (setOpacity value) (layers st)) st.

(** *** Step 6: the date selector *)

Definition slide_year (range : DateRange) : DateRange :=
  getRange (dr_start range) year.
Definition slide_month (range : DateRange) : DateRange :=
  getRange (dr_start range) month.

Definition vhA_monthly (range : DateRange) : ImageCollection :=
  filterDate (dr_start (slide_month range)) (dr_end (slide_month range)) vhA.
Definition vhD_monthly (range : DateRange) : ImageCollection :=
  filterDate (dr_start (slide_month range)) (dr_end (slide_month range)) vhD.
Definition vhA_annual (range : DateRange) : ImageCollection :=
  filterDate (dr_start (slide_year range)) (dr_end (slide_year range)) vhA.
Definition vhD_annual (range : DateRange) : ImageCollection :=
  filterDate (dr_start (slide_year range)) (dr_end (slide_year range)) vhD.

Definition comp_monthly (range : DateRange) : Image :=
  Image_cat
    [ Collection_max (select "VH" (vhA_monthly range));
      Collection_max (Collection_merge (select "VV" (vhA_monthly range))
                                       (select "VV" (vhD_monthly range)));
      Collection_max (select "VH" (vhD_monthly range)) ].

Definition comp_annual (range : DateRange) : Image :=
  Image_cat
    [ Collection_max (select "VH" (vhA_annual range));
      Collection_max (Collection_merge (select "VV" (vhA_annual range))
                                       (select "VV" (vhD_annual range)));
      Collection_max (select "VH" (vhD_annual range)) ].

Definition daily (range : DateRange) (st : State) : Layer :=
  mkLayer (Displayed_Collection (filterDate (dr_start range) (dr_end range) vh))
    (mkVis [-25; -20; -25] [0; 10; 0] (Some 0.8%Q) [])
    (Some "Day") (String.eqb "Day" (layerSelect st)) 1%Q.

Definition monthly (range : DateRange) (st : State) : Layer :=
  mkLayer (Displayed_Image (comp_monthly range))
    (mkVis [-25; -20; -25] [-10; 0; -10] (Some 0.8%Q) [])
    (Some "Month") (String.eqb "Month" (layerSelect st)) 1%Q.

Definition yearly (range : DateRange) (st : State) : Layer :=
  mkLayer (Displayed_Image (comp_annual range))
    (mkVis [-25; -20; -25] [-10; 0; -10] (Some 0.8%Q) [])
    (Some "Year") (String.eqb "Year" (layerSelect st)) 1%Q.

Definition slide (range : DateRange) (st : State) : State :=
  let st1 := with_date (format_MMMM_dd_YYYY (dr_start range)) st in
  with_layers
    (ActiveList_set 2 (yearly range st)
      (ActiveList_set 1 (monthly range st)
        (ActiveList_set 0 (daily range st) (layers st1))))
    st1.

(** [dateSlider.setValue(t)] fires [onChange], here [slide], with the
    range of the slider's period that holds [t].  Which range that is is
    the platform's, not the script's: it is taken here to be the UTC day
    of [t] ([period: 1]), for every [t]; the ends of the slider (the date
    of the first image and [now]) are not looked at.  What is stated of
    [slide] itself below holds for every range. *)
Definition dateSlider_setValue (t : Z) (st : State) : State :=
  let range := getRange t day in
  slide range (with_dateSlider range st).

(** *** Step 7: the RFI chart *)

Record Coords := mkCoords { coords_lon : Q; coords_lat : Q }.

Definition dot (coords : Coords) : Layer :=
  mkLayer (Styled (Point (coords_lon coords) (coords_lat coords))
             "black" "#00FFFF" 7)
    (mkVis [] [] None []) (Some "clicked location") true 1%Q.

Definition rfiChart (coords : Coords) : Chart :=
  mkChart
    (image_series (select "VH" vh) (coords_lon coords, coords_lat coords)
       Reducer_max 500)
    ("Radio Frequency Interference at (lon:" +:+ toFixed2 (coords_lon coords)
     +:+ ", lat:" +:+ toFixed2 (coords_lat coords) +:+ ")")
    "VH " 2 "Area of Interest" None.

(** The chart is put in slot 3 of the inspector and then given its click
    handler: the chart in the slot is that same object. *)
Definition generateChart (coords : Coords) (st : State) : State :=
  let st1 := with_lon_lat ("lon: " +:+ toFixed2 (coords_lon coords))
               ("lat: " +:+ toFixed2 (coords_lat coords)) st in
  let st2 := with_layers (ActiveList_set 3 (dot coords) (layers st1)) st1 in
  let st3 := with_widgets
               (ActiveList_set 3 (ChartWidget (rfiChart coords)) (widgets st2))
               st2 in
  with_widgets
    (ActiveList_set 3 (ChartWidget (onClick Callback_getDate (rfiChart coords)))
       (widgets st3))
    st3.

(** The chart's [onClick] handler; [callback] is the x value of the
    clicked point, a time in milliseconds. *)
Definition getDate (callback : Z) (st : State) : State :=
  dateSlider_setValue callback st.

(** *** Step 8: the example locations *)

(** The double-quote character. *)
Definition dq : string := String (Ascii.ascii_of_nat 34) "".

Definition contact : Widget :=
  Panel [Label "Please direct queries to @oballinger" [("font-size", "9px")]
           (Some "https://twitter.com/oballinger")] None [].

(** On an empty slot [get] is undefined and the call on it throws: the
    handler stops, which is [None]. *)
Definition configureExample (text : list Widget) (opacity : Q) (st : State)
  : option State :=
  let ls0 := ActiveList_forEach (setShown false) (layers st) in
  ls1 ← ActiveList_update 1 (setShown true) ls0;
  ls2 ← ActiveList_update 3 (setShown true) ls1;
  ls3 ← ActiveList_update 1 (setOpacity opacity) ls2;
  let st1 := with_layers ls3 st in
  let textpanel := Panel text None [] in
  Some (with_widgets
          (ActiveList_set 11 contact
             (ActiveList_set 10 textpanel (widgets st1)))
          st1).

(** Dammam (Saudi Arabia) Patriot Missile *)

Definition radar : Geometry :=
  Polygon [[(49.95055676743417, 26.60577361047956); (49.95055676743417, 26.605668090179968); (49.9506694202128, 26.605668090179968); (49.9506694202128, 26.60577361047956)]]%Q.

Definition power : Geometry :=
  Polygon [[(49.95069356009393, 26.6057028639258); (49.95069356009393, 26.605602139943276); (49.950796825141005, 26.605602139943276); (49.950796825141005, 26.6057028639258)]]%Q.

Definition control : Geometry :=
  Polygon [[(49.9507780496779, 26.605594945369706); (49.9507780496779, 26.605497818582162); (49.95088399693399, 26.605497818582162); (49.95088399693399, 26.605594945369706)]]%Q.

Definition launchers : Geometry :=
  MultiPolygon
    [[[(49.949325633496336, 26.60563452803374); (49.949325633496336, 26.6054690527739); (49.94951338812738, 26.6054690527739); (49.94951338812738, 26.60563452803374)]];
     [[(49.94854242846399, 26.6054582609008); (49.94854242846399, 26.60532396195055); (49.948700678795866, 26.60532396195055); (49.948700678795866, 26.6054582609008)]];
     [[(49.9505621318522, 26.606960694701094); (49.9505621318522, 26.606833592010936); (49.950706971139006, 26.606833592010936); (49.950706971139006, 26.606960694701094)]];
     [[(49.9504172925654, 26.60782678197863); (49.9504172925654, 26.60769968025089); (49.95055140301614, 26.60769968025089); (49.95055140301614, 26.60782678197863)]]]%Q.

Definition outline : EEObject :=
  Painted [(radar, 5, 1); (power, 5, 2); (control, 5, 3); (launchers, 5, 0)].

(** [mapPanel.addLayer(outline, {palette, min, max})]: a layer without a
    name, shown, at opacity 1, appended to the layers of the map. *)
Definition outline_layer : Layer :=
  mkLayer outline (mkVis [0] [3] None ["black"; "red"; "green"; "blue"])
    None true 1%Q.

Definition loc1_function (st : State) : option State :=
  let lab1 := Label
    "This is a MIM-104 Patriot PAC-2 missile defense system stationed at an Aramco oil refinery in Dammam, Saudi Arabia. At the center of the system are three vehicles: the AN/MPQ-53 radar (red), the control station (blue), and the power generator truck (green). The black boxes indicate the missile launcher trucks."
    [] None in
  let link := Label
    "This video provides an overivew of the Patriot missile system."
    [] (Some "https://youtu.be/NG8wF1o6r58?t=29") in
  let lab2 := Label
    "By gradually zooming out and increasing the opacity of the Synthetic Aperture Radar layer using the slider above, it becomes clear that the radar on this missile defense system causing significant interference with the Sentinel-1 satellite."
    [] None in
  let lab3 := Label
    "The RFI Graph above shows that the radar was first turned on a this location around April 26th, 2021. There is a drop in intereference in July and August, suggesting that it was turned off during this period. The radar comes back online in September, and has been on ever since."
    [] None in
  configureExample [lab1; link; lab2; lab3] 0.1%Q
    (with_layers (ActiveList_add outline_layer (layers st)) st).

(** Dimona Radar Facility *)

Definition loc2_function (st : State) : option State :=
  let lab1 := Label
    ("Located in Israel's Negev Desert, the Dimona Radar Facility is a " +:+ dq +:+ "top-secret X-band radar staffed by around 120 American technicians" +:+ dq +:+ ".")
    [] (Some "http://content.time.com/time/world/article/0,8599,1846749,00.html") in
  let lab2 := Label
    "The radar can monitor the take-off of any aircraft or missile up to 1,500 miles away, which would give Israel an extra 60-70 seconds to react if Iran fired a missile. The radar is so powerful that Israeli officials feared that RFI would impact the accuracy of anti-tank missiles being tested nearby."
    [] None in
  let lab3 := Label
    "Israel's Negev Nuclear Research Center is located in the same valley, just a few kilometers to the north. The RFI Graph above shows consistent and strong interference since 2017."
    [] None in
  configureExample [lab1; lab2; lab3] 0.8%Q st.

(** Rostov Radar *)

Definition loc3_function (st : State) : option State :=
  let lab1 := Label
    "Rostov-On-Don has seen a significant military buildup and hosts the headquarters of Russia’s 4th Air and Air Defense Forces Command. The dot indictes a facility that is likely the source of the RFI."
    [] None in
  let lab2 := Label
    ("According to Wikimapia, this facility is operated by FEDERAL STATE UNITARY ENTERPRISE " +:+ dq +:+ "ROSTOV-ON-DON RESEARCH INSTITUTE OF RADIO COMMUNICATIONS" +:+ dq +:+ "")
    [] (Some "https://www.openstreetmap.org/way/106283207#map=17/47.35430/39.78441") in
  let lab3 := Label
    "Its official registration lists it as a subsidiary of the Federal Security Services of the Russian Federation (FSB). The RFI graph above shows radar activity throughout June and July 2021. You can view the facility likely causing this interference by zooming in to the blue dot and reducing the opacity using the slider."
    [] None in
  configureExample [lab1; lab2; lab3] 0.8%Q st.

(** White Sands Missile Range *)

Definition loc4_function (st : State) : option State :=
  let lab1 := Label
    "The White Sands Missile Range (WSMR) is a U.S. Military base located in New Mexico."
    [] (Some "https://en.wikipedia.org/wiki/White_Sands_Missile_Range") in
  let lab2 := Label
    "Patriot missiles are often tested at Launch Complex 38. The RFI graph shows significant radar activity on December 14th, 2021, and February 23rd, 2020. Smaller signatures are also visible in April and June 2021, as well as at various points since 2017."
    [] None in
  configureExample [lab1; lab2] 0.8%Q st.

(** The pre-set locations of the pulldown menu. *)
Record Location := mkLocation {
  loc_lon : Q;
  loc_lat : Q;
  loc_zoom : Z;
  loc_date : string;
  loc_func : State -> option State
}.

Definition locationDict : list (string * Location) :=
  [ ("Dammam, Saudi Arabia",
      mkLocation 49.949916 26.606379 19 "2022-01-01" loc1_function);
    ("Dimona Radar Facility, Israel",
      mkLocation 35.0948799 30.9685089 11 "2019-02-19" loc2_function);
    ("Rostov-on-Don, Russia",
      mkLocation 39.783387 47.354445 11 "2021-07-22" loc3_function);
    ("White Sands Missile Range, USA",
      mkLocation (-106.3122) 31.9735 10 "2021-12-14" loc4_function) ]%Q.

(** [locationDict[value]] for the keys the dictionary has, which are the
    items of the select.  For any other string the handler throws, on the
    entry when there is none and in [generateChart] when the object
    inherits a member of that name; both are [None] here. *)
Fixpoint lookup_location (value : string) (d : list (string * Location))
  : option Location :=
  match d with
  | [] => None
  | (k, l) :: rest => if String.eqb value k then Some l else lookup_location value rest
  end.

Definition locations : list string := locationDict.*1.

(** [locationSelect]'s [onChange]. *)
Definition locationSelect_onChange (value : string) (st : State)
  : option State :=
  location ← lookup_location value locationDict;
  let st1 := with_center (loc_lon location, loc_lat location, loc_zoom location) st in
  let st2 := generateChart (mkCoords (loc_lon location) (loc_lat location)) st1 in
  t ← parse_date (loc_date location);
  let st3 := dateSlider_setValue t st2 in
  loc_func location st3.

(** *** Steps 9 and 10: map setup and initialisation

    [clock] is the time the script starts at ([Date.now()]). *)

Definition now (clock : Z) : Z := clock - 7 * msPerDay.

Definition initialPoint : Coords := mkCoords 49.950656 26.605644.

Definition intro : Widget :=
  Panel
    [ Label "Bellingcat Radar Interference Tracker"
        [("fontSize", "20px"); ("fontWeight", "bold")] None;
      Label
        "This map shows interference from ground based radar systems as red and blue streaks. Most of these are military radars. Click on the map to generate a historical graph of Radio Frequency Interference (RFI) at a particular location:"
        [] None ]
    None [].

Definition viewPanel : Widget :=
  Panel
    [ Label "Display imagery aggregated by:" [] None; Shared the_layerSelect;
      Label "Opacity: " [] None; Shared the_opacitySlider ]
    (Some "horizontal") [("stretch", "horizontal")].

Definition locationPanel : Widget :=
  Panel
    [ Label "Visit Example Locations" [("font-size", "24px")] None;
      Shared the_locationSelect ]
    None [].

Definition inspectorPanel_initial : ActiveList Widget :=
  ActiveList_set 11 contact
    (ActiveList_add locationPanel
    (ActiveList_add viewPanel
    (ActiveList_add
      (Label
        "Use the dropdown below to switch between daily, monthly, and annually aggregated imagery. Annual imagery is useful for monitoring large areas over time for signs of radar activity. When a radar is spotted, monthly and daily imagery can be used for a more detailed investigation."
        [] None)
    (ActiveList_add
      (Panel [Shared the_image_info; Shared the_date] (Some "horizontal") [])
    (ActiveList_add (Label "View Different Layers" [("font-size", "24px")] None)
    (ActiveList_add
      (Label
        "Click on any point in the graph above to display imagery from that date"
        [] None)
    (ActiveList_add (Label "placeholder" [] None)
    (ActiveList_add
      (Panel [Shared the_lon; Shared the_lat] (Some "horizontal") [])
    (ActiveList_add (Shared the_dateSlider)
    (ActiveList_add intro [])))))))))).

(** The widgets as they are created, before any handler has run. *)
Definition blank (clock : Z) : State :=
  mkState (coords_lon initialPoint, coords_lat initialPoint, 11)
    [] []
    (format_MMMM_dd_YYYY (now clock))
    "You are currently viewing monthly Sentinel-1 imagery from "
    "" "" "Month" 1%Q None None.

(** [start]: the acquisition time of the first image of the archive,
    which the date slider is built from; there is none when the archive
    is empty. *)
Definition start : option Z :=
  first ← head sentinel1; system_time_start first.

(** The script from top to bottom: [start] is read, the widgets are
    created, the date slider is built from [start] to [now] and set to
    [now] (which runs [slide]), the inspector is filled, the chart of the
    initial point is made, and the Month layer shown.  Without a [start]
    the slider cannot be built; a slider that would start after its end
    is not covered. *)
Definition init (clock : Z) : option State :=
  s ← start;
  if s <=? now clock then
    let st1 := dateSlider_setValue (now clock) (blank clock) in
    let st2 := with_widgets inspectorPanel_initial st1 in
    let st3 := generateChart initialPoint st2 in
    ls ← ActiveList_update 1 (setShown true) (layers st3);
    Some (with_layers ls st3)
  else None.

Definition run (cb : Callback) (x : Z) (st : State) : State :=
  match cb with Callback_getDate => getDate x st end.

(** A click on the point at time [t] of the chart in the inspector: the
    handler of the chart, if it has one, is called with [t]. *)
Definition chart_click (t : Z) (st : State) : option State :=
  match ActiveList_get 3 (widgets st) with
  | Some (ChartWidget c) =>
      if existsb (fun p => p.1 =? t) (chart_data c)
      then Some (match chart_onClick c with
                 | Some cb => run cb t st
                 | None => st
                 end)
      else None
  | _ => None
  end.

(** The user's gestures: the widget takes the new value, then its
    handler runs.  [None]: the gesture is not there to make (no such
    chart point), or the handler throws. *)
Inductive Event :=
  | MapClick (coords : Coords)
  | SelectLayer (selected : string)
  | SlideOpacity (value : Q)
  | SetDate (t : Z)
  | ChartClick (t : Z)
  | SelectLocation (value : string).

Definition step (e : Event) (st : State) : option State :=
  match e with
  | MapClick coords => Some (generateChart coords st)
  | SelectLayer selected =>
      Some (layerSelect_onChange selected (with_layerSelect selected st))
  | SlideOpacity value =>
      Some (opacitySlider_onSlide value (with_opacitySlider value st))
  | SetDate t => Some (dateSlider_setValue t st)
  | ChartClick t => chart_click t st
  | SelectLocation value =>
      locationSelect_onChange value (with_locationSelect value st)
  end.

(** ** 5. Vocabulary of the statements *)

(** The window each of the three layers of [slide] is filtered to. *)
Definition window (u : Unit) (range : DateRange) : DateRange :=
  match u with
  | day => range
  | month => slide_month range
  | year => slide_year range
  end.

(** The slot [slide] puts the layer of each granularity in, and that
    layer. *)
Definition slot (u : Unit) : nat :=
  match u with day => 0 | month => 1 | year => 2 end.

Definition layer_of (u : Unit) (range : DateRange) (st : State) : Layer :=
  match u with
  | day => daily range st
  | month => monthly range st
  | year => yearly range st
  end.

(** [r] is, pixel by pixel, the maximum over the images of [c] of their
    band [n]: a value one of them has at the pixel and none exceeds;
    masked where all of them are. *)
Definition is_pixel_max (c : ImageCollection) (n : string) (r : Raster) : Prop :=
  forall p,
    match r p with
    | Some v =>
        (exists img b, In img c /\ band n (bands img) = Some b /\ b p = Some v) /\
        (forall img b w, In img c -> band n (bands img) = Some b ->
                         b p = Some w -> vleb w v = true)
    | None =>
        forall img b, In img c -> band n (bands img) = Some b -> b p = None
    end.

(** A collection filtered to a window. *)
Definition restricted (w : DateRange) (c : ImageCollection) : ImageCollection :=
  filterDate (dr_start w) (dr_end w) c.

(** A three-band image, in the order: maximum of VH over the ascending
    passes of the window, maximum of VV over the ascending and descending
    passes of the window merged, maximum of VH over the descending passes
    of the window. *)
Definition is_composite (w : DateRange) (img : Image) : Prop :=
  exists r0 r1 r2,
    bands img = [("VH", r0); ("VV", r1); ("VH_1", r2)] /\
    is_pixel_max (restricted w vhA) "VH" r0 /\
    is_pixel_max (restricted w (Collection_merge vhA vhD)) "VV" r1 /\
    is_pixel_max (restricted w vhD) "VH" r2.

(** The composite [slide] builds, as a function of the window:
    [comp_monthly] is the one of the month window, [comp_annual] the one
    of the year window. *)
Definition composite (w : DateRange) : Image :=
  Image_cat
    [ Collection_max (select "VH" (restricted w vhA));
      Collection_max (Collection_merge (select "VV" (restricted w vhA))
                                       (select "VV" (restricted w vhD)));
      Collection_max (select "VH" (restricted w vhD)) ].

(** The data point of one image of [vh]: its time and the maximum of its
    VH band over the pixels sampled for the point at scale 500. *)
Definition vh_point (region : Q * Q) (img : Image) : option (Z * V) :=
  t ← system_time_start img;
  b ← band "VH" (bands img);
  v ← vmax_list (omap b (footprint region 500));
  Some (t, v).

(** What [configureExample] does to the layer in slot [i]. *)
Definition configured (opacity : Q) (i : nat) (l : Layer) : Layer :=
  if (i =? 1)%nat then setOpacity opacity (setShown true l)
  else if (i =? 3)%nat then setShown true l
  else setShown false l.

Definition white_sands : string := "White Sands Missile Range, USA".

(** The two labels of the White Sands text. *)
Definition white_sands_labels : list Widget :=
  [ Label
      "The White Sands Missile Range (WSMR) is a U.S. Military base located in New Mexico."
      [] (Some "https://en.wikipedia.org/wiki/White_Sands_Missile_Range");
    Label
      "Patriot missiles are often tested at Launch Complex 38. The RFI graph shows significant radar activity on December 14th, 2021, and February 23rd, 2020. Smaller signatures are also visible in April and June 2021, as well as at various points since 2017."
      [] None ].

(** The layers of the map once an example location has been configured
    with opacity [o], starting from [st]: slots 1 (Month) and 3 (clicked
    location) are shown and no other; slot 1 is at opacity [o], slots 0,
    2 and 3 at opacity 1; the layers [st] had above slot 3 are hidden and
    otherwise as they were. *)
Definition location_layers (o : Q) (st st' : State) : Prop :=
  (forall i L, ActiveList_get i (layers st') = Some L ->
     (shown L = true <-> i = 1%nat \/ i = 3%nat)) /\
  (exists L, ActiveList_get 1 (layers st') = Some L /\
     name L = Some "Month" /\ opacity L = o) /\
  (exists L, ActiveList_get 3 (layers st') = Some L /\
     name L = Some "clicked location" /\ opacity L = 1%Q) /\
  (exists L, ActiveList_get 0 (layers st') = Some L /\
     name L = Some "Day" /\ opacity L = 1%Q) /\
  (exists L, ActiveList_get 2 (layers st') = Some L /\
     name L = Some "Year" /\ opacity L = 1%Q) /\
  (forall i, (4 <= i < length (layers st))%nat ->
     ActiveList_get i (layers st') = setShown false <$> ActiveList_get i (layers st)).

(** The opacity the function of each location passes to
    [configureExample]. *)
Definition site_opacity (value : string) : Q :=
  if String.eqb value "Dammam, Saudi Arabia" then 0.1 else 0.8.

(** What the interface shows besides the imagery: everything in the
    state but the images and collections the layers display, that is the
    view, the layers' stretch, name, visibility and opacity, the widgets
    and the values of labels, selects and sliders. *)
Definition surface (st : State) :=
  (center st,
   map (fmap (fun l => (visParams l, name l, shown l, opacity l))) (layers st),
   widgets st, date st, image_info st, lon st, lat st, layerSelect st,
   opacitySlider st, dateSlider st, locationSelect st).

(** The name [slide] gives the layer of each granularity. *)
Definition unit_name (u : Unit) : string :=
  match u with day => "Day" | month => "Month" | year => "Year" end.

(** The select and the map agree: the layers of the three granularities
    are in their slots, and each is shown exactly when the select holds
    its name. *)
Definition selection_visible (st : State) : Prop :=
  forall u, exists L,
    ActiveList_get (slot u) (layers st) = Some L /\
    name L = Some (unit_name u) /\
    (shown L = true <-> layerSelect st = unit_name u).


(** The marker, the chart and the two coordinate labels are those of the
    point [coords]. *)
Definition inspected (coords : Coords) (st : State) : Prop :=
  lon st = "lon: " +:+ toFixed2 (coords_lon coords) /\
  lat st = "lat: " +:+ toFixed2 (coords_lat coords) /\
  (exists L, ActiveList_get 3 (layers st) = Some L /\
     eeObject L = eeObject (dot coords) /\ name L = Some "clicked location") /\
  ActiveList_get 3 (widgets st)
    = Some (ChartWidget (onClick Callback_getDate (rfiChart coords))).

(** What the layer of a granularity displays for the date [t]: the
    passes of the day, or the composite of the month or year. *)
Definition imagery (u : Unit) (t : Z) : EEObject :=
  match u with
  | day => Displayed_Collection (restricted (getRange t day) vh)
  | _ => Displayed_Image (composite (getRange t u))
  end.

(** The slider, the date label and the three layers are those of the
    date [t]. *)
Definition dated (t : Z) (st : State) : Prop :=
  dateSlider st = Some (getRange t day) /\
  date st = format_MMMM_dd_YYYY t /\
  forall u, exists L,
    ActiveList_get (slot u) (layers st) = Some L /\
    name L = Some (unit_name u) /\ eeObject L = imagery u t.


(** The states the interface can be in: the one the script leaves, and
    those the gestures lead to from there. *)
Inductive reachable : State -> Prop :=
  | reachable_init (clock : Z) (st : State) :
      init clock = Some st -> reachable st
  | reachable_step (e : Event) (st st' : State) :
      reachable st -> step e st = Some st' -> reachable st'.

(** ** 6. Facts about the embedding *)

(** *** Active lists *)

Lemma ActiveList_get_set_eq {A} (i : nat) (x : A) (l : ActiveList A) :
  ActiveList_get i (ActiveList_set i x l) = Some x.
Proof.
  unfold ActiveList_get, ActiveList_set. case_decide as Hi.
  - by rewrite list_lookup_insert_eq.
  - rewrite lookup_app_r by lia. rewrite lookup_app_r; rewrite length_replicate; [|lia].
    by replace (i - length l - (i - length l))%nat with 0%nat by lia.
Qed.

Lemma ActiveList_get_set_ne {A} (i j : nat) (x : A) (l : ActiveList A) :
  i <> j -> ActiveList_get j (ActiveList_set i x l) = ActiveList_get j l.
Proof.
  intros Hne. unfold ActiveList_get, ActiveList_set. case_decide as Hi.
  - by rewrite list_lookup_insert_ne.
  - destruct (decide (j < length l)%nat) as [Hj|Hj].
    + by rewrite lookup_app_l.
    + rewrite lookup_app_r by lia. rewrite (lookup_ge_None_2 l j) by lia.
      destruct (decide (j - length l < i - length l)%nat) as [Hlt|Hge].
      * rewrite lookup_app_l by (rewrite length_replicate; lia).
        by rewrite lookup_replicate_2.
      * rewrite lookup_app_r by (rewrite length_replicate; lia).
        rewrite length_replicate.
        rewrite lookup_ge_None_2; [done|]. simpl. lia.
Qed.

Lemma ActiveList_get_forEach {A} (f : A -> A) (i : nat) (l : ActiveList A) :
  ActiveList_get i (ActiveList_forEach f l) = f <$> ActiveList_get i l.
Proof.
  unfold ActiveList_get, ActiveList_forEach. rewrite list_lookup_fmap.
  by destruct (l !! i) as [[?|]|].
Qed.

Lemma ActiveList_get_add {A} (x : A) (l : ActiveList A) :
  ActiveList_get (length l) (ActiveList_add x l) = Some x.
Proof.
  unfold ActiveList_get, ActiveList_add.
  rewrite lookup_app_r by lia. by rewrite Nat.sub_diag.
Qed.

Lemma ActiveList_get_add_lt {A} (x : A) (i : nat) (l : ActiveList A) :
  (i < length l)%nat -> ActiveList_get i (ActiveList_add x l) = ActiveList_get i l.
Proof.
  intros Hi. unfold ActiveList_get, ActiveList_add. by rewrite lookup_app_l.
Qed.

Lemma ActiveList_get_Some_lt {A} (i : nat) (x : A) (l : ActiveList A) :
  ActiveList_get i l = Some x -> (i < length l)%nat.
Proof.
  unfold ActiveList_get. intros E. apply lookup_lt_is_Some.
  destruct (l !! i); [eauto|done].
Qed.

Lemma ActiveList_update_Some {A} (i : nat) (f : A -> A) (x : A)
  (l : ActiveList A) :
  ActiveList_get i l = Some x ->
  exists l', ActiveList_update i f l = Some l' /\
    length l' = length l /\
    ActiveList_get i l' = Some (f x) /\
    forall j, j <> i -> ActiveList_get j l' = ActiveList_get j l.
Proof.
  intros E. pose proof (ActiveList_get_Some_lt _ _ _ E) as Hlt.
  unfold ActiveList_update. rewrite E. simpl. eexists. split; [done|].
  split; [by rewrite length_insert|]. split.
  - unfold ActiveList_get. by rewrite list_lookup_insert_eq.
  - intros j Hj. unfold ActiveList_get. by rewrite list_lookup_insert_ne.
Qed.

Lemma ActiveList_set_length {A} (i : nat) (x : A) (l : ActiveList A) :
  length (ActiveList_set i x l) = Nat.max (S i) (length l).
Proof.
  unfold ActiveList_set. case_decide.
  - rewrite length_insert. lia.
  - rewrite !length_app, length_replicate. simpl. lia.
Qed.

(** *** The windows of [slide] *)

Lemma slide_layer (u : Unit) (range : DateRange) (st : State) :
  ActiveList_get (slot u) (layers (slide range st)) = Some (layer_of u range st).
Proof.
  unfold slide. cbn [layers with_layers with_date].
  destruct u; cbn [slot layer_of].
  - by rewrite ActiveList_get_set_eq.
  - rewrite ActiveList_get_set_ne by lia. by rewrite ActiveList_get_set_eq.
  - rewrite !ActiveList_get_set_ne by lia. by rewrite ActiveList_get_set_eq.
Qed.

Lemma slide_layer_other (i : nat) (range : DateRange) (st : State) :
  (3 <= i)%nat ->
  ActiveList_get i (layers (slide range st)) = ActiveList_get i (layers st).
Proof.
  intros Hi. unfold slide. cbn [layers with_layers with_date].
  by rewrite !ActiveList_get_set_ne by lia.
Qed.

Lemma filterDate_In (s e : Z) (c : ImageCollection) (img : Image) :
  In img (filterDate s e c) <->
  In img c /\ exists t, system_time_start img = Some t /\ s <= t < e.
Proof.
  unfold filterDate. rewrite filter_In. unfold in_window.
  destruct (system_time_start img) as [t|]; split.
  - intros [Hin Hb]. split; [done|]. exists t. split; [done|lia].
  - intros [Hin (t' & [= <-] & Hb)]. split; [done|lia].
  - intros [_ [=]].
  - intros [_ (t' & [=] & _)].
Qed.

Lemma day_range_start (t : Z) : day_of (dr_start (getRange t day)) = day_of t.
Proof.
  unfold getRange. destruct (civil_from_days (day_of t)) as [[y m] d].
  cbn [dr_start]. apply day_of_instant.
Qed.

Lemma getRange_same_day (t t' : Z) (u : Unit) :
  day_of t = day_of t' -> u <> day -> getRange t u = getRange t' u.
Proof.
  intros E Hu. unfold getRange. rewrite E.
  destruct (civil_from_days (day_of t')) as [[y m] d]. by destruct u.
Qed.

Lemma window_getRange (u : Unit) (t : Z) : window u (getRange t day) = getRange t u.
Proof.
  destruct u; cbn [window]; [| |done].
  - unfold slide_year. apply getRange_same_day; [apply day_range_start|done].
  - unfold slide_month. apply getRange_same_day; [apply day_range_start|done].
Qed.

(** What the layer of a granularity displays, written out with the
    filters of the window [w]: for the day the images of [vh] in [w], for
    the month and the year the three maxima over [w] joined. *)
Lemma layer_of_filtered (u : Unit) (range : DateRange) (st : State) :
  eeObject (layer_of u range st)
  = match u with
    | day => Displayed_Collection
               (filterDate (dr_start (window u range)) (dr_end (window u range)) vh)
    | _ => Displayed_Image
             (Image_cat
                [ Collection_max
                    (select "VH" (filterDate (dr_start (window u range))
                                             (dr_end (window u range)) vhA));
                  Collection_max
                    (Collection_merge
                       (select "VV" (filterDate (dr_start (window u range))
                                                (dr_end (window u range)) vhA))
                       (select "VV" (filterDate (dr_start (window u range))
                                                (dr_end (window u range)) vhD)));
                  Collection_max
                    (select "VH" (filterDate (dr_start (window u range))
                                             (dr_end (window u range)) vhD)) ])
    end.
Proof. by destruct u. Qed.

(** C1.  The window of each layer, as [slide] computes it from the range
    it is handed.  For every range: the layer in the slot of the
    granularity displays the imagery filtered to the window of that
    granularity, the Day window being the range itself and the Month and
    Year windows the calendar month and year (UTC) of the start of the
    range; the filter keeps exactly the images taken at or after the
    start of the window and before its end.  When the range is the UTC
    day of the date [t] set on the slider (the slider's period is one
    day), each of the three windows holds [t], starts at 00:00 UTC on the
    first day of the calendar day, month or year of [t] and ends where
    the next one starts.  For a date on 2018-06-10 the Year window is
    [2018-01-01, 2019-01-01). *)
Theorem slide_window_canonical :
  (forall (range : DateRange) (u : Unit) (st : State),
     exists L,
       ActiveList_get (slot u) (layers (slide range st)) = Some L /\
       name L = Some (unit_name u) /\
       eeObject L
       = match u with
         | day => Displayed_Collection
                    (filterDate (dr_start (window u range))
                                (dr_end (window u range)) vh)
         | _ => Displayed_Image
                  (Image_cat
                     [ Collection_max
                         (select "VH" (filterDate (dr_start (window u range))
                                                  (dr_end (window u range)) vhA));
                       Collection_max
                         (Collection_merge
                            (select "VV" (filterDate (dr_start (window u range))
                                                     (dr_end (window u range)) vhA))
                            (select "VV" (filterDate (dr_start (window u range))
                                                     (dr_end (window u range)) vhD)));
                       Collection_max
                         (select "VH" (filterDate (dr_start (window u range))
                                                  (dr_end (window u range)) vhD)) ])
         end) /\
  (forall range : DateRange,
     window day range = range /\
     is_canonical month (window month range) = true /\
     dr_start (window month range) <= dr_start range < dr_end (window month range) /\
     is_canonical year (window year range) = true /\
     dr_start (window year range) <= dr_start range < dr_end (window year range)) /\
  (forall (w : DateRange) (c : ImageCollection) (img : Image),
     In img (filterDate (dr_start w) (dr_end w) c) <->
     In img c /\ exists ts, system_time_start img = Some ts
                            /\ dr_start w <= ts < dr_end w) /\
  (forall (t : Z) (range : DateRange) (u : Unit),
     is_canonical day range = true ->
     dr_start range <= t < dr_end range ->
     dr_start (window u range) <= t < dr_end (window u range) /\
     is_canonical u (window u range) = true /\
     (instant 2018 6 10 <= t < instant 2018 6 11 ->
      window year range = mkDateRange (instant 2018 1 1) (instant 2019 1 1))).
Proof.
  split; [|split; [|split]].
  - intros range u st. exists (layer_of u range st).
    split; [apply slide_layer|]. split; [by destruct u|].
    apply layer_of_filtered.
  - intros r. cbn [window]. unfold slide_month, slide_year.
    split; [reflexivity|].
    repeat split; try apply getRange_canonical; apply getRange_contains.
  - intros w c img. apply filterDate_In.
  - intros t range u Hc Ht.
    rewrite (canonical_day_range t range Hc Ht), window_getRange.
    split; [apply getRange_contains|]. split; [apply getRange_canonical|].
    intros H2018.
    assert (E : getRange (instant 2018 6 10) year
                = mkDateRange (instant 2018 1 1) (instant 2019 1 1))
      by (vm_compute; reflexivity).
    assert (H1 : instant 2018 1 1 <= instant 2018 6 10) by (by vm_compute).
    assert (H2 : instant 2018 6 11 <= instant 2019 1 1) by (by vm_compute).
    rewrite (window_getRange year), (getRange_unique (instant 2018 6 10) t year);
      [exact E|].
    rewrite E. cbn [dr_start dr_end]. lia.
Qed.

(** *** Reductions *)

Lemma vmax_upper (x y : V) : vleb x (vmax x y) = true /\ vleb y (vmax x y) = true.
Proof.
  unfold vmax. destruct (vleb x y) eqn:E.
  - split; [done|apply vleb_refl].
  - split; [apply vleb_refl|]. by destruct (vleb_total x y) as [?|?]; [congruence|].
Qed.

Lemma vmax_list_None (vs : list V) : vmax_list vs = None <-> vs = [].
Proof. destruct vs; simpl; split; congruence. Qed.

Lemma vmax_list_Some (vs : list V) (v : V) :
  vmax_list vs = Some v ->
  In v vs /\ forall w, In w vs -> vleb w v = true.
Proof.
  revert v. induction vs as [|x rest IH]; intros v; simpl; [done|].
  destruct (vmax_list rest) as [m|] eqn:E.
  - intros [= <-]. destruct (IH m eq_refl) as [Hin Hub].
    pose proof (vmax_upper x m) as [Hx Hm]. split.
    + unfold vmax. destruct (vleb x m); auto.
    + intros w [<-|Hw]; [done|]. eapply vleb_trans; [by apply Hub|done].
  - intros [= <-]. apply vmax_list_None in E as ->. split; [by left|].
    intros w [<-|[]]. apply vleb_refl.
Qed.

Lemma In_stack (n : string) (c : ImageCollection) (b : Raster) :
  In b (stack n c) <-> exists img, In img c /\ band n (bands img) = Some b.
Proof.
  unfold stack. rewrite <- list_elem_of_In, list_elem_of_omap.
  by setoid_rewrite list_elem_of_In.
Qed.

Lemma pixel_max_spec (c : ImageCollection) (n : string) :
  is_pixel_max c n (pixel_max (stack n c)).
Proof.
  intros p. unfold pixel_max.
  destruct (vmax_list (omap (fun r => r p) (stack n c))) as [v|] eqn:E.
  - apply vmax_list_Some in E as [Hin Hub]. split.
    + apply list_elem_of_In, list_elem_of_omap in Hin as (b & Hb & Hv).
      apply list_elem_of_In, In_stack in Hb as (img & Himg & Hband). eauto.
    + intros img b w Himg Hband Hw. apply Hub.
      apply list_elem_of_In, list_elem_of_omap. exists b. split; [|done].
      apply list_elem_of_In, In_stack. eauto.
  - apply vmax_list_None in E. intros img b Himg Hband.
    destruct (b p) as [w|] eqn:Hw; [|done].
    assert (w ∈ omap (fun r => r p) (stack n c)) as Hin.
    { apply list_elem_of_omap. exists b. split; [|done].
      apply list_elem_of_In, In_stack. eauto. }
    rewrite E in Hin. by apply not_elem_of_nil in Hin.
Qed.

(** *** Bands of the images of [vh] *)

Lemma band_Some_iff (n : string) (bs : list (string * Raster)) :
  is_Some (band n bs) <-> existsb (String.eqb n) bs.*1 = true.
Proof.
  induction bs as [|[n' r] rest IH]; simpl.
  - split; [intros [? [=]]|done].
  - destruct (String.eqb n n'); simpl; [|done]. split; eauto.
Qed.

Lemma listContains_band (n : string) (img : Image) :
  n <> "angle" ->
  Filter_listContains transmitterReceiverPolarisation n img = true ->
  is_Some (band n (bands img)).
Proof.
  intros Hn. unfold Filter_listContains, transmitterReceiverPolarisation.
  rewrite existsb_exists. intros (x & Hx & E).
  apply String.eqb_eq in E as <-. apply filter_In in Hx as [Hx _].
  apply band_Some_iff, existsb_exists. exists n. split; [done|].
  apply String.eqb_refl.
Qed.

Lemma vh_bands (img : Image) :
  In img vh -> is_Some (band "VH" (bands img)) /\ is_Some (band "VV" (bands img)).
Proof.
  unfold vh. rewrite !filter_In. intros [[[_ Hvh] Hvv] _].
  split; by apply listContains_band.
Qed.

Lemma vhA_incl (img : Image) : In img vhA -> In img vh.
Proof. unfold vhA. rewrite filter_In. by intros [? _]. Qed.

Lemma vhD_incl (img : Image) : In img vhD -> In img vh.
Proof. unfold vhD. rewrite filter_In. by intros [? _]. Qed.

Lemma filterDate_incl (s e : Z) (c : ImageCollection) (img : Image) :
  In img (filterDate s e c) -> In img c.
Proof. unfold filterDate. rewrite filter_In. by intros [? _]. Qed.

Lemma filterDate_merge (s e : Z) (a b : ImageCollection) :
  filterDate s e (Collection_merge a b)
  = Collection_merge (filterDate s e a) (filterDate s e b).
Proof. apply List.filter_app. Qed.

Lemma select_merge (n : string) (a b : ImageCollection) :
  Collection_merge (select n a) (select n b) = select n (Collection_merge a b).
Proof. unfold select, Collection_merge. by rewrite map_app. Qed.

Lemma band_select (n : string) (img : Image) :
  band n (bands (Image_select n img)) = band n (bands img).
Proof.
  unfold Image_select. cbn [bands].
  destruct (band n (bands img)); simpl; [|done]. by rewrite String.eqb_refl.
Qed.

Lemma stack_select (n : string) (c : ImageCollection) :
  stack n (select n c) = stack n c.
Proof.
  unfold stack, select. induction c as [|img rest IH]; [done|].
  cbn [map omap list_omap]. rewrite band_select.
  by rewrite IH.
Qed.

Lemma Collection_max_cons (first : Image) (rest : ImageCollection) :
  bands (Collection_max (first :: rest))
  = map (fun n => (n, pixel_max (stack n (first :: rest)))) (bandNames first).
Proof. reflexivity. Qed.

Lemma bandNames_select (n : string) (img : Image) :
  is_Some (band n (bands img)) -> bandNames (Image_select n img) = [n].
Proof. intros [r Hr]. unfold bandNames, Image_select. cbn [bands]. by rewrite Hr. Qed.

(** The maximum of a non-empty collection reduced to one band: an image
    with that one band. *)
Lemma Collection_max_select (n : string) (c : ImageCollection) :
  c <> [] ->
  (forall img, In img c -> is_Some (band n (bands img))) ->
  bands (Collection_max (select n c)) = [(n, pixel_max (stack n c))].
Proof.
  intros Hne Hb. rewrite <- (stack_select n c).
  destruct c as [|img rest]; [done|].
  change (select n (img :: rest)) with (Image_select n img :: select n rest).
  rewrite Collection_max_cons, bandNames_select; [done|].
  apply Hb. by left.
Qed.

Lemma Collection_max_empty : bands (Collection_max []) = [].
Proof. reflexivity. Qed.

(** *** The composites of [slide] *)

Lemma comp_monthly_composite (range : DateRange) :
  comp_monthly range = composite (window month range).
Proof.
  unfold comp_monthly, composite, vhA_monthly, vhD_monthly, restricted, window.
  reflexivity.
Qed.

Lemma comp_annual_composite (range : DateRange) :
  comp_annual range = composite (window year range).
Proof.
  unfold comp_annual, composite, vhA_annual, vhD_annual, restricted, window.
  reflexivity.
Qed.

Lemma restricted_vh_bands (w : DateRange) (c : ImageCollection) :
  (forall img, In img c -> In img vh) ->
  forall img, In img (restricted w c) ->
    is_Some (band "VH" (bands img)) /\ is_Some (band "VV" (bands img)).
Proof. intros Hc img Hin. apply vh_bands, Hc. by eapply filterDate_incl. Qed.

Lemma Image_cat_VH_VV_VH (a b c : Image) (r0 r1 r2 : Raster) :
  bands a = [("VH", r0)] -> bands b = [("VV", r1)] -> bands c = [("VH", r2)] ->
  bands (Image_cat [a; b; c]) = [("VH", r0); ("VV", r1); ("VH_1", r2)].
Proof.
  intros Ha Hb Hc. unfold Image_cat, Image_addBands. cbn [foldl bands].
  rewrite Ha, Hb, Hc. vm_compute. reflexivity.
Qed.

Lemma composite_bands (w : DateRange) :
  restricted w vhA <> [] -> restricted w vhD <> [] ->
  bands (composite w)
  = [("VH", pixel_max (stack "VH" (restricted w vhA)));
     ("VV", pixel_max (stack "VV" (restricted w (Collection_merge vhA vhD))));
     ("VH_1", pixel_max (stack "VH" (restricted w vhD)))].
Proof.
  intros HA HD. unfold composite. apply Image_cat_VH_VV_VH.
  - apply Collection_max_select; [done|].
    intros img Hi. by apply (restricted_vh_bands w vhA vhA_incl).
  - rewrite select_merge. unfold restricted at 3. rewrite filterDate_merge.
    apply Collection_max_select.
    + unfold Collection_merge. intros E. by apply app_eq_nil in E as [??].
    + unfold Collection_merge. intros img Hi. apply in_app_or in Hi as [Hi|Hi].
      * by apply (restricted_vh_bands w vhA vhA_incl).
      * by apply (restricted_vh_bands w vhD vhD_incl).
  - apply Collection_max_select; [done|].
    intros img Hi. by apply (restricted_vh_bands w vhD vhD_incl).
Qed.

Lemma composite_is_composite (w : DateRange) :
  restricted w vhA <> [] -> restricted w vhD <> [] ->
  is_composite w (composite w).
Proof.
  intros HA HD. unfold is_composite. rewrite (composite_bands w HA HD).
  do 3 eexists. split; [reflexivity|].
  repeat split; apply pixel_max_spec.
Qed.

Lemma Image_cat_bands (a b c : Image) :
  bands (Image_cat [a; b; c]) = addBands (addBands (bands a) (bands b)) (bands c).
Proof. reflexivity. Qed.

(** The bands of the composite of a window, by the passes it holds. *)
Lemma composite_bands_by_case (w : DateRange) :
  bands (composite w)
  = match restricted w vhA, restricted w vhD with
    | [], [] => []
    | _ :: _, [] =>
        [("VH", pixel_max (stack "VH" (restricted w vhA)));
         ("VV", pixel_max (stack "VV" (restricted w vhA)))]
    | [], _ :: _ =>
        [("VV", pixel_max (stack "VV" (restricted w vhD)));
         ("VH", pixel_max (stack "VH" (restricted w vhD)))]
    | _ :: _, _ :: _ =>
        [("VH", pixel_max (stack "VH" (restricted w vhA)));
         ("VV", pixel_max (stack "VV" (restricted w (Collection_merge vhA vhD))));
         ("VH_1", pixel_max (stack "VH" (restricted w vhD)))]
    end.
Proof.
  pose proof (restricted_vh_bands w vhA vhA_incl) as BA.
  pose proof (restricted_vh_bands w vhD vhD_incl) as BD.
  destruct (restricted w vhA) as [|a ra] eqn:EA;
    destruct (restricted w vhD) as [|d rd] eqn:ED.
  - unfold composite. by rewrite EA, ED.
  - unfold composite. rewrite Image_cat_bands, EA.
    change (select "VH" []) with (@nil Image).
    change (Collection_merge (select "VV" []) (select "VV" (restricted w vhD)))
      with (select "VV" (restricted w vhD)).
    rewrite Collection_max_empty, ED.
    rewrite !Collection_max_select by (done || intros img Hi; by apply BD).
    by vm_compute.
  - unfold composite. rewrite Image_cat_bands, ED.
    change (select "VH" []) with (@nil Image).
    change (select "VV" []) with (@nil Image).
    unfold Collection_merge. rewrite app_nil_r, Collection_max_empty, EA.
    rewrite !Collection_max_select by (done || intros img Hi; by apply BA).
    by vm_compute.
  - rewrite <- EA, <- ED. apply composite_bands; by rewrite ?EA, ?ED.
Qed.

(** C2 (as amended).  Whatever range [slide] is handed, so after every
    date change, the layer of the month and the layer of the year
    display the composite of their window.  Provided the window holds at
    least one ascending and one descending pass it is a three-band
    image: per-pixel maximum of VH over the ascending passes in the
    window, of VV over the ascending and descending passes in the window
    merged, of VH over the descending passes in the window, in that
    order.  A sub-collection that is empty in the window contributes no
    band: with descending passes only the bands are VV and VH, with
    ascending passes only VH and VV, with no pass there is none; each
    band that is there is the per-pixel maximum over its passes. *)
Theorem composites_are_pixel_max (range : DateRange) (st : State) (u : Unit) :
  u <> day ->
  exists L img,
    ActiveList_get (slot u) (layers (slide range st)) = Some L /\
    eeObject L = Displayed_Image img /\
    img = composite (window u range) /\
    (restricted (window u range) vhA <> [] ->
     restricted (window u range) vhD <> [] ->
     is_composite (window u range) img) /\
    bands img
    = match restricted (window u range) vhA, restricted (window u range) vhD with
      | [], [] => []
      | _ :: _, [] =>
          [("VH", pixel_max (stack "VH" (restricted (window u range) vhA)));
           ("VV", pixel_max (stack "VV" (restricted (window u range) vhA)))]
      | [], _ :: _ =>
          [("VV", pixel_max (stack "VV" (restricted (window u range) vhD)));
           ("VH", pixel_max (stack "VH" (restricted (window u range) vhD)))]
      | _ :: _, _ :: _ =>
          [("VH", pixel_max (stack "VH" (restricted (window u range) vhA)));
           ("VV", pixel_max (stack "VV"
                     (restricted (window u range) (Collection_merge vhA vhD))));
           ("VH_1", pixel_max (stack "VH" (restricted (window u range) vhD)))]
      end /\
    (forall c n, is_pixel_max c n (pixel_max (stack n c))).
Proof.
  intros Hu.
  exists (layer_of u range st), (composite (window u range)).
  split; [apply slide_layer|].
  split; [|split; [reflexivity|split; [by apply composite_is_composite|]]].
  - destruct u; [exact (f_equal Displayed_Image (comp_annual_composite _))
                |exact (f_equal Displayed_Image (comp_monthly_composite _))
                |by destruct Hu].
  - split; [apply composite_bands_by_case|apply pixel_max_spec].
Qed.

(** *** The Day layer *)

(** C3.  After a date change the Day layer displays a collection, not a
    reduced image: the images of [vh] taken in the day of the date, each
    one as it is in the archive. *)
Theorem daily_layer_is_filtered_collection (t : Z) (st : State) :
  let range := getRange t day in
  let c := filterDate (dr_start range) (dr_end range) vh in
  exists L,
    ActiveList_get 0 (layers (dateSlider_setValue t st)) = Some L /\
    name L = Some "Day" /\
    eeObject L = Displayed_Collection c /\
    is_canonical day range = true /\
    dr_start range <= t < dr_end range /\
    (forall img, In img c <->
       In img vh /\ exists ts, system_time_start img = Some ts
                               /\ dr_start range <= ts < dr_end range) /\
    (forall img, In img c -> In img sentinel1).
Proof.
  intros range c.
  exists (daily range (with_dateSlider range st)).
  split; [apply (slide_layer day)|].
  split; [done|]. split; [done|].
  split; [apply getRange_canonical|].
  split; [apply getRange_contains|].
  split; [intros; apply filterDate_In|].
  intros img Hin. apply filterDate_incl in Hin. unfold vh in Hin.
  rewrite !filter_In in Hin. by destruct Hin as [[[? _] _] _].
Qed.

(** *** The chart *)

Lemma series_point_select (region : Q * Q) (img : Image) :
  series_point region Reducer_max 500 (Image_select "VH" img) = vh_point region img.
Proof.
  unfold series_point, vh_point, Image_select. cbn [system_time_start bands].
  destruct (system_time_start img) as [t|]; [|done]. cbn.
  by destruct (band "VH" (bands img)).
Qed.

Lemma image_series_select (region : Q * Q) (c : ImageCollection) :
  image_series (select "VH" c) region Reducer_max 500 = omap (vh_point region) c.
Proof.
  unfold image_series, select. induction c as [|img rest IH]; [done|].
  cbn [map omap list_omap]. rewrite series_point_select. by rewrite IH.
Qed.

Lemma omap_times_sorted {A} (f : A -> option (Z * V)) (time : A -> option Z)
  (c : list A) :
  (forall x t v, f x = Some (t, v) -> time x = Some t) ->
  StronglySorted Z.lt (omap time c) ->
  StronglySorted Z.lt (omap f c).*1.
Proof.
  intros Hf. induction c as [|x rest IH]; [constructor|].
  cbn [omap list_omap]. intros Hs.
  assert (Hrest : StronglySorted Z.lt (omap time rest)).
  { destruct (time x); [by apply StronglySorted_inv in Hs as [? _]|done]. }
  destruct (f x) as [[t v]|] eqn:E; [|by apply IH].
  cbn [fmap list_fmap fst]. constructor; [by apply IH|].
  rewrite (Hf _ _ _ E) in Hs. apply StronglySorted_inv in Hs as [_ Hall].
  rewrite Forall_forall in Hall |- *. intros t' Hin.
  apply list_elem_of_fmap in Hin as ([t'' v'] & -> & Hin).
  apply list_elem_of_omap in Hin as (y & Hy & Ey).
  apply Hall, list_elem_of_omap. exists y. split; [done|]. by eapply Hf.
Qed.

Lemma vh_point_time (region : Q * Q) (img : Image) (t : Z) (v : V) :
  vh_point region img = Some (t, v) -> system_time_start img = Some t.
Proof.
  unfold vh_point. destruct (system_time_start img) as [t'|]; [|done]. cbn.
  destruct (band "VH" (bands img)) as [b|]; [|done]. cbn.
  destruct (vmax_list _); [|done]. cbn. congruence.
Qed.

Lemma vh_spec (img : Image) :
  In img vh <->
  In img sentinel1 /\
  In "VH" (transmitterReceiverPolarisation img) /\
  In "VV" (transmitterReceiverPolarisation img) /\
  instrumentMode img = Some "IW".
Proof.
  assert (Hl : forall v, Filter_listContains transmitterReceiverPolarisation v img = true
                         <-> In v (transmitterReceiverPolarisation img)).
  { intros v. unfold Filter_listContains. rewrite existsb_exists. split.
    - intros (x & Hx & E). by apply String.eqb_eq in E as ->.
    - intros Hv. exists v. split; [done|]. apply String.eqb_refl. }
  assert (He : Filter_eq instrumentMode "IW" img = true
               <-> instrumentMode img = Some "IW").
  { unfold Filter_eq. destruct (instrumentMode img) as [x|]; [|done].
    rewrite String.eqb_eq. split; congruence. }
  unfold vh. rewrite !filter_In, !Hl, He.
  split; [intros [[[H1 H2] H3] H4]|intros (H1 & H2 & H3 & H4)];
    repeat split; assumption.
Qed.

(** C4 (as amended).  For every clicked point the chart is made from the
    whole of [vh] (no window), which is the archive's images that have
    both the VH and the VV polarisation and were taken in interferometric
    wide swath mode: one data point for each image whose VH band has an
    unmasked pixel among those taken around the point for the distance
    500, in the order of the collection, at the image's time, with the
    maximum of the band over those pixels; an image without such a pixel
    gives no point.  The times increase strictly where those of [vh]
    do. *)
Theorem chart_data_of_vh (coords : Coords) (st : State) :
  let region := (coords_lon coords, coords_lat coords) in
  let chart := onClick Callback_getDate (rfiChart coords) in
  let data := chart_data chart in
  ActiveList_get 3 (widgets (generateChart coords st)) = Some (ChartWidget chart) /\
  data = omap (vh_point region) vh /\
  (forall img, In img vh <->
     In img sentinel1 /\
     In "VH" (transmitterReceiverPolarisation img) /\
     In "VV" (transmitterReceiverPolarisation img) /\
     instrumentMode img = Some "IW") /\
  (forall t v, In (t, v) data <->
     exists img b, In img vh /\ system_time_start img = Some t /\
       band "VH" (bands img) = Some b /\
       vmax_list (omap b (footprint region 500)) = Some v) /\
  (forall img b t v, vh_point region img = Some (t, v) ->
     band "VH" (bands img) = Some b ->
     (exists p, In p (footprint region 500) /\ b p = Some v) /\
     (forall p w, In p (footprint region 500) -> b p = Some w -> vleb w v = true)) /\
  (StronglySorted Z.lt (omap system_time_start vh) ->
   StronglySorted Z.lt data.*1).
Proof.
  intros region chart data.
  assert (Hdata : data = omap (vh_point region) vh).
  { subst data chart. unfold rfiChart, onClick. cbn [chart_data].
    apply image_series_select. }
  split.
  { unfold generateChart. cbn [widgets with_widgets]. apply ActiveList_get_set_eq. }
  split; [done|]. split; [exact vh_spec|]. split; [|split].
  - intros t v. rewrite Hdata, <- list_elem_of_In, list_elem_of_omap. split.
    + intros (img & Hin & E). pose proof (vh_point_time _ _ _ _ E) as Ht.
      unfold vh_point in E. rewrite Ht in E. cbn in E.
      destruct (band "VH" (bands img)) as [b|] eqn:Hb; [|done]. cbn in E.
      destruct (vmax_list (omap b (footprint region 500))) as [v'|] eqn:Hv; [|done].
      cbn in E. injection E as <-. exists img, b. by rewrite <- list_elem_of_In.
    + intros (img & b & Hin & Ht & Hb & Hv). exists img.
      split; [by apply list_elem_of_In|].
      unfold vh_point. rewrite Ht. cbn. rewrite Hb. cbn. by rewrite Hv.
  - intros img b t v E Hb. unfold vh_point in E.
    destruct (system_time_start img); [|done]. cbn in E. rewrite Hb in E. cbn in E.
    destruct (vmax_list (omap b (footprint region 500))) as [v'|] eqn:Hv; [|done].
    cbn in E. injection E as _ <-.
    apply vmax_list_Some in Hv as [Hin Hub]. split.
    + apply list_elem_of_In, list_elem_of_omap in Hin as (p & Hp & Ep).
      exists p. by rewrite <- list_elem_of_In.
    + intros p w Hp Hw. apply Hub, list_elem_of_In, list_elem_of_omap.
      exists p. by rewrite list_elem_of_In.
  - rewrite Hdata. apply omap_times_sorted. apply vh_point_time.
Qed.

(** *** Changing the granularity *)

Lemma name_is_spec (selected : string) (l : Layer) :
  name_is selected l = true <-> name l = Some selected.
Proof.
  unfold name_is. destruct (name l) as [n|]; [|done].
  rewrite String.eqb_eq. split; congruence.
Qed.

(** C5 (as amended).  A change of granularity makes no layer and no
    image: every layer of the map keeps its displayed object, stretch,
    name and opacity, and is shown when its name is the selected
    granularity and hidden otherwise, the layers not named after a
    granularity included; the information label is set (when the map has
    a layer); the select holds the new value; nothing else changes. *)
Theorem granularity_change_effect (selected : string) (st : State) :
  exists st',
    step (SelectLayer selected) st = Some st' /\
    length (layers st') = length (layers st) /\
    (forall i, ActiveList_get i (layers st')
       = (fun l => setShown (name_is selected l) l) <$> ActiveList_get i (layers st)) /\
    (forall i l', ActiveList_get i (layers st') = Some l' ->
       exists l, ActiveList_get i (layers st) = Some l /\
         eeObject l' = eeObject l /\ visParams l' = visParams l /\
         name l' = name l /\ opacity l' = opacity l /\
         (shown l' = true <-> name l = Some selected)) /\
    layerSelect st' = selected /\
    (image_info st' =
       "You are currently viewing " +:+ dict selected +:+ " Sentinel-1 imagery from "
     \/ (image_info st' = image_info st /\
         forall i, ActiveList_get i (layers st) = None)) /\
    center st' = center st /\ widgets st' = widgets st /\
    date st' = date st /\ lon st' = lon st /\ lat st' = lat st /\
    opacitySlider st' = opacitySlider st /\ dateSlider st' = dateSlider st /\
    locationSelect st' = locationSelect st.
Proof.
  eexists. split; [reflexivity|].
  unfold layerSelect_onChange. cbn [layers with_layers with_layerSelect].
  set (f := fun element => setShown (name_is selected element) element).
  destruct (existsb _ (layers st)) eqn:Hex;
    cbn [layers with_layers with_image_info with_layerSelect center widgets
         date lon lat layerSelect opacitySlider dateSlider locationSelect
         image_info].
  all: split; [unfold ActiveList_forEach; by rewrite length_map|].
  all: split; [intros i; apply ActiveList_get_forEach|].
  all: split.
  1,3: intros i l' E; rewrite ActiveList_get_forEach in E;
       destruct (ActiveList_get i (layers st)) as [l|]; [|done];
       injection E as <-; exists l; split; [done|];
       cbn [f setShown eeObject visParams name opacity shown];
       repeat split; try apply name_is_spec; done.
  - repeat split; auto.
  - repeat split; auto. right. split; [done|]. intros i.
    unfold ActiveList_get. destruct (layers st !! i) as [[l|]|] eqn:E; [|done..].
    exfalso. apply list_elem_of_lookup_2, list_elem_of_In in E.
    assert (existsb (fun e => bool_decide (is_Some e)) (layers st) = true) as C.
    { apply existsb_exists. exists (Some l). split; [done|]. by apply bool_decide_eq_true_2. }
    congruence.
Qed.

(** *** Clicking the chart *)

Lemma generateChart_chart (coords : Coords) (st : State) :
  ActiveList_get 3 (widgets (generateChart coords st))
  = Some (ChartWidget (onClick Callback_getDate (rfiChart coords))).
Proof.
  unfold generateChart. cbn [widgets with_widgets]. apply ActiveList_get_set_eq.
Qed.

(** C6.  Every chart [generateChart] puts in the inspector has [getDate]
    as its click handler.  With such a chart in the inspector, a click on
    its point at time [t] is the date change to [t]: the two leave the same
    state, whose date label, slider value and three layers are those of
    the day of [t] under the granularity selected before. *)
Theorem chart_click_is_date_change (c : Chart) (t : Z) (v : V) (st : State) :
  ActiveList_get 3 (widgets st) = Some (ChartWidget c) ->
  chart_onClick c = Some Callback_getDate ->
  In (t, v) (chart_data c) ->
  (forall coords st0, exists c0,
     ActiveList_get 3 (widgets (generateChart coords st0)) = Some (ChartWidget c0) /\
     chart_onClick c0 = Some Callback_getDate) /\
  step (ChartClick t) st = step (SetDate t) st /\
  step (ChartClick t) st = Some (dateSlider_setValue t st) /\
  date (dateSlider_setValue t st) = format_MMMM_dd_YYYY (dr_start (getRange t day)) /\
  dateSlider (dateSlider_setValue t st) = Some (getRange t day) /\
  layerSelect (dateSlider_setValue t st) = layerSelect st /\
  (forall u, exists L,
     ActiveList_get (slot u) (layers (dateSlider_setValue t st)) = Some L /\
     L = layer_of u (getRange t day) st /\
     (shown L = true <-> name L = Some (layerSelect st))).
Proof.
  intros Hc Hcb Hin.
  assert (Hstep : step (ChartClick t) st = Some (dateSlider_setValue t st)).
  { unfold step, chart_click. rewrite Hc.
    replace (existsb (fun p => p.1 =? t) (chart_data c)) with true.
    - by rewrite Hcb.
    - symmetry. apply existsb_exists. exists (t, v). split; [done|]. cbn. lia. }
  split.
  { intros coords st0. eexists. split; [apply generateChart_chart|done]. }
  split; [by rewrite Hstep|]. split; [done|].
  repeat split; try reflexivity.
  intros u.
  exists (layer_of u (getRange t day) (with_dateSlider (getRange t day) st)).
  split; [apply slide_layer|]. split; [by destruct u|].
  destruct u;
    cbn [layer_of daily monthly yearly shown name layerSelect with_dateSlider];
    rewrite String.eqb_eq; split; congruence.
Qed.

(** *** Example locations *)

Lemma configureExample_spec (text : list Widget) (opacity : Q) (st : State)
  (l1 l3 : Layer) :
  ActiveList_get 1 (layers st) = Some l1 ->
  ActiveList_get 3 (layers st) = Some l3 ->
  exists st',
    configureExample text opacity st = Some st' /\
    length (layers st') = length (layers st) /\
    (forall i, ActiveList_get i (layers st')
               = configured opacity i <$> ActiveList_get i (layers st)) /\
    widgets st' = ActiveList_set 11 contact
                    (ActiveList_set 10 (Panel text None []) (widgets st)) /\
    center st' = center st /\ date st' = date st /\
    image_info st' = image_info st /\ lon st' = lon st /\ lat st' = lat st /\
    layerSelect st' = layerSelect st /\ opacitySlider st' = opacitySlider st /\
    dateSlider st' = dateSlider st /\ locationSelect st' = locationSelect st.
Proof.
  intros H1 H3. unfold configureExample.
  set (ls0 := ActiveList_forEach (setShown false) (layers st)).
  assert (G0 : forall i, ActiveList_get i ls0 = setShown false <$> ActiveList_get i (layers st))
    by (intros; apply ActiveList_get_forEach).
  assert (L0 : length ls0 = length (layers st))
    by (unfold ls0, ActiveList_forEach; by rewrite length_map).
  destruct (ActiveList_update_Some 1 (setShown true) (setShown false l1) ls0)
    as (ls1 & E1 & L1 & G1 & O1); [by rewrite G0, H1|].
  destruct (ActiveList_update_Some 3 (setShown true) (setShown false l3) ls1)
    as (ls2 & E2 & L2 & G2 & O2); [by rewrite O1, G0, H3|].
  destruct (ActiveList_update_Some 1 (setOpacity opacity)
              (setShown true (setShown false l1)) ls2)
    as (ls3 & E3 & L3 & G3 & O3); [by rewrite O2, G1|].
  rewrite E1. cbn [mbind option_bind]. rewrite E2. cbn [mbind option_bind].
  rewrite E3. cbn [mbind option_bind].
  eexists. split; [reflexivity|].
  cbn [layers widgets with_layers with_widgets center date image_info lon lat
       layerSelect opacitySlider dateSlider locationSelect].
  split; [congruence|]. split; [|by repeat split].
  intros i. unfold configured.
  destruct (Nat.eqb_spec i 1) as [->|N1].
  { by rewrite G3, H1. }
  rewrite O3 by done.
  destruct (Nat.eqb_spec i 3) as [->|N3].
  { by rewrite G2, H3. }
  by rewrite O2, O1, G0.
Qed.

(** The map after the first three steps of a selection: the clicked
    point in slot 3, then the three layers of the date. *)
Lemma layers_before_func (c : Q * Q * Z) (coords : Coords) (t : Z) (st : State) :
  let st3 := dateSlider_setValue t (generateChart coords (with_center c st)) in
  (forall u, ActiveList_get (slot u) (layers st3)
     = Some (layer_of u (getRange t day) st)) /\
  ActiveList_get 3 (layers st3) = Some (dot coords) /\
  (forall i, (4 <= i)%nat -> ActiveList_get i (layers st3) = ActiveList_get i (layers st)) /\
  length (layers st3) = Nat.max 4 (length (layers st)).
Proof.
  intros st3. split; [|split; [|split]].
  - intros u. unfold st3, dateSlider_setValue. rewrite slide_layer. by destruct u.
  - unfold st3, dateSlider_setValue. rewrite slide_layer_other by lia.
    cbn [layers with_dateSlider generateChart with_widgets with_layers].
    apply ActiveList_get_set_eq.
  - intros i Hi. unfold st3, dateSlider_setValue. rewrite slide_layer_other by lia.
    cbn [layers with_dateSlider generateChart with_widgets with_layers
         with_lon_lat with_center].
    by rewrite ActiveList_get_set_ne by lia.
  - unfold st3, dateSlider_setValue, slide, generateChart.
    cbn [layers with_dateSlider with_widgets with_layers with_lon_lat
         with_center with_date].
    rewrite !ActiveList_set_length. lia.
Qed.

Lemma lookup_white_sands :
  lookup_location white_sands locationDict
  = Some (mkLocation (-106.3122) 31.9735 10 "2021-12-14" loc4_function).
Proof. reflexivity. Qed.

Lemma white_sands_date :
  parse_date "2021-12-14" = Some (instant 2021 12 14) /\
  getRange (instant 2021 12 14) day
    = mkDateRange (instant 2021 12 14) (instant 2021 12 15) /\
  window month (getRange (instant 2021 12 14) day)
    = mkDateRange (instant 2021 12 1) (instant 2022 1 1) /\
  format_MMMM_dd_YYYY (dr_start (getRange (instant 2021 12 14) day))
    = "December 14, 2021".
Proof. repeat split; vm_compute; reflexivity. Qed.

(** C9.  From any state, selecting the White Sands Missile Range centres
    the map on it at zoom 10, sets the date slider and the date label to
    14 December 2021, shows the December 2021 composite in the Month slot
    at opacity 0.8, and puts a panel with exactly the two White Sands
    labels in the text slot of the inspector, whatever that slot held; the
    other slots of the inspector, the chart and the contact line apart,
    are as they were. *)
Theorem select_white_sands (st : State) :
  exists st',
    step (SelectLocation white_sands) st = Some st' /\
    center st' = ((-106.3122)%Q, 31.9735%Q, 10) /\
    dateSlider st' = Some (mkDateRange (instant 2021 12 14) (instant 2021 12 15)) /\
    date st' = "December 14, 2021" /\
    (exists L, ActiveList_get 1 (layers st') = Some L /\
       name L = Some "Month" /\ shown L = true /\ opacity L = 0.8%Q /\
       eeObject L = Displayed_Image
         (composite (mkDateRange (instant 2021 12 1) (instant 2022 1 1)))) /\
    ActiveList_get 10 (widgets st') = Some (Panel white_sands_labels None []) /\
    ActiveList_get 11 (widgets st') = Some contact /\
    (forall i, i <> 3%nat -> i <> 10%nat -> i <> 11%nat ->
       ActiveList_get i (widgets st') = ActiveList_get i (widgets st)).
Proof.
  destruct white_sands_date as (Hparse & Hday & Hmonth & Hfmt).
  unfold step, locationSelect_onChange. rewrite lookup_white_sands.
  cbn [mbind option_bind loc_lon loc_lat loc_zoom loc_date loc_func].
  rewrite Hparse. cbn [mbind option_bind].
  set (st0 := with_locationSelect white_sands st).
  set (c := ((-106.3122)%Q, 31.9735%Q, 10)).
  set (coords := mkCoords (-106.3122) 31.9735).
  set (st3 := dateSlider_setValue (instant 2021 12 14)
                (generateChart coords (with_center c st0))).
  destruct (layers_before_func c coords (instant 2021 12 14) st0)
    as (Hslots & Hdot & _ & _). fold st3 in Hslots, Hdot.
  destruct (configureExample_spec white_sands_labels 0.8%Q st3 _ _
              (Hslots month) Hdot)
    as (st' & E & _ & Hl & Hw & Hc & Hd & _ & _ & _ & _ & _ & Hds & _).
  exists st'. split; [exact E|].
  split; [by rewrite Hc|].
  split; [by rewrite Hds, <- Hday|].
  split; [by rewrite Hd, <- Hfmt|].
  split.
  { pose proof (Hslots month) as Hm. cbn [slot] in Hm.
    eexists. split; [rewrite Hl, Hm; reflexivity|].
    cbn [configured Nat.eqb setOpacity setShown layer_of monthly name shown
         opacity eeObject fmap option_fmap option_map].
    repeat split; try reflexivity.
    all: by rewrite comp_monthly_composite, Hmonth. }
  rewrite Hw. split; [|split].
  - rewrite ActiveList_get_set_ne by lia. apply ActiveList_get_set_eq.
  - apply ActiveList_get_set_eq.
  - intros i N3 N10 N11. rewrite !ActiveList_get_set_ne by lia.
    unfold st3, dateSlider_setValue, slide, generateChart.
    cbn [widgets with_layers with_date with_dateSlider with_widgets].
    rewrite !ActiveList_get_set_ne by lia. reflexivity.
Qed.

Lemma configured_shown (o : Q) (i : nat) (l : Layer) :
  shown (configured o i l) = true <-> i = 1%nat \/ i = 3%nat.
Proof.
  unfold configured.
  destruct (Nat.eqb_spec i 1); [cbn; split; [by left|done]|].
  destruct (Nat.eqb_spec i 3); cbn; [split; [by right|done]|].
  split; [done|lia].
Qed.

Lemma ActiveList_get_app_l {A} (i : nat) (l k : ActiveList A) :
  (i < length l)%nat -> ActiveList_get i (l ++ k) = ActiveList_get i l.
Proof. intros Hi. unfold ActiveList_get. by rewrite lookup_app_l. Qed.

Lemma ActiveList_get_app_r {A} (j : nat) (l k : ActiveList A) :
  ActiveList_get (length l + j) (l ++ k) = ActiveList_get j k.
Proof.
  unfold ActiveList_get. rewrite lookup_app_r by lia.
  by replace (length l + j - length l)%nat with j by lia.
Qed.

Lemma configure_after_selection (c : Q * Q * Z) (coords : Coords) (t : Z)
  (st : State) (text : list Widget) (o : Q) (extra : ActiveList Layer)
  (st3' : State) :
  let st3 := dateSlider_setValue t (generateChart coords (with_center c st)) in
  layers st3' = layers st3 ++ extra ->
  exists st',
    configureExample text o st3' = Some st' /\
    location_layers o st st' /\
    (forall j, ActiveList_get (Nat.max 4 (length (layers st)) + j) (layers st')
               = setShown false <$> ActiveList_get j extra).
Proof.
  intros st3 Hext.
  destruct (layers_before_func c coords t st) as (Hslots & Hdot & Hhigh & Hlen).
  fold st3 in Hslots, Hdot, Hhigh, Hlen.
  assert (Hlow : forall i, (i < length (layers st3))%nat ->
            ActiveList_get i (layers st3') = ActiveList_get i (layers st3)).
  { intros i Hi. rewrite Hext. by apply ActiveList_get_app_l. }
  pose proof (Hslots day) as H0. pose proof (Hslots month) as H1.
  pose proof (Hslots year) as H2. cbn [slot] in H0, H1, H2.
  rewrite <- Hlow in H0, H1, H2, Hdot by lia.
  destruct (configureExample_spec text o st3' _ _ H1 Hdot)
    as (st' & E & _ & Hl & _).
  exists st'. split; [exact E|]. split; [split; [|repeat split]|].
  - intros i L HL. rewrite Hl in HL.
    destruct (ActiveList_get i (layers st3')) as [l|]; [|done].
    injection HL as <-. apply configured_shown.
  - eexists. rewrite Hl, H1. by split.
  - eexists. rewrite Hl, Hdot. by split.
  - eexists. rewrite Hl, H0. by split.
  - eexists. rewrite Hl, H2. by split.
  - intros i [Hi4 Hi]. rewrite Hl, Hlow, Hhigh by lia. unfold configured.
    destruct (Nat.eqb_spec i 1); [lia|]. by destruct (Nat.eqb_spec i 3); [lia|].
  - intros j. rewrite Hl, Hext, <- Hlen, ActiveList_get_app_r. unfold configured.
    destruct (Nat.eqb_spec (length (layers st3) + j) 1); [lia|].
    by destruct (Nat.eqb_spec (length (layers st3) + j) 3); [lia|].
Qed.

Lemma location_dates :
  parse_date "2022-01-01" = Some (instant 2022 1 1) /\
  parse_date "2019-02-19" = Some (instant 2019 2 19) /\
  parse_date "2021-07-22" = Some (instant 2021 7 22) /\
  parse_date "2021-12-14" = Some (instant 2021 12 14).
Proof. repeat split; vm_compute; reflexivity. Qed.

Lemma select_location_layers (value : string) (loc : Location) (t : Z)
  (text : list Widget) (o : Q) (extra : ActiveList Layer) (st : State) :
  lookup_location value locationDict = Some loc ->
  parse_date (loc_date loc) = Some t ->
  (forall s, exists s', loc_func loc s = configureExample text o s' /\
                        layers s' = layers s ++ extra) ->
  exists st',
    step (SelectLocation value) st = Some st' /\
    location_layers o st st' /\
    (forall j, ActiveList_get (Nat.max 4 (length (layers st)) + j) (layers st')
               = setShown false <$> ActiveList_get j extra).
Proof.
  intros Hlook Hdate Hfunc. unfold step, locationSelect_onChange.
  rewrite Hlook. cbn [mbind option_bind]. rewrite Hdate. cbn [mbind option_bind].
  set (st0 := with_locationSelect value st).
  set (c := (loc_lon loc, loc_lat loc, loc_zoom loc)).
  set (coords := mkCoords (loc_lon loc) (loc_lat loc)).
  destruct (Hfunc (dateSlider_setValue t (generateChart coords (with_center c st0))))
    as (s' & Es & Hs').
  rewrite Es.
  exact (configure_after_selection c coords t st0 text o extra s' Hs').
Qed.

(** C10.  For every example location of the menu, from any state and
    so whatever granularity is selected, the selection succeeds and leaves
    the Month layer (slot 1) and the clicked location (slot 3) shown and
    every other layer hidden; the opacity of the location is set on slot
    1 alone; the layers the map had above slot 3 stay as they were but
    hidden, and so does the Dammam outline, which the selection of Dammam
    appends above them. *)
Theorem location_selection_layers (value : string) (st : State) :
  In value locations ->
  exists st',
    step (SelectLocation value) st = Some st' /\
    location_layers (site_opacity value) st st' /\
    (value = "Dammam, Saudi Arabia" ->
     ActiveList_get (Nat.max 4 (length (layers st))) (layers st')
     = Some (setShown false outline_layer)).
Proof.
  destruct location_dates as (D1 & D2 & D3 & D4).
  intros Hin.
  assert (Hcases : value = "Dammam, Saudi Arabia"
                   \/ value = "Dimona Radar Facility, Israel"
                   \/ value = "Rostov-on-Don, Russia"
                   \/ value = white_sands).
  { unfold locations, locationDict in Hin. cbn [fmap list_fmap fst] in Hin.
    destruct Hin as [<-|[<-|[<-|[<-|[]]]]]; auto. }
  destruct Hcases as [-> | [-> | [-> | ->]]].
  - odestruct (select_location_layers "Dammam, Saudi Arabia" _ _ _ 0.1%Q
                 [Some outline_layer] st eq_refl D1) as (st' & E & Hpost & Hextra).
    { intros s. eexists. split; [reflexivity|]. reflexivity. }
    exists st'. split; [exact E|]. split; [exact Hpost|].
    intros _. specialize (Hextra 0%nat). by rewrite Nat.add_0_r in Hextra.
  - odestruct (select_location_layers "Dimona Radar Facility, Israel" _ _ _ 0.8%Q
                 [] st eq_refl D2) as (st' & E & Hpost & _).
    { intros s. exists s. split; [reflexivity|]. by rewrite app_nil_r. }
    exists st'. split; [exact E|]. split; [exact Hpost|]. intros [=].
  - odestruct (select_location_layers "Rostov-on-Don, Russia" _ _ _ 0.8%Q
                 [] st eq_refl D3) as (st' & E & Hpost & _).
    { intros s. exists s. split; [reflexivity|]. by rewrite app_nil_r. }
    exists st'. split; [exact E|]. split; [exact Hpost|]. intros [=].
  - odestruct (select_location_layers white_sands _ _ _ 0.8%Q
                 [] st eq_refl D4) as (st' & E & Hpost & _).
    { intros s. exists s. split; [reflexivity|]. by rewrite app_nil_r. }
    exists st'. split; [exact E|]. split; [exact Hpost|]. intros [=].
Qed.

(** *** How the handlers compose *)

Lemma ActiveList_set_lookup {A} (i j : nat) (x : A) (l : ActiveList A) :
  ActiveList_set i x l !! j =
  if decide (j = i) then Some (Some x)
  else if decide (j < length l)%nat then l !! j
  else if decide (j < i)%nat then Some None else None.
Proof.
  unfold ActiveList_set. destruct (decide (i < length l)%nat) as [Hi|Hi].
  - destruct (decide (j = i)) as [->|Hj]; [by rewrite list_lookup_insert_eq|].
    rewrite list_lookup_insert_ne by done.
    destruct (decide (j < length l)%nat); [done|].
    rewrite lookup_ge_None_2 by lia. by destruct (decide (j < i)%nat); [lia|].
  - destruct (decide (j = i)) as [->|Hj].
    { rewrite lookup_app_r by lia.
      rewrite lookup_app_r; rewrite length_replicate; [|lia].
      by replace (i - length l - (i - length l))%nat with 0%nat by lia. }
    destruct (decide (j < length l)%nat) as [Hl|Hl]; [by rewrite lookup_app_l|].
    rewrite lookup_app_r by lia.
    destruct (decide (j < i)%nat) as [Hlt|Hge].
    + rewrite lookup_app_l by (rewrite length_replicate; lia).
      by rewrite lookup_replicate_2 by lia.
    + rewrite lookup_app_r by (rewrite length_replicate; lia).
      rewrite length_replicate. apply lookup_ge_None_2. simpl. lia.
Qed.

Ltac ActiveList_eq :=
  apply list_eq; intros ?;
  repeat (rewrite ActiveList_set_lookup || rewrite ActiveList_set_length);
  repeat (case_decide; try lia); try done.

Lemma ActiveList_set_set {A} (i : nat) (x y : A) (l : ActiveList A) :
  ActiveList_set i x (ActiveList_set i y l) = ActiveList_set i x l.
Proof. ActiveList_eq. Qed.

Lemma ActiveList_set_comm {A} (i j : nat) (x y : A) (l : ActiveList A) :
  i <> j ->
  ActiveList_set i x (ActiveList_set j y l) = ActiveList_set j y (ActiveList_set i x l).
Proof. intros Hij. ActiveList_eq. Qed.

Lemma State_eq (st1 st2 : State) :
  center st1 = center st2 -> layers st1 = layers st2 ->
  widgets st1 = widgets st2 -> date st1 = date st2 ->
  image_info st1 = image_info st2 -> lon st1 = lon st2 -> lat st1 = lat st2 ->
  layerSelect st1 = layerSelect st2 -> opacitySlider st1 = opacitySlider st2 ->
  dateSlider st1 = dateSlider st2 -> locationSelect st1 = locationSelect st2 ->
  st1 = st2.
Proof. destruct st1, st2. cbn. by intros -> -> -> -> -> -> -> -> -> -> ->. Qed.

Ltac fields :=
  cbn [center layers widgets date image_info lon lat layerSelect opacitySlider
       dateSlider locationSelect with_center with_layers with_widgets with_date
       with_image_info with_lon_lat with_layerSelect with_opacitySlider
       with_dateSlider with_locationSelect].

Lemma slide_slide (r1 r2 : DateRange) (st : State) :
  slide r2 (with_dateSlider r2 (slide r1 (with_dateSlider r1 st)))
  = slide r2 (with_dateSlider r2 st).
Proof.
  apply State_eq; unfold slide; fields; try reflexivity.
  unfold daily, monthly, yearly. fields.
  rewrite (ActiveList_set_comm 0 2), (ActiveList_set_comm 0 1) by lia.
  rewrite ActiveList_set_set.
  rewrite (ActiveList_set_comm 1 2) by lia. rewrite ActiveList_set_set.
  by rewrite ActiveList_set_set.
Qed.

Lemma dateSlider_setValue_twice (t1 t2 : Z) (st : State) :
  dateSlider_setValue t2 (dateSlider_setValue t1 st) = dateSlider_setValue t2 st.
Proof. apply slide_slide. Qed.

Lemma generateChart_twice (c1 c2 : Coords) (st : State) :
  generateChart c2 (generateChart c1 st) = generateChart c2 st.
Proof.
  apply State_eq; unfold generateChart; fields; try reflexivity.
  - by rewrite ActiveList_set_set.
  - by rewrite !ActiveList_set_set.
Qed.

(** C7 (as amended).  The script numbers no request and discards no
    response: [slide] and [generateChart] run to their end when the event
    fires, each overwriting what it writes.  So of two date changes in a
    row, and of two clicks on the map in a row, the state left is the one
    the second alone would leave: the slider, the date label and the
    three layers are those of the second date, the marker, the
    coordinate labels and the chart those of the second point.  Nothing
    in the state counts the requests: no number read off the state grows
    with every date change, nor with every click. *)
Theorem last_request_wins :
  (forall t1 t2 st,
     step (SetDate t1) st ≫= step (SetDate t2) = step (SetDate t2) st) /\
  (forall c1 c2 st,
     step (MapClick c1) st ≫= step (MapClick c2) = step (MapClick c2) st) /\
  (forall t1 t2 st st',
     step (SetDate t1) st ≫= step (SetDate t2) = Some st' ->
     dateSlider st' = Some (getRange t2 day) /\
     date st' = format_MMMM_dd_YYYY (dr_start (getRange t2 day)) /\
     forall u, ActiveList_get (slot u) (layers st')
               = Some (layer_of u (getRange t2 day) st)) /\
  (forall c1 c2 st st',
     step (MapClick c1) st ≫= step (MapClick c2) = Some st' ->
     lon st' = "lon: " +:+ toFixed2 (coords_lon c2) /\
     lat st' = "lat: " +:+ toFixed2 (coords_lat c2) /\
     ActiveList_get 3 (layers st') = Some (dot c2) /\
     ActiveList_get 3 (widgets st')
       = Some (ChartWidget (onClick Callback_getDate (rfiChart c2)))) /\
  (forall seq : State -> nat,
     ~ (forall t st, (seq st < seq (dateSlider_setValue t st))%nat) /\
     ~ (forall c st, (seq st < seq (generateChart c st))%nat)).
Proof.
  split; [|split; [|split; [|split]]].
  - intros t1 t2 st. cbn [step mbind option_bind].
    by rewrite dateSlider_setValue_twice.
  - intros c1 c2 st. cbn [step mbind option_bind].
    by rewrite generateChart_twice.
  - intros t1 t2 st st'. cbn [step mbind option_bind].
    rewrite dateSlider_setValue_twice. intros [= <-].
    split; [reflexivity|]. split; [reflexivity|].
    intros u. unfold dateSlider_setValue. rewrite slide_layer. by destruct u.
  - intros c1 c2 st st'. cbn [step mbind option_bind].
    rewrite generateChart_twice. intros [= <-].
    split; [reflexivity|]. split; [reflexivity|].
    split; [|apply generateChart_chart].
    unfold generateChart. fields. apply ActiveList_get_set_eq.
  - intros seq. split.
    + intros H. specialize (H 0 (dateSlider_setValue 0 (blank 0))).
      rewrite dateSlider_setValue_twice in H. lia.
    + intros H. specialize (H initialPoint (generateChart initialPoint (blank 0))).
      rewrite generateChart_twice in H. lia.
Qed.

(** X1.  Of two date changes in a row only the second counts: the state
    is the one the second alone would leave.  In particular the same date
    change twice is the date change once. *)
Theorem date_change_last_wins (t1 t2 : Z) (st : State) :
  dateSlider_setValue t2 (dateSlider_setValue t1 st) = dateSlider_setValue t2 st /\
  dateSlider_setValue t1 (dateSlider_setValue t1 st) = dateSlider_setValue t1 st.
Proof. split; apply slide_slide. Qed.

(** X2.  A click on the map supersedes the one before: marker, chart and
    coordinate labels are those of the second click, and nothing of the
    first is left. *)
Theorem map_click_supersedes (c1 c2 : Coords) (st : State) :
  generateChart c2 (generateChart c1 st) = generateChart c2 st.
Proof.
  apply State_eq; unfold generateChart; fields; try reflexivity.
  - by rewrite ActiveList_set_set.
  - by rewrite !ActiveList_set_set.
Qed.

(** X3.  A click on the map and a date change do not interfere: in either
    order they leave the same state. *)
Theorem map_click_date_change_commute (coords : Coords) (t : Z) (st : State) :
  generateChart coords (dateSlider_setValue t st)
  = dateSlider_setValue t (generateChart coords st).
Proof.
  apply State_eq; unfold generateChart, dateSlider_setValue, slide; fields;
    try reflexivity.
  unfold daily, monthly, yearly. fields.
  by rewrite (ActiveList_set_comm 3 2), (ActiveList_set_comm 3 1),
    (ActiveList_set_comm 3 0) by lia.
Qed.

Lemma ActiveList_forEach_forEach {A} (f g : A -> A) (l : ActiveList A) :
  ActiveList_forEach f (ActiveList_forEach g l)
  = ActiveList_forEach (fun x => f (g x)) l.
Proof.
  unfold ActiveList_forEach. rewrite map_map. apply map_ext.
  by intros [x|].
Qed.

Lemma ActiveList_forEach_some {A} (f : A -> A) (l : ActiveList A) :
  existsb (fun e => bool_decide (is_Some e)) (ActiveList_forEach f l)
  = existsb (fun e => bool_decide (is_Some e)) l.
Proof.
  unfold ActiveList_forEach. induction l as [|[x|] rest IH]; [done|done|].
  cbn [map existsb]. rewrite IH. f_equal.
Qed.

(** X4.  Of two changes of granularity in a row only the second counts:
    layers, label and select are those the second alone would leave. *)
Theorem granularity_change_last_wins (s1 s2 : string) (st : State) :
  step (SelectLayer s1) st ≫= step (SelectLayer s2) = step (SelectLayer s2) st.
Proof.
  cbn [step mbind option_bind]. f_equal.
  unfold layerSelect_onChange. fields.
  destruct (existsb _ (layers st)) eqn:E; fields;
    rewrite ActiveList_forEach_some, E;
    apply State_eq; fields; try reflexivity;
    by rewrite ActiveList_forEach_forEach.
Qed.

(** X5.  The opacity slider sets the opacity of every layer of the map,
    hidden layers and the clicked location included, and changes nothing
    else: no layer comes or goes, every layer keeps what it displays, its
    stretch, name and visibility, and the view, the inspector, the labels
    (date, information, longitude, latitude), the two selects and the
    date slider are as they were.  Of two slides only the second counts,
    and a slide and a change of granularity can be made in either
    order. *)
Theorem opacity_slide_composes (v1 v2 : Q) (s : string) (st : State) :
  (forall st', step (SlideOpacity v1) st = Some st' ->
     (forall i L', ActiveList_get i (layers st') = Some L' ->
        exists L, ActiveList_get i (layers st) = Some L /\
          opacity L' = v1 /\ shown L' = shown L /\ name L' = name L /\
          eeObject L' = eeObject L /\ visParams L' = visParams L) /\
     (forall i, is_Some (ActiveList_get i (layers st'))
                <-> is_Some (ActiveList_get i (layers st))) /\
     length (layers st') = length (layers st) /\
     opacitySlider st' = v1 /\ layerSelect st' = layerSelect st /\
     image_info st' = image_info st /\ date st' = date st /\
     dateSlider st' = dateSlider st /\ widgets st' = widgets st /\
     center st' = center st /\ lon st' = lon st /\ lat st' = lat st /\
     locationSelect st' = locationSelect st) /\
  step (SlideOpacity v1) st ≫= step (SlideOpacity v2) = step (SlideOpacity v2) st /\
  step (SlideOpacity v1) st ≫= step (SelectLayer s)
    = step (SelectLayer s) st ≫= step (SlideOpacity v1).
Proof.
  split; [|split].
  - intros st' [= <-]. unfold opacitySlider_onSlide. fields.
    split; [|split; [|split; [unfold ActiveList_forEach; by rewrite length_map|done]]].
    + intros i L'. rewrite ActiveList_get_forEach.
      destruct (ActiveList_get i (layers st)) as [L|]; [|done].
      intros [= <-]. by exists L.
    + intros i. rewrite ActiveList_get_forEach.
      destruct (ActiveList_get i (layers st)) as [L|]; cbn; [split; eauto|].
      split; by intros [? [=]].
  - cbn [step mbind option_bind]. f_equal.
    apply State_eq; unfold opacitySlider_onSlide; fields; try reflexivity.
    by rewrite ActiveList_forEach_forEach.
  - cbn [step mbind option_bind]. f_equal.
    unfold opacitySlider_onSlide, layerSelect_onChange. fields.
    rewrite ActiveList_forEach_some.
    destruct (existsb _ (layers st)) eqn:E; fields;
      apply State_eq; fields; try reflexivity;
      by rewrite !ActiveList_forEach_forEach.
Qed.

(** X6.  A date change makes its three layers anew, at opacity 1 with a
    stretch of opacity 0.8, whatever the slider says: an opacity slid
    before is lost on them, while the slider keeps its value and the
    layers above slot 2 keep the opacity. *)
Theorem date_change_resets_opacity (v : Q) (t : Z) (st st1 : State) :
  step (SlideOpacity v) st = Some st1 ->
  opacitySlider (dateSlider_setValue t st1) = v /\
  (forall u, exists L,
     ActiveList_get (slot u) (layers (dateSlider_setValue t st1)) = Some L /\
     ActiveList_get (slot u) (layers (dateSlider_setValue t st)) = Some L /\
     opacity L = 1%Q /\ vis_opacity (visParams L) = Some 0.8%Q) /\
  (forall i L, (3 <= i)%nat ->
     ActiveList_get i (layers (dateSlider_setValue t st1)) = Some L -> opacity L = v).
Proof.
  intros [= <-]. split; [reflexivity|]. split.
  - intros u. exists (layer_of u (getRange t day) st).
    unfold dateSlider_setValue. rewrite !slide_layer. by destruct u.
  - intros i L Hi. unfold dateSlider_setValue. rewrite slide_layer_other by done.
    unfold opacitySlider_onSlide. fields. rewrite ActiveList_get_forEach.
    destruct (ActiveList_get i (layers st)); [|done]. by intros [= <-].
Qed.

(** *** The select and the visible layer *)

Lemma configureExample_frame (text : list Widget) (o : Q) (st st' : State) :
  configureExample text o st = Some st' ->
  center st' = center st /\ date st' = date st /\
  image_info st' = image_info st /\ lon st' = lon st /\ lat st' = lat st /\
  layerSelect st' = layerSelect st /\ opacitySlider st' = opacitySlider st /\
  dateSlider st' = dateSlider st /\ locationSelect st' = locationSelect st /\
  widgets st' = ActiveList_set 11 contact
                  (ActiveList_set 10 (Panel text None []) (widgets st)).
Proof.
  unfold configureExample.
  destruct (ActiveList_update 1 _ _) as [ls1|]; [|done]. cbn [mbind option_bind].
  destruct (ActiveList_update 3 _ _) as [ls2|]; [|done]. cbn [mbind option_bind].
  destruct (ActiveList_update 1 _ _) as [ls3|]; [|done]. cbn [mbind option_bind].
  intros [= <-]. fields. by repeat split.
Qed.

(** How a selection in the location menu runs: the entry is looked up,
    its date read, the map centred, the chart made and the date set; the
    function of the entry then configures that state, with the outline
    appended first for Dammam. *)
Lemma locationSelect_onChange_inv (value : string) (st st' : State) :
  locationSelect_onChange value st = Some st' ->
  exists loc t text s',
    lookup_location value locationDict = Some loc /\
    parse_date (loc_date loc) = Some t /\
    (let s3 := dateSlider_setValue t
                 (generateChart (mkCoords (loc_lon loc) (loc_lat loc))
                    (with_center (loc_lon loc, loc_lat loc, loc_zoom loc) st)) in
     (value <> "Dammam, Saudi Arabia" /\ s' = s3 \/
      value = "Dammam, Saudi Arabia" /\
      s' = with_layers (ActiveList_add outline_layer (layers s3)) s3)) /\
    configureExample text (site_opacity value) s' = Some st'.
Proof.
  destruct location_dates as (D1 & D2 & D3 & D4).
  unfold locationSelect_onChange, locationDict. cbn [lookup_location].
  destruct (String.eqb_spec value "Dammam, Saudi Arabia") as [->|N1].
  { cbn [mbind option_bind loc_lon loc_lat loc_zoom loc_date loc_func].
    rewrite D1. cbn [mbind option_bind]. unfold loc1_function. intros E.
    eexists _, _, _, _. split; [reflexivity|]. split; [exact D1|].
    split; [right; split; reflexivity|]. exact E. }
  destruct (String.eqb_spec value "Dimona Radar Facility, Israel") as [->|N2].
  { cbn [mbind option_bind loc_lon loc_lat loc_zoom loc_date loc_func].
    rewrite D2. cbn [mbind option_bind]. unfold loc2_function. intros E.
    eexists _, _, _, _. split; [reflexivity|]. split; [exact D2|].
    split; [left; split; [done|reflexivity]|]. exact E. }
  destruct (String.eqb_spec value "Rostov-on-Don, Russia") as [->|N3].
  { cbn [mbind option_bind loc_lon loc_lat loc_zoom loc_date loc_func].
    rewrite D3. cbn [mbind option_bind]. unfold loc3_function. intros E.
    eexists _, _, _, _. split; [reflexivity|]. split; [exact D3|].
    split; [left; split; [done|reflexivity]|]. exact E. }
  destruct (String.eqb_spec value "White Sands Missile Range, USA") as [->|N4].
  { cbn [mbind option_bind loc_lon loc_lat loc_zoom loc_date loc_func].
    rewrite D4. cbn [mbind option_bind]. unfold loc4_function. intros E.
    eexists _, _, _, _. split; [reflexivity|]. split; [exact D4|].
    split; [left; split; [done|reflexivity]|]. exact E. }
  done.
Qed.

Lemma date_change_selection_visible (t : Z) (st : State) :
  selection_visible (dateSlider_setValue t st).
Proof.
  intros u. exists (layer_of u (getRange t day) (with_dateSlider (getRange t day) st)).
  split; [apply slide_layer|].
  destruct u; (split; [reflexivity|]);
    cbn [layer_of daily monthly yearly shown unit_name];
    rewrite String.eqb_eq; unfold dateSlider_setValue, slide; fields;
    split; congruence.
Qed.

Lemma granularity_change_selection_visible (selected : string) (st : State) :
  selection_visible st ->
  selection_visible (layerSelect_onChange selected (with_layerSelect selected st)).
Proof.
  intros Hv u. destruct (Hv u) as (L & HL & Hn & _).
  exists (setShown (name_is selected L) L).
  assert (HLs : layers (layerSelect_onChange selected (with_layerSelect selected st))
                = ActiveList_forEach (fun e => setShown (name_is selected e) e) (layers st)).
  { unfold layerSelect_onChange. fields. by destruct (existsb _ _). }
  assert (Hs : layerSelect (layerSelect_onChange selected (with_layerSelect selected st))
               = selected).
  { unfold layerSelect_onChange. fields. by destruct (existsb _ _). }
  rewrite HLs, Hs, ActiveList_get_forEach, HL. split; [done|]. split; [done|].
  cbn [shown setShown]. rewrite name_is_spec, Hn. split; congruence.
Qed.

Lemma generateChart_layers (coords : Coords) (st : State) :
  layers (generateChart coords st) = ActiveList_set 3 (dot coords) (layers st).
Proof. reflexivity. Qed.

Lemma with_widgets_layers (ws : ActiveList Widget) (st : State) :
  layers (with_widgets ws st) = layers st.
Proof. reflexivity. Qed.

Lemma with_layers_layers (ls : ActiveList Layer) (st : State) :
  layers (with_layers ls st) = ls.
Proof. reflexivity. Qed.

Lemma opacitySlider_onSlide_layers (value : Q) (st : State) :
  layers (opacitySlider_onSlide value (with_opacitySlider value st))
  = ActiveList_forEach (setOpacity value) (layers st).
Proof. reflexivity. Qed.

Lemma map_click_selection_visible (coords : Coords) (st : State) :
  selection_visible st -> selection_visible (generateChart coords st).
Proof.
  intros Hv u. destruct (Hv u) as (L & HL & Hn & Hs). exists L.
  split; [|exact (conj Hn Hs)].
  rewrite generateChart_layers.
  rewrite ActiveList_get_set_ne by (destruct u; cbn; lia). exact HL.
Qed.

Lemma opacity_slide_selection_visible (value : Q) (st : State) :
  selection_visible st ->
  selection_visible (opacitySlider_onSlide value (with_opacitySlider value st)).
Proof.
  intros Hv u. destruct (Hv u) as (L & HL & Hn & Hs).
  exists (setOpacity value L).
  rewrite opacitySlider_onSlide_layers.
  rewrite ActiveList_get_forEach, HL. split; [reflexivity|]. exact (conj Hn Hs).
Qed.

Lemma with_widgets_selection_visible (ws : ActiveList Widget) (st : State) :
  selection_visible st -> selection_visible (with_widgets ws st).
Proof. intros Hv u. exact (Hv u). Qed.

Lemma chart_click_cases (t : Z) (st st' : State) :
  chart_click t st = Some st' -> st' = dateSlider_setValue t st \/ st' = st.
Proof.
  unfold chart_click.
  destruct (ActiveList_get 3 (widgets st)) as [[| |c|]|]; try done.
  destruct (existsb _ _); [|done].
  destruct (chart_onClick c) as [[]|]; intros [= <-]; [by left|by right].
Qed.

Lemma generateChart_widgets (coords : Coords) (st : State) :
  widgets (generateChart coords st)
  = ActiveList_set 3 (ChartWidget (onClick Callback_getDate (rfiChart coords)))
      (ActiveList_set 3 (ChartWidget (rfiChart coords)) (widgets st)).
Proof. reflexivity. Qed.

(** The script's last statement, on the state [st3] the rest of the
    script has made: it shows the layer in slot 1. *)
Lemma init_inv (clock : Z) (st : State) :
  init clock = Some st ->
  exists L1,
    let st3 := generateChart initialPoint
                 (with_widgets inspectorPanel_initial
                    (dateSlider_setValue (now clock) (blank clock))) in
    ActiveList_get 1 (layers st3) = Some L1 /\
    st = with_layers (<[1%nat := Some (setShown true L1)]> (layers st3)) st3.
Proof.
  unfold init. destruct start as [s|]; [|done]. cbn [mbind option_bind].
  destruct (s <=? now clock); [|done]. cbn zeta.
  generalize (generateChart initialPoint
                (with_widgets inspectorPanel_initial
                   (dateSlider_setValue (now clock) (blank clock)))).
  intros st3. unfold ActiveList_update.
  destruct (ActiveList_get 1 (layers st3)) as [L1|] eqn:H1; [|done].
  cbn [mbind option_bind]. intros [= <-]. by exists L1.
Qed.

Lemma insert_shown_selection_visible (L1 : Layer) (st : State) :
  ActiveList_get 1 (layers st) = Some L1 -> shown L1 = true ->
  selection_visible st ->
  selection_visible (with_layers (<[1%nat := Some (setShown true L1)]> (layers st)) st).
Proof.
  intros H1 Hs1 Hv u. destruct (Hv u) as (L & HL & Hn & Hs).
  exists L. split; [|exact (conj Hn Hs)].
  rewrite with_layers_layers. unfold ActiveList_get in *.
  destruct (decide (slot u = 1%nat)) as [E|N].
  - rewrite E in *. rewrite list_lookup_insert_eq.
    + rewrite H1 in HL. injection HL as <-. destruct L1. simpl in *. by rewrite Hs1.
    + apply lookup_lt_is_Some. destruct (layers st !! 1%nat); [eauto|done].
  - by rewrite list_lookup_insert_ne.
Qed.

Lemma init_selection_visible (clock : Z) (st : State) :
  init clock = Some st -> selection_visible st.
Proof.
  intros Hi. destruct (init_inv clock st Hi) as (L1 & H1 & ->).
  cbn zeta in H1.
  assert (Hv : selection_visible
                 (generateChart initialPoint
                    (with_widgets inspectorPanel_initial
                       (dateSlider_setValue (now clock) (blank clock))))).
  { apply map_click_selection_visible, with_widgets_selection_visible,
      date_change_selection_visible. }
  apply insert_shown_selection_visible; [exact H1| |exact Hv].
  destruct (Hv month) as (L & HL & _ & Hs). cbn [slot] in HL.
  rewrite H1 in HL. injection HL as <-. apply Hs.
  unfold generateChart, dateSlider_setValue, slide. fields. reflexivity.
Qed.

(** X7.  Every date change leaves the select and the map in agreement
    (each of the Day, Month and Year layers shown exactly when selected),
    and so does the start of the script; a click on the map, a change of
    granularity, a slide of the opacity and a click on the chart keep
    them in agreement. *)
Theorem selection_visible_invariant :
  (forall clock st0, init clock = Some st0 -> selection_visible st0) /\
  (forall t st, selection_visible (dateSlider_setValue t st)) /\
  (forall e st st',
     (forall value, e <> SelectLocation value) ->
     step e st = Some st' ->
     selection_visible st -> selection_visible st').
Proof.
  split; [exact init_selection_visible|].
  split; [exact date_change_selection_visible|].
  intros e st st' Hloc Hstep Hv.
  destruct e as [coords|selected|value|t|t|value].
  - injection Hstep as <-. by apply map_click_selection_visible.
  - injection Hstep as <-. by apply granularity_change_selection_visible.
  - injection Hstep as <-. by apply opacity_slide_selection_visible.
  - injection Hstep as <-. apply date_change_selection_visible.
  - destruct (chart_click_cases t st st' Hstep) as [->| ->]; [|exact Hv].
    apply date_change_selection_visible.
  - by destruct (Hloc value).
Qed.

Lemma location_selection_frame (value : string) (st st' : State) :
  locationSelect_onChange value st = Some st' ->
  layerSelect st' = layerSelect st /\ image_info st' = image_info st /\
  opacitySlider st' = opacitySlider st.
Proof.
  intros Hstep.
  destruct (locationSelect_onChange_inv _ _ _ Hstep)
    as (loc & t & text & s' & _ & _ & Hs' & Hconf).
  cbn zeta in Hs'.
  destruct (configureExample_frame _ _ _ _ Hconf)
    as (_ & _ & Hi & _ & _ & Hls & Ho & _).
  rewrite Hi, Hls, Ho.
  destruct Hs' as [[_ ->]|[_ ->]]; repeat split; reflexivity.
Qed.

Lemma location_selection_month (value : string) (st st' : State) :
  locationSelect_onChange value st = Some st' ->
  exists L, ActiveList_get 1 (layers st') = Some L /\
            name L = Some "Month" /\ shown L = true.
Proof.
  intros Hstep.
  destruct (locationSelect_onChange_inv _ _ _ Hstep)
    as (loc & t & text & s' & _ & _ & Hs' & Hconf).
  cbn zeta in Hs'.
  assert (Hext : exists extra,
            layers s' = layers (dateSlider_setValue t
                          (generateChart (mkCoords (loc_lon loc) (loc_lat loc))
                             (with_center (loc_lon loc, loc_lat loc, loc_zoom loc) st)))
                        ++ extra).
  { destruct Hs' as [[_ ->]|[_ ->]].
    - exists []. by rewrite app_nil_r.
    - exists [Some outline_layer]. reflexivity. }
  destruct Hext as (extra & Hl).
  destruct (configure_after_selection _ _ _ _ text (site_opacity value)
              extra s' Hl) as (st'' & E & (Hshown & (L1 & HL1 & Hn1 & _) & _) & _).
  rewrite Hconf in E. injection E as <-.
  exists L1. split; [exact HL1|]. split; [exact Hn1|].
  apply (Hshown 1%nat L1 HL1). by left.
Qed.

(** X8.  A selection in the location menu shows the Month layer without
    touching the select, its label or the opacity slider: made while Day
    or Year is selected it leaves the select and the map in
    disagreement. *)
Theorem location_selection_ignores_select (value : string) (st st' : State) :
  step (SelectLocation value) st = Some st' ->
  layerSelect st' = layerSelect st /\
  image_info st' = image_info st /\
  opacitySlider st' = opacitySlider st /\
  (exists L, ActiveList_get 1 (layers st') = Some L /\
             name L = Some "Month" /\ shown L = true) /\
  (layerSelect st <> "Month" -> ~ selection_visible st').
Proof.
  intros Hstep.
  destruct (location_selection_frame _ _ _ Hstep) as (Hls & Hi & Ho).
  destruct (location_selection_month _ _ _ Hstep) as (L1 & HL1 & Hn1 & Hs1).
  split; [exact Hls|]. split; [exact Hi|]. split; [exact Ho|].
  split; [by exists L1|].
  intros Hne Hv. destruct (Hv month) as (L & HL & _ & Hiff). cbn [slot] in HL.
  rewrite HL1 in HL. injection HL as <-. apply Hne.
  change (layerSelect (with_locationSelect value st)) with (layerSelect st) in Hls.
  rewrite <- Hls. by apply Hiff.
Qed.

(** *** Failures, and what is never removed *)

Lemma configureExample_None (text : list Widget) (o : Q) (st : State) :
  ActiveList_get 1 (layers st) = None \/ ActiveList_get 3 (layers st) = None ->
  configureExample text o st = None.
Proof.
  intros Hnone. unfold configureExample.
  destruct (ActiveList_get 1 (layers st)) as [l1|] eqn:H1.
  - destruct Hnone as [[=]|H3].
    destruct (ActiveList_update_Some 1 (setShown true) (setShown false l1)
                (ActiveList_forEach (setShown false) (layers st)))
      as (ls1 & E1 & _ & _ & O1); [by rewrite ActiveList_get_forEach, H1|].
    rewrite E1. cbn [mbind option_bind]. unfold ActiveList_update at 2.
    by rewrite O1, ActiveList_get_forEach, H3 by lia.
  - unfold ActiveList_update at 3. by rewrite ActiveList_get_forEach, H1.
Qed.

(** X9.  [configureExample] runs to its end exactly when the map has a
    layer in slot 1 and a layer in slot 3; with either slot empty the
    call on the missing layer throws, whatever the text and the opacity. *)
Theorem configureExample_needs_two_layers (text : list Widget) (o : Q) (st : State) :
  is_Some (configureExample text o st) <->
  is_Some (ActiveList_get 1 (layers st)) /\ is_Some (ActiveList_get 3 (layers st)).
Proof.
  split.
  - intros [st' E].
    destruct (ActiveList_get 1 (layers st)) as [l1|] eqn:H1;
      [|by rewrite configureExample_None in E by (by left)].
    destruct (ActiveList_get 3 (layers st)) as [l3|] eqn:H3;
      [|by rewrite configureExample_None in E by (by right)].
    split; eauto.
  - intros [[l1 H1] [l3 H3]].
    destruct (configureExample_spec text o st l1 l3 H1 H3) as (st' & E & _).
    by exists st'.
Qed.

Lemma configureExample_layers (text : list Widget) (o : Q) (st st' : State) :
  configureExample text o st = Some st' ->
  length (layers st') = length (layers st) /\
  forall i, ActiveList_get i (layers st')
            = configured o i <$> ActiveList_get i (layers st).
Proof.
  intros E.
  destruct (ActiveList_get 1 (layers st)) as [l1|] eqn:H1;
    [|by rewrite configureExample_None in E by (by left)].
  destruct (ActiveList_get 3 (layers st)) as [l3|] eqn:H3;
    [|by rewrite configureExample_None in E by (by right)].
  destruct (configureExample_spec text o st l1 l3 H1 H3) as (st'' & E' & Hlen & Hl & _).
  rewrite E in E'. injection E' as <-. by split.
Qed.

Lemma lookup_location_In (value : string) (loc : Location) :
  lookup_location value locationDict = Some loc -> In value locations.
Proof.
  unfold locations, locationDict. cbn [lookup_location fmap list_fmap fst].
  repeat match goal with
         | |- context [String.eqb value ?s] =>
             destruct (String.eqb_spec value s) as [->|?]; [intros _; cbn [In]; repeat (first [by left | right])|]
         end.
  done.
Qed.

Lemma location_cases (value : string) :
  In value locations ->
  value = "Dammam, Saudi Arabia" \/ value = "Dimona Radar Facility, Israel" \/
  value = "Rostov-on-Don, Russia" \/ value = "White Sands Missile Range, USA".
Proof.
  unfold locations, locationDict. cbn [fmap list_fmap fst].
  intros [<-|[<-|[<-|[<-|[]]]]]; auto.
Qed.

Lemma location_selection_total (value : string) (st : State) :
  In value locations -> is_Some (step (SelectLocation value) st).
Proof.
  destruct location_dates as (D1 & D2 & D3 & D4).
  intros Hin.
  destruct (location_cases value Hin) as [-> | [-> | [-> | ->]]].
  - odestruct (select_location_layers "Dammam, Saudi Arabia" _ _ _ 0.1%Q
                 [Some outline_layer] st eq_refl D1) as (st' & E & _).
    { intros s. eexists. split; [reflexivity|]. reflexivity. }
    by exists st'.
  - odestruct (select_location_layers "Dimona Radar Facility, Israel" _ _ _ 0.8%Q
                 [] st eq_refl D2) as (st' & E & _).
    { intros s. exists s. split; [reflexivity|]. by rewrite app_nil_r. }
    by exists st'.
  - odestruct (select_location_layers "Rostov-on-Don, Russia" _ _ _ 0.8%Q
                 [] st eq_refl D3) as (st' & E & _).
    { intros s. exists s. split; [reflexivity|]. by rewrite app_nil_r. }
    by exists st'.
  - odestruct (select_location_layers "White Sands Missile Range, USA" _ _ _ 0.8%Q
                 [] st eq_refl D4) as (st' & E & _).
    { intros s. exists s. split; [reflexivity|]. by rewrite app_nil_r. }
    by exists st'.
Qed.

(** X10.  The handler of the location menu runs to its end exactly for
    the four names of [locationDict], which are the items of the menu,
    and for those from any state: it never depends on what the map or the
    inspector hold.  For no other value does it run to its end. *)
Theorem location_selection_defined (value : string) (st : State) :
  is_Some (step (SelectLocation value) st) <-> In value locations.
Proof.
  split; [|apply location_selection_total].
  intros [st' E]. cbn [step] in E.
  destruct (locationSelect_onChange_inv _ _ _ E) as (loc & _ & _ & _ & Hl & _).
  exact (lookup_location_In _ _ Hl).
Qed.

Lemma ActiveList_set_filled {A} (i j : nat) (x : A) (l : ActiveList A) :
  is_Some (ActiveList_get i l) -> is_Some (ActiveList_get i (ActiveList_set j x l)).
Proof.
  intros H. destruct (decide (j = i)) as [->|N].
  - rewrite ActiveList_get_set_eq. eauto.
  - by rewrite ActiveList_get_set_ne.
Qed.

Lemma slide_length (range : DateRange) (st : State) :
  length (layers (slide range st)) = Nat.max 3 (length (layers st)).
Proof.
  unfold slide. fields. rewrite !ActiveList_set_length. lia.
Qed.

Lemma slide_filled (i : nat) (range : DateRange) (st : State) :
  is_Some (ActiveList_get i (layers st)) ->
  is_Some (ActiveList_get i (layers (slide range st))).
Proof.
  intros H. unfold slide. fields. by do 3 apply ActiveList_set_filled.
Qed.

Lemma dateSlider_setValue_length (t : Z) (st : State) :
  length (layers (dateSlider_setValue t st)) = Nat.max 3 (length (layers st)).
Proof. unfold dateSlider_setValue. by rewrite slide_length. Qed.

Lemma dateSlider_setValue_filled (i : nat) (t : Z) (st : State) :
  is_Some (ActiveList_get i (layers st)) ->
  is_Some (ActiveList_get i (layers (dateSlider_setValue t st))).
Proof. intros H. unfold dateSlider_setValue. by apply slide_filled. Qed.

Lemma layerSelect_onChange_layers (selected : string) (st : State) :
  layers (layerSelect_onChange selected st)
  = ActiveList_forEach (fun e => setShown (name_is selected e) e) (layers st).
Proof. unfold layerSelect_onChange. by destruct (existsb _ _). Qed.

Lemma ActiveList_forEach_length {A} (f : A -> A) (l : ActiveList A) :
  length (ActiveList_forEach f l) = length l.
Proof. unfold ActiveList_forEach. by rewrite length_map. Qed.

Lemma is_Some_fmap {A B} (f : A -> B) (o : option A) :
  is_Some o -> is_Some (f <$> o).
Proof. intros [x ->]. cbn. eauto. Qed.

(** X11.  No gesture ever removes a layer from the map: every slot that
    holds a layer still holds one afterwards, and the list never gets
    shorter.  A selection in the location menu leaves the map with four
    layers or as many as it had, and one more for Dammam: every selection
    of Dammam appends another outline on top of those already there. *)
Theorem layers_never_removed (e : Event) (st st' : State) :
  step e st = Some st' ->
  (length (layers st) <= length (layers st'))%nat /\
  (forall i, is_Some (ActiveList_get i (layers st)) ->
             is_Some (ActiveList_get i (layers st'))) /\
  (forall value, e = SelectLocation value ->
     length (layers st')
     = (Nat.max 4 (length (layers st))
        + if String.eqb value "Dammam, Saudi Arabia" then 1 else 0)%nat).
Proof.
  intros Hstep.
  destruct e as [coords|selected|value|t|t|value].
  - injection Hstep as <-. rewrite generateChart_layers, ActiveList_set_length.
    split; [lia|]. split; [|done]. intros i. apply ActiveList_set_filled.
  - injection Hstep as <-.
    rewrite layerSelect_onChange_layers, ActiveList_forEach_length.
    split; [done|]. split; [|done]. intros i Hi.
    rewrite ActiveList_get_forEach. by apply is_Some_fmap.
  - injection Hstep as <-.
    rewrite opacitySlider_onSlide_layers, ActiveList_forEach_length.
    split; [done|]. split; [|done]. intros i Hi.
    rewrite ActiveList_get_forEach. by apply is_Some_fmap.
  - injection Hstep as <-. rewrite dateSlider_setValue_length.
    split; [lia|]. split; [|done]. intros i. apply dateSlider_setValue_filled.
  - destruct (chart_click_cases t st st' Hstep) as [->| ->].
    + rewrite dateSlider_setValue_length.
      split; [lia|]. split; [|done]. intros i. apply dateSlider_setValue_filled.
    + by repeat split.
  - cbn [step] in Hstep.
    destruct (locationSelect_onChange_inv _ _ _ Hstep)
      as (loc & t & text & s' & _ & _ & Hs' & Hconf).
    cbn zeta in Hs'.
    destruct (configureExample_layers _ _ _ _ Hconf) as (Hlen & Hl).
    assert (H3 : length (layers (dateSlider_setValue t
                   (generateChart (mkCoords (loc_lon loc) (loc_lat loc))
                      (with_center (loc_lon loc, loc_lat loc, loc_zoom loc)
                         (with_locationSelect value st)))))
                 = Nat.max 4 (length (layers st))).
    { rewrite dateSlider_setValue_length, generateChart_layers, ActiveList_set_length.
      cbn [layers with_center with_locationSelect]. lia. }
    assert (F3 : forall i, is_Some (ActiveList_get i (layers st)) ->
              is_Some (ActiveList_get i (layers (dateSlider_setValue t
                   (generateChart (mkCoords (loc_lon loc) (loc_lat loc))
                      (with_center (loc_lon loc, loc_lat loc, loc_zoom loc)
                         (with_locationSelect value st))))))).
    { intros i Hi. apply dateSlider_setValue_filled.
      rewrite generateChart_layers. by apply ActiveList_set_filled. }
    assert (Hcount : length (layers st')
              = (Nat.max 4 (length (layers st))
                 + if String.eqb value "Dammam, Saudi Arabia" then 1 else 0)%nat).
    { rewrite Hlen. destruct Hs' as [[Hne ->]|[-> ->]].
      - rewrite H3. apply String.eqb_neq in Hne. rewrite Hne. lia.
      - rewrite with_layers_layers. unfold ActiveList_add.
        rewrite length_app, H3. cbn. lia. }
    split; [lia|]. split.
    + intros i Hi. rewrite Hl. apply is_Some_fmap.
      destruct Hs' as [[_ ->]|[_ ->]]; [by apply F3|].
      rewrite with_layers_layers, ActiveList_get_add_lt; [by apply F3|].
      destruct (F3 i Hi) as [x Hx]. exact (ActiveList_get_Some_lt _ _ _ Hx).
    + by intros ? [= <-].
Qed.

(** *** The start of the script *)

Lemma inspectorPanel_initial_shape :
  length inspectorPanel_initial = 12%nat /\
  ActiveList_get 10 inspectorPanel_initial = None /\
  ActiveList_get 11 inspectorPanel_initial = Some contact.
Proof. by vm_compute. Qed.

Lemma blank_fields (clock : Z) :
  layers (blank clock) = [] /\ layerSelect (blank clock) = "Month" /\
  widgets (blank clock) = [].
Proof. by repeat split. Qed.

Lemma generateChart_frame (coords : Coords) (st : State) :
  center (generateChart coords st) = center st /\
  date (generateChart coords st) = date st /\
  image_info (generateChart coords st) = image_info st /\
  layerSelect (generateChart coords st) = layerSelect st /\
  opacitySlider (generateChart coords st) = opacitySlider st /\
  dateSlider (generateChart coords st) = dateSlider st /\
  locationSelect (generateChart coords st) = locationSelect st.
Proof. by repeat split. Qed.

Lemma dateSlider_setValue_frame (t : Z) (st : State) :
  center (dateSlider_setValue t st) = center st /\
  widgets (dateSlider_setValue t st) = widgets st /\
  image_info (dateSlider_setValue t st) = image_info st /\
  lon (dateSlider_setValue t st) = lon st /\
  lat (dateSlider_setValue t st) = lat st /\
  layerSelect (dateSlider_setValue t st) = layerSelect st /\
  opacitySlider (dateSlider_setValue t st) = opacitySlider st /\
  locationSelect (dateSlider_setValue t st) = locationSelect st.
Proof. by repeat split. Qed.

Lemma dateSlider_setValue_date (t : Z) (st : State) :
  dateSlider (dateSlider_setValue t st) = Some (getRange t day) /\
  date (dateSlider_setValue t st) = format_MMMM_dd_YYYY (dr_start (getRange t day)).
Proof. by split. Qed.

Lemma with_layers_frame (ls : ActiveList Layer) (st : State) :
  center (with_layers ls st) = center st /\
  widgets (with_layers ls st) = widgets st /\
  date (with_layers ls st) = date st /\
  image_info (with_layers ls st) = image_info st /\
  lon (with_layers ls st) = lon st /\
  lat (with_layers ls st) = lat st /\
  layerSelect (with_layers ls st) = layerSelect st /\
  opacitySlider (with_layers ls st) = opacitySlider st /\
  dateSlider (with_layers ls st) = dateSlider st /\
  locationSelect (with_layers ls st) = locationSelect st.
Proof. by repeat split. Qed.

Lemma with_widgets_frame (ws : ActiveList Widget) (st : State) :
  center (with_widgets ws st) = center st /\
  layers (with_widgets ws st) = layers st /\
  date (with_widgets ws st) = date st /\
  image_info (with_widgets ws st) = image_info st /\
  lon (with_widgets ws st) = lon st /\
  lat (with_widgets ws st) = lat st /\
  layerSelect (with_widgets ws st) = layerSelect st /\
  opacitySlider (with_widgets ws st) = opacitySlider st /\
  dateSlider (with_widgets ws st) = dateSlider st /\
  locationSelect (with_widgets ws st) = locationSelect st /\
  widgets (with_widgets ws st) = ws.
Proof. by repeat split. Qed.

(** The state the script has made before its last statement. *)
Lemma before_last_statement (clock : Z) (st3 : State) :
  st3 = generateChart initialPoint
          (with_widgets inspectorPanel_initial
             (dateSlider_setValue (now clock) (blank clock))) ->
  layerSelect st3 = "Month" /\
  dateSlider st3 = Some (getRange (now clock) day) /\
  date st3 = format_MMMM_dd_YYYY (dr_start (getRange (now clock) day)) /\
  length (layers st3) = 4%nat /\
  (forall u, ActiveList_get (slot u) (layers st3)
     = Some (layer_of u (getRange (now clock) day)
               (with_dateSlider (getRange (now clock) day) (blank clock)))) /\
  ActiveList_get 3 (layers st3) = Some (dot initialPoint) /\
  length (widgets st3) = 12%nat /\
  ActiveList_get 3 (widgets st3)
    = Some (ChartWidget (onClick Callback_getDate (rfiChart initialPoint))) /\
  ActiveList_get 10 (widgets st3) = None /\
  ActiveList_get 11 (widgets st3) = Some contact.
Proof.
  intros ->.
  destruct inspectorPanel_initial_shape as (W12 & W10 & W11).
  destruct (blank_fields clock) as (Bl & Bs & _).
  set (s1 := dateSlider_setValue (now clock) (blank clock)).
  set (s2 := with_widgets inspectorPanel_initial s1).
  destruct (generateChart_frame initialPoint s2) as (_ & Gd & _ & Gs & _ & Gds & _).
  destruct (with_widgets_frame inspectorPanel_initial s1)
    as (_ & Wl & Wd & _ & _ & _ & Ws & _ & Wds & _ & Ww).
  fold s2 in Wl, Wd, Ws, Wds, Ww.
  destruct (dateSlider_setValue_frame (now clock) (blank clock))
    as (_ & _ & _ & _ & _ & Ds & _).
  destruct (dateSlider_setValue_date (now clock) (blank clock)) as (Dds & Dd).
  fold s1 in Ds, Dds, Dd.
  assert (Dlen : length (layers s1) = 3%nat).
  { unfold s1. by rewrite dateSlider_setValue_length, Bl. }
  split; [by rewrite Gs, Ws, Ds|]. split; [by rewrite Gds, Wds|].
  split; [by rewrite Gd, Wd|].
  rewrite generateChart_layers, generateChart_widgets, Wl, Ww.
  rewrite !ActiveList_set_length, Dlen, W12.
  split; [reflexivity|]. split; [|split; [|split; [|split; [|split]]]].
  - intros u. rewrite ActiveList_get_set_ne by (destruct u; cbn; lia).
    apply slide_layer.
  - apply ActiveList_get_set_eq.
  - reflexivity.
  - apply ActiveList_get_set_eq.
  - by rewrite !ActiveList_get_set_ne by lia.
  - by rewrite !ActiveList_get_set_ne by lia.
Qed.

Lemma init_total (clock s : Z) :
  start = Some s -> s <= now clock -> is_Some (init clock).
Proof.
  intros Hs Hle.
  destruct (before_last_statement clock _ eq_refl)
    as (_ & _ & _ & _ & Hslots & _).
  revert Hslots. unfold init. rewrite Hs. cbn [mbind option_bind].
  replace (s <=? now clock) with true by lia. cbn zeta.
  generalize (generateChart initialPoint
                (with_widgets inspectorPanel_initial
                   (dateSlider_setValue (now clock) (blank clock)))).
  intros s3 Hslots. pose proof (Hslots month) as H1. cbn [slot] in H1.
  unfold ActiveList_update. rewrite H1. cbn [mbind option_bind]. eauto.
Qed.

Lemma ActiveList_get_In {A} (i : nat) (x : A) (l : ActiveList A) :
  ActiveList_get i l = Some x -> In (Some x) l.
Proof.
  unfold ActiveList_get. destruct (l !! i) as [[y|]|] eqn:E; [|done..].
  intros [= ->]. by apply list_elem_of_In, list_elem_of_lookup_2 with i.
Qed.

(** X12.  The script reads the acquisition time of the first image of
    the archive to build the date slider: on an archive without one it
    does not start.  With one that is not later than a week before the
    clock it runs to its end, and leaves the map with exactly four
    layers: Day, Month and Year for the day seven days before the clock,
    of which Month alone is shown, and the marker of the initial point;
    the select on Month, the slider on that day, the date label on its
    date; the chart of the initial point, clickable, in slot 3 of the
    inspector, and the contact line in the inspector. *)
Theorem init_loads (clock : Z) :
  (start = None -> init clock = None) /\
  (forall s, start = Some s -> s <= now clock ->
   exists st,
     init clock = Some st /\
     selection_visible st /\
     layerSelect st = "Month" /\
     dateSlider st = Some (getRange (now clock) day) /\
     date st = format_MMMM_dd_YYYY (dr_start (getRange (now clock) day)) /\
     length (layers st) = 4%nat /\
     (forall u, exists L, ActiveList_get (slot u) (layers st) = Some L /\
        eeObject L = eeObject (layer_of u (getRange (now clock) day) st)) /\
     ActiveList_get 3 (layers st) = Some (dot initialPoint) /\
     ActiveList_get 3 (widgets st)
       = Some (ChartWidget (onClick Callback_getDate (rfiChart initialPoint))) /\
     In (Some contact) (widgets st)).
Proof.
  split; [intros Hnone; unfold init; by rewrite Hnone|].
  intros s Hstart Hle.
  destruct (before_last_statement clock _ eq_refl)
    as (Hs & Hds & Hd & Hlen & Hslots & Hdot & Wlen & W3 & W10 & W11).
  apply ActiveList_get_In in W11.
  revert Hs Hds Hd Hlen Hslots Hdot W3 W11.
  pose proof (init_selection_visible clock) as Hvis. revert Hvis.
  unfold init. rewrite Hstart. cbn [mbind option_bind].
  replace (s <=? now clock) with true by lia. cbn zeta.
  generalize (generateChart initialPoint
                (with_widgets inspectorPanel_initial
                   (dateSlider_setValue (now clock) (blank clock)))).
  intros st3 Hvis Hs Hds Hd Hlen Hslots Hdot W3 W11.
  pose proof (Hslots month) as H1. cbn [slot] in H1.
  revert Hvis. unfold ActiveList_update. rewrite H1. cbn [mbind option_bind].
  intros Hvis. eexists. split; [reflexivity|].
  split; [by apply Hvis|].
  destruct (with_layers_frame
              (<[1%nat := Some (setShown true
                   (layer_of month (getRange (now clock) day)
                      (with_dateSlider (getRange (now clock) day) (blank clock))))]>
                 (layers st3)) st3)
    as (_ & Lw & Ld & _ & _ & _ & Ls & _ & Lds & _).
  rewrite Ls, Lds, Ld, Lw, with_layers_layers, length_insert.
  split; [exact Hs|]. split; [exact Hds|]. split; [exact Hd|].
  split; [exact Hlen|]. split; [|split; [|by split]].
  - intros u. unfold ActiveList_get.
    destruct (decide (slot u = 1%nat)) as [Eu|Nu].
    + rewrite Eu, list_lookup_insert_eq by lia.
      eexists. split; [reflexivity|]. by destruct u.
    + rewrite list_lookup_insert_ne by done.
      fold (ActiveList_get (slot u) (layers st3)). rewrite Hslots.
      eexists. split; [reflexivity|]. by destruct u.
  - unfold ActiveList_get. rewrite list_lookup_insert_ne by done. exact Hdot.
Qed.

(** *** Dates that share a window *)

Lemma layer_of_window (u : Unit) (r1 r2 : DateRange) (st1 st2 : State) :
  window u r1 = window u r2 -> layerSelect st1 = layerSelect st2 ->
  layer_of u r1 st1 = layer_of u r2 st2.
Proof.
  intros Hw Hs. destruct u; cbn [layer_of window] in *.
  - unfold yearly. by rewrite !comp_annual_composite, Hs; cbn [window]; rewrite Hw.
  - unfold monthly. by rewrite !comp_monthly_composite, Hs; cbn [window]; rewrite Hw.
  - unfold daily. by rewrite Hw, Hs.
Qed.

(** X13.  The windows of a granularity partition time: a date inside the
    window of another date has that same window.  So moving the date
    within a day, a month or a year leaves the Day, Month or Year layer
    exactly as it was, the same image or collection under the same name
    and stretch. *)
Theorem same_window_same_layer (u : Unit) (t t' : Z) (st : State) :
  dr_start (window u (getRange t day)) <= t' < dr_end (window u (getRange t day)) ->
  window u (getRange t' day) = window u (getRange t day) /\
  ActiveList_get (slot u) (layers (dateSlider_setValue t' st))
  = ActiveList_get (slot u) (layers (dateSlider_setValue t st)).
Proof.
  intros Hin.
  assert (Hw : window u (getRange t' day) = window u (getRange t day)).
  { rewrite !window_getRange in *. by apply getRange_unique. }
  split; [exact Hw|].
  unfold dateSlider_setValue. rewrite !slide_layer. f_equal.
  by apply layer_of_window.
Qed.

(** *** The bands of a composite *)

Lemma merged_VV (w : DateRange) :
  Collection_merge (select "VV" (restricted w vhA)) (select "VV" (restricted w vhD))
  = select "VV" (restricted w (Collection_merge vhA vhD)).
Proof. rewrite select_merge. unfold restricted. by rewrite filterDate_merge. Qed.

Lemma merged_bands (w : DateRange) (img : Image) :
  In img (restricted w (Collection_merge vhA vhD)) ->
  is_Some (band "VV" (bands img)).
Proof.
  unfold restricted. rewrite filterDate_merge. unfold Collection_merge.
  intros Hi. apply in_app_or in Hi as [Hi|Hi].
  - by apply (restricted_vh_bands w vhA vhA_incl).
  - by apply (restricted_vh_bands w vhD vhD_incl).
Qed.

(** X14.  The bands of the composite of a window, in every case.  With
    ascending and descending passes in the window: VH (ascending maximum),
    VV, VH_1 (descending maximum).  With ascending passes only: VH and VV.
    With descending passes only: VV, then VH, which is then the descending
    maximum.  With no pass in the window: no band at all. *)
Theorem composite_band_table (w : DateRange) :
  bands (composite w)
  = match restricted w vhA, restricted w vhD with
    | [], [] => []
    | _ :: _, [] =>
        [("VH", pixel_max (stack "VH" (restricted w vhA)));
         ("VV", pixel_max (stack "VV" (restricted w vhA)))]
    | [], _ :: _ =>
        [("VV", pixel_max (stack "VV" (restricted w vhD)));
         ("VH", pixel_max (stack "VH" (restricted w vhD)))]
    | _ :: _, _ :: _ =>
        [("VH", pixel_max (stack "VH" (restricted w vhA)));
         ("VV", pixel_max (stack "VV" (restricted w (Collection_merge vhA vhD))));
         ("VH_1", pixel_max (stack "VH" (restricted w vhD)))]
    end.
Proof. exact (composite_bands_by_case w). Qed.

(** *** The year over the month *)

Lemma restricted_mono (w1 w2 : DateRange) (c : ImageCollection) (img : Image) :
  dr_start w2 <= dr_start w1 -> dr_end w1 <= dr_end w2 ->
  In img (restricted w1 c) -> In img (restricted w2 c).
Proof.
  intros Hs He. unfold restricted. rewrite !filterDate_In.
  intros (Hc & ts & Ht & Hin). split; [done|]. exists ts. split; [done|]. lia.
Qed.

Lemma pixel_max_mono (n : string) (c1 c2 : ImageCollection) (p : Pixel) (v : V) :
  (forall img, In img c1 -> In img c2) ->
  pixel_max (stack n c1) p = Some v ->
  exists w, pixel_max (stack n c2) p = Some w /\ vleb v w = true.
Proof.
  intros Hincl E.
  pose proof (pixel_max_spec c1 n p) as H1. rewrite E in H1.
  destruct H1 as [(img & b & Himg & Hb & Hv) _].
  pose proof (pixel_max_spec c2 n p) as H2.
  destruct (pixel_max (stack n c2) p) as [w|].
  - exists w. split; [done|]. destruct H2 as [_ Hub].
    exact (Hub img b v (Hincl _ Himg) Hb Hv).
  - specialize (H2 img b (Hincl _ Himg) Hb). congruence.
Qed.

(** X15.  The day of a date lies in its month and the month in its year,
    so every image of the Day layer is among those of the Month composite
    and every image of the Month composite among those of the Year
    composite.  Hence, with ascending and descending passes in the month,
    both composites have the bands VH, VV and VH_1, and at every pixel
    where a band of the Month composite has a value the same band of the
    Year composite has one that is at least as large. *)
Theorem year_dominates_month (t : Z) :
  let r := getRange t day in
  (forall c img, In img (restricted (window day r) c) ->
                 In img (restricted (window month r) c)) /\
  (forall c img, In img (restricted (window month r) c) ->
                 In img (restricted (window year r) c)) /\
  (restricted (window month r) vhA <> [] ->
   restricted (window month r) vhD <> [] ->
   bandNames (composite (window month r)) = ["VH"; "VV"; "VH_1"] /\
   bandNames (composite (window year r)) = ["VH"; "VV"; "VH_1"] /\
   forall n bm p v,
     band n (bands (composite (window month r))) = Some bm -> bm p = Some v ->
     exists by' w, band n (bands (composite (window year r))) = Some by' /\
                   by' p = Some w /\ vleb v w = true).
Proof.
  intros r. subst r. rewrite !window_getRange.
  destruct (getRange_nested t) as (Hys & Hms & Hde & Hme).
  assert (Hdm : forall c img, In img (restricted (getRange t day) c) ->
                              In img (restricted (getRange t month) c))
    by (intros c img; by apply restricted_mono).
  assert (Hmy : forall c img, In img (restricted (getRange t month) c) ->
                              In img (restricted (getRange t year) c))
    by (intros c img; by apply restricted_mono).
  split; [exact Hdm|]. split; [exact Hmy|].
  intros HA HD.
  assert (HA' : restricted (getRange t year) vhA <> []).
  { destruct (restricted (getRange t month) vhA) as [|a ?] eqn:E; [done|].
    intros E'. specialize (Hmy vhA a). rewrite E, E' in Hmy. apply Hmy. by left. }
  assert (HD' : restricted (getRange t year) vhD <> []).
  { destruct (restricted (getRange t month) vhD) as [|a ?] eqn:E; [done|].
    intros E'. specialize (Hmy vhD a). rewrite E, E' in Hmy. apply Hmy. by left. }
  unfold bandNames.
  rewrite (composite_bands _ HA HD), (composite_bands _ HA' HD').
  split; [reflexivity|]. split; [reflexivity|].
  intros n bm p v Hb Hv. cbn [band] in *.
  destruct (String.eqb n "VH").
  { injection Hb as <-.
    destruct (pixel_max_mono "VH" _ _ p v (Hmy vhA) Hv) as (w & Hw & Hle). eauto. }
  destruct (String.eqb n "VV").
  { injection Hb as <-.
    destruct (pixel_max_mono "VV" _ _ p v (Hmy (Collection_merge vhA vhD)) Hv)
      as (w & Hw & Hle). eauto. }
  destruct (String.eqb n "VH_1"); [|done].
  injection Hb as <-.
  destruct (pixel_max_mono "VH" _ _ p v (Hmy vhD) Hv) as (w & Hw & Hle). eauto.
Qed.

(** *** What a click on the chart loads *)

(** X16.  Every point of the chart of a clicked point stands for an
    image of the collection taken at the time of the point, with the
    value of the point for maximum of its VH band around the clicked
    point.  The handler of the chart hands that time to the date slider;
    whatever range holding it [slide] is then handed, the Day layer holds
    that image, and so is not empty. *)
Theorem chart_click_loads_observation (coords : Coords) (t : Z) (v : V) :
  In (t, v) (chart_data (rfiChart coords)) ->
  (forall st, exists c,
     ActiveList_get 3 (widgets (generateChart coords st)) = Some (ChartWidget c) /\
     chart_data c = chart_data (rfiChart coords) /\
     chart_onClick c = Some Callback_getDate) /\
  exists img,
    In img vh /\ system_time_start img = Some t /\
    vh_point (coords_lon coords, coords_lat coords) img = Some (t, v) /\
    forall range st,
      dr_start range <= t < dr_end range ->
      exists L c,
        ActiveList_get 0 (layers (slide range st)) = Some L /\
        name L = Some "Day" /\
        eeObject L = Displayed_Collection c /\
        In img c.
Proof.
  intros Hin. split.
  { intros st. eexists. split; [apply generateChart_chart|]. by split. }
  cbn [chart_data rfiChart] in Hin. rewrite image_series_select in Hin.
  apply list_elem_of_In, list_elem_of_omap in Hin as (img & Himg & Hp).
  apply list_elem_of_In in Himg. pose proof (vh_point_time _ _ _ _ Hp) as Ht.
  exists img. split; [exact Himg|]. split; [exact Ht|]. split; [exact Hp|].
  intros range st Hr. eexists _, _. split; [exact (slide_layer day _ _)|].
  split; [reflexivity|]. split; [reflexivity|].
  apply filterDate_In. split; [exact Himg|]. by exists t.
Qed.

(** *** What the interface keeps in step *)

Lemma generateChart_point (coords : Coords) (st : State) :
  lon (generateChart coords st) = "lon: " +:+ toFixed2 (coords_lon coords) /\
  lat (generateChart coords st) = "lat: " +:+ toFixed2 (coords_lat coords) /\
  ActiveList_get 3 (layers (generateChart coords st)) = Some (dot coords).
Proof.
  split; [reflexivity|]. split; [reflexivity|].
  rewrite generateChart_layers. apply ActiveList_get_set_eq.
Qed.

Lemma generateChart_inspected (coords : Coords) (st : State) :
  inspected coords (generateChart coords st).
Proof.
  destruct (generateChart_point coords st) as (Hlon & Hlat & Hdot).
  split; [exact Hlon|]. split; [exact Hlat|]. split.
  - exists (dot coords). by split.
  - apply generateChart_chart.
Qed.

Lemma dateSlider_setValue_inspected (coords : Coords) (t : Z) (st : State) :
  inspected coords st -> inspected coords (dateSlider_setValue t st).
Proof.
  intros (Hlon & Hlat & (L & HL & Hobj & Hname) & Hw).
  destruct (dateSlider_setValue_frame t st) as (_ & Fw & _ & Flon & Flat & _).
  split; [by rewrite Flon|]. split; [by rewrite Flat|]. split.
  - exists L. split; [|done]. unfold dateSlider_setValue.
    by rewrite slide_layer_other by lia.
  - by rewrite Fw.
Qed.

Lemma forEach_inspected (coords : Coords) (f : Layer -> Layer) (st st' : State) :
  (forall l, eeObject (f l) = eeObject l /\ name (f l) = name l) ->
  layers st' = ActiveList_forEach f (layers st) ->
  lon st' = lon st -> lat st' = lat st -> widgets st' = widgets st ->
  inspected coords st -> inspected coords st'.
Proof.
  intros Hf Hl Flon Flat Fw (Hlon & Hlat & (L & HL & Hobj & Hname) & Hw).
  split; [by rewrite Flon|]. split; [by rewrite Flat|]. split.
  - exists (f L). rewrite Hl, ActiveList_get_forEach, HL.
    destruct (Hf L) as [-> ->]. by split.
  - by rewrite Fw.
Qed.

Lemma layerSelect_onChange_frame (selected : string) (st : State) :
  center (layerSelect_onChange selected st) = center st /\
  widgets (layerSelect_onChange selected st) = widgets st /\
  date (layerSelect_onChange selected st) = date st /\
  lon (layerSelect_onChange selected st) = lon st /\
  lat (layerSelect_onChange selected st) = lat st /\
  layerSelect (layerSelect_onChange selected st) = layerSelect st /\
  opacitySlider (layerSelect_onChange selected st) = opacitySlider st /\
  dateSlider (layerSelect_onChange selected st) = dateSlider st /\
  locationSelect (layerSelect_onChange selected st) = locationSelect st.
Proof. unfold layerSelect_onChange. by destruct (existsb _ _). Qed.

Lemma added_layer_inspected (coords : Coords) (x : Layer) (st : State) :
  (4 <= length (layers st))%nat ->
  inspected coords st ->
  inspected coords (with_layers (ActiveList_add x (layers st)) st).
Proof.
  intros Hlen (Hlon & Hlat & (L & HL & Hobj & Hname) & Hw).
  destruct (with_layers_frame (ActiveList_add x (layers st)) st)
    as (_ & Fw & _ & _ & Flon & Flat & _).
  split; [by rewrite Flon|]. split; [by rewrite Flat|]. split.
  - exists L. split; [|done].
    rewrite with_layers_layers, ActiveList_get_add_lt by lia. exact HL.
  - by rewrite Fw.
Qed.

Lemma configureExample_inspected (coords : Coords) (text : list Widget) (o : Q)
  (st st' : State) :
  configureExample text o st = Some st' ->
  inspected coords st -> inspected coords st'.
Proof.
  intros Hconf (Hlon & Hlat & (L & HL & Hobj & Hname) & Hw).
  destruct (configureExample_frame _ _ _ _ Hconf)
    as (_ & _ & _ & Flon & Flat & _ & _ & _ & _ & Fw).
  destruct (configureExample_layers _ _ _ _ Hconf) as (_ & Hl).
  split; [by rewrite Flon|]. split; [by rewrite Flat|]. split.
  - exists (configured o 3 L). rewrite Hl, HL. by split.
  - rewrite Fw, !ActiveList_get_set_ne by lia. exact Hw.
Qed.

Lemma location_selection_inspected (value : string) (st st' : State) :
  locationSelect_onChange value st = Some st' ->
  exists loc,
    lookup_location value locationDict = Some loc /\
    center st' = (loc_lon loc, loc_lat loc, loc_zoom loc) /\
    inspected (mkCoords (loc_lon loc) (loc_lat loc)) st'.
Proof.
  intros Hstep.
  destruct (locationSelect_onChange_inv _ _ _ Hstep)
    as (loc & t & text & s' & Hlook & _ & Hs' & Hconf).
  cbn zeta in Hs'. exists loc. split; [exact Hlook|].
  pose proof (generateChart_inspected (mkCoords (loc_lon loc) (loc_lat loc))
                (with_center (loc_lon loc, loc_lat loc, loc_zoom loc) st)) as H2.
  apply (dateSlider_setValue_inspected _ t) in H2.
  assert (Hc3 : center (dateSlider_setValue t
                  (generateChart (mkCoords (loc_lon loc) (loc_lat loc))
                     (with_center (loc_lon loc, loc_lat loc, loc_zoom loc) st)))
                = (loc_lon loc, loc_lat loc, loc_zoom loc)).
  { destruct (dateSlider_setValue_frame t
                (generateChart (mkCoords (loc_lon loc) (loc_lat loc))
                   (with_center (loc_lon loc, loc_lat loc, loc_zoom loc) st)))
      as (-> & _).
    by destruct (generateChart_frame (mkCoords (loc_lon loc) (loc_lat loc))
      (with_center (loc_lon loc, loc_lat loc, loc_zoom loc) st)) as (-> & _). }
  assert (Hlen3 : (4 <= length (layers (dateSlider_setValue t
                  (generateChart (mkCoords (loc_lon loc) (loc_lat loc))
                     (with_center (loc_lon loc, loc_lat loc, loc_zoom loc) st)))))%nat).
  { rewrite dateSlider_setValue_length, generateChart_layers, ActiveList_set_length.
    lia. }
  revert Hs' H2 Hc3 Hlen3.
  generalize (dateSlider_setValue t
                (generateChart (mkCoords (loc_lon loc) (loc_lat loc))
                   (with_center (loc_lon loc, loc_lat loc, loc_zoom loc) st))).
  intros s3 Hs' H2 Hc3 Hlen3.
  destruct (configureExample_frame _ _ _ _ Hconf) as (Fc & _).
  rewrite Fc.
  destruct Hs' as [[_ ->]|[_ ->]].
  - split; [exact Hc3|]. exact (configureExample_inspected _ _ _ _ _ Hconf H2).
  - destruct (with_layers_frame (ActiveList_add outline_layer (layers s3)) s3)
      as (Fc' & _).
    split; [by rewrite Fc'|].
    apply (configureExample_inspected _ _ _ _ _ Hconf).
    by apply added_layer_inspected.
Qed.

Lemma shown_month_inspected (coords : Coords) (x : Layer) (st : State) :
  inspected coords st ->
  inspected coords (with_layers (<[1%nat := Some x]> (layers st)) st).
Proof.
  intros (Hlon & Hlat & (L & HL & Hobj & Hname) & Hw).
  destruct (with_layers_frame (<[1%nat := Some x]> (layers st)) st)
    as (_ & Fw & _ & _ & Flon & Flat & _).
  split; [rewrite Flon; exact Hlon|]. split; [rewrite Flat; exact Hlat|]. split.
  - exists L. split; [|exact (conj Hobj Hname)]. rewrite with_layers_layers.
    unfold ActiveList_get in *. rewrite list_lookup_insert_ne by done. exact HL.
  - rewrite Fw. exact Hw.
Qed.

Lemma init_inspected (clock : Z) (st : State) :
  init clock = Some st -> inspected initialPoint st.
Proof.
  intros Hi. destruct (init_inv clock st Hi) as (L1 & _ & ->).
  apply shown_month_inspected, generateChart_inspected.
Qed.

(** X17.  The marker on the map, the chart in the inspector and the two
    coordinate labels always describe one and the same point: the start
    of the script sets them to the initial point, a click on the map to
    the clicked point, a selection in the location menu to the
    coordinates of the entry (on which the map is centred at the zoom of
    the entry), and no other gesture changes any of them. *)
Theorem inspected_point_invariant :
  (forall clock st0, init clock = Some st0 -> inspected initialPoint st0) /\
  (forall e st st',
     step e st = Some st' ->
     match e with
     | MapClick coords => inspected coords st'
     | SelectLocation value =>
         exists loc,
           lookup_location value locationDict = Some loc /\
           center st' = (loc_lon loc, loc_lat loc, loc_zoom loc) /\
           inspected (mkCoords (loc_lon loc) (loc_lat loc)) st'
     | _ => forall coords, inspected coords st -> inspected coords st'
     end).
Proof.
  split; [exact init_inspected|]. intros e st st' Hstep.
  destruct e as [coords|selected|value|t|t|value].
  - injection Hstep as <-. apply generateChart_inspected.
  - injection Hstep as <-. intros coords.
    destruct (layerSelect_onChange_frame selected (with_layerSelect selected st))
      as (_ & Fw & _ & Flon & Flat & _).
    apply (forEach_inspected coords (fun e => setShown (name_is selected e) e));
      [done| |done..].
    by rewrite layerSelect_onChange_layers.
  - injection Hstep as <-. intros coords.
    by apply (forEach_inspected coords (setOpacity value)).
  - injection Hstep as <-. intros coords. apply dateSlider_setValue_inspected.
  - intros coords Hin.
    destruct (chart_click_cases t st st' Hstep) as [->| ->]; [|done].
    by apply dateSlider_setValue_inspected.
  - cbn [step] in Hstep. exact (location_selection_inspected _ _ _ Hstep).
Qed.

Lemma format_day_start (t : Z) :
  format_MMMM_dd_YYYY (dr_start (getRange t day)) = format_MMMM_dd_YYYY t.
Proof. unfold format_MMMM_dd_YYYY. by rewrite day_range_start. Qed.

Lemma layer_of_imagery (u : Unit) (t : Z) (st : State) :
  name (layer_of u (getRange t day) st) = Some (unit_name u) /\
  eeObject (layer_of u (getRange t day) st) = imagery u t.
Proof.
  split; [by destruct u|].
  destruct u; cbn [layer_of imagery yearly monthly daily eeObject].
  - by rewrite comp_annual_composite, window_getRange.
  - by rewrite comp_monthly_composite, window_getRange.
  - reflexivity.
Qed.

Lemma dateSlider_setValue_dated (t : Z) (st : State) :
  dated t (dateSlider_setValue t st).
Proof.
  destruct (dateSlider_setValue_date t st) as (Hds & Hd).
  split; [exact Hds|]. split; [by rewrite Hd, format_day_start|].
  intros u. eexists. split; [apply slide_layer|]. apply layer_of_imagery.
Qed.

Lemma forEach_dated (t : Z) (f : Layer -> Layer) (st st' : State) :
  (forall l, eeObject (f l) = eeObject l /\ name (f l) = name l) ->
  layers st' = ActiveList_forEach f (layers st) ->
  dateSlider st' = dateSlider st -> date st' = date st ->
  dated t st -> dated t st'.
Proof.
  intros Hf Hl Fds Fd (Hds & Hd & Hu).
  split; [by rewrite Fds|]. split; [by rewrite Fd|].
  intros u. destruct (Hu u) as (L & HL & Hname & Hobj).
  exists (f L). rewrite Hl, ActiveList_get_forEach, HL.
  destruct (Hf L) as [-> ->]. by split.
Qed.

Lemma generateChart_dated (t : Z) (coords : Coords) (st : State) :
  dated t st -> dated t (generateChart coords st).
Proof.
  intros (Hds & Hd & Hu).
  destruct (generateChart_frame coords st) as (_ & Fd & _ & _ & _ & Fds & _).
  split; [by rewrite Fds|]. split; [by rewrite Fd|].
  intros u. destruct (Hu u) as (L & HL & Hname & Hobj). exists L.
  split; [|done]. rewrite generateChart_layers.
  rewrite ActiveList_get_set_ne by (destruct u; cbn; lia). exact HL.
Qed.

Lemma added_layer_dated (t : Z) (x : Layer) (st : State) :
  (3 <= length (layers st))%nat ->
  dated t st -> dated t (with_layers (ActiveList_add x (layers st)) st).
Proof.
  intros Hlen (Hds & Hd & Hu).
  destruct (with_layers_frame (ActiveList_add x (layers st)) st)
    as (_ & _ & Fd & _ & _ & _ & _ & _ & Fds & _).
  split; [rewrite Fds; exact Hds|]. split; [rewrite Fd; exact Hd|].
  intros u. destruct (Hu u) as (L & HL & Hname & Hobj). exists L.
  split; [|exact (conj Hname Hobj)].
  rewrite with_layers_layers, ActiveList_get_add_lt; [exact HL|].
  destruct u; cbn [slot]; lia.
Qed.

Lemma configureExample_dated (t : Z) (text : list Widget) (o : Q) (st st' : State) :
  configureExample text o st = Some st' -> dated t st -> dated t st'.
Proof.
  intros Hconf (Hds & Hd & Hu).
  destruct (configureExample_frame _ _ _ _ Hconf)
    as (_ & Fd & _ & _ & _ & _ & _ & Fds & _).
  destruct (configureExample_layers _ _ _ _ Hconf) as (_ & Hl).
  split; [rewrite Fds; exact Hds|]. split; [rewrite Fd; exact Hd|].
  intros u. destruct (Hu u) as (L & HL & Hname & Hobj).
  exists (configured o (slot u) L). rewrite Hl, HL.
  split; [reflexivity|]. unfold configured.
  destruct (slot u =? 1)%nat, (slot u =? 3)%nat; exact (conj Hname Hobj).
Qed.

Lemma location_selection_dated (value : string) (st st' : State) :
  locationSelect_onChange value st = Some st' ->
  exists loc t,
    lookup_location value locationDict = Some loc /\
    parse_date (loc_date loc) = Some t /\ dated t st'.
Proof.
  intros Hstep.
  destruct (locationSelect_onChange_inv _ _ _ Hstep)
    as (loc & t & text & s' & Hlook & Hparse & Hs' & Hconf).
  cbn zeta in Hs'. exists loc, t. split; [exact Hlook|]. split; [exact Hparse|].
  pose proof (dateSlider_setValue_dated t
                (generateChart (mkCoords (loc_lon loc) (loc_lat loc))
                   (with_center (loc_lon loc, loc_lat loc, loc_zoom loc) st))) as H3.
  pose proof (dateSlider_setValue_length t
                (generateChart (mkCoords (loc_lon loc) (loc_lat loc))
                   (with_center (loc_lon loc, loc_lat loc, loc_zoom loc) st))) as Hlen.
  revert Hs' H3 Hlen.
  generalize (dateSlider_setValue t
                (generateChart (mkCoords (loc_lon loc) (loc_lat loc))
                   (with_center (loc_lon loc, loc_lat loc, loc_zoom loc) st))).
  intros s3 Hs' H3 Hlen.
  apply (configureExample_dated t _ _ _ _ Hconf).
  destruct Hs' as [[_ ->]|[_ ->]]; [exact H3|].
  apply added_layer_dated; [lia|exact H3].
Qed.

Lemma with_widgets_dated (t : Z) (ws : ActiveList Widget) (st : State) :
  dated t st -> dated t (with_widgets ws st).
Proof. intros (Hds & Hd & Hu). split; [exact Hds|]. split; [exact Hd|exact Hu]. Qed.

Lemma shown_month_dated (t : Z) (L1 : Layer) (st : State) :
  ActiveList_get 1 (layers st) = Some L1 ->
  dated t st ->
  dated t (with_layers (<[1%nat := Some (setShown true L1)]> (layers st)) st).
Proof.
  intros H1 (Hds & Hd & Hu).
  destruct (with_layers_frame (<[1%nat := Some (setShown true L1)]> (layers st)) st)
    as (_ & _ & Fd & _ & _ & _ & _ & _ & Fds & _).
  split; [rewrite Fds; exact Hds|]. split; [rewrite Fd; exact Hd|].
  intros u. destruct (Hu u) as (L & HL & Hname & Hobj).
  rewrite with_layers_layers. unfold ActiveList_get in *.
  destruct (decide (slot u = 1%nat)) as [E|N].
  - rewrite E in *. rewrite H1 in HL. injection HL as <-.
    exists (setShown true L1). rewrite list_lookup_insert_eq.
    + split; [reflexivity|]. exact (conj Hname Hobj).
    + apply lookup_lt_is_Some. destruct (layers st !! 1%nat); [eauto|done].
  - exists L. rewrite list_lookup_insert_ne by done. split; [exact HL|].
    exact (conj Hname Hobj).
Qed.

Lemma init_dated (clock : Z) (st : State) :
  init clock = Some st -> dated (now clock) st.
Proof.
  intros Hi. destruct (init_inv clock st Hi) as (L1 & H1 & ->). cbn zeta in H1.
  apply shown_month_dated; [exact H1|].
  apply generateChart_dated, with_widgets_dated, dateSlider_setValue_dated.
Qed.

(** X18.  The slider, the date label and the imagery of the three layers
    are always those of one and the same date: the passes of its day in
    slot 0, the composite of its month in slot 1 and of its year in slot
    2, under the names Day, Month and Year.  The start of the script sets
    them to the day seven days before, a date change or a successful
    click on a chart point with a handler to the date given, a selection
    in the location menu to the date of the entry; clicks on the map,
    changes of granularity and slides of the opacity keep them. *)
Theorem dated_invariant :
  (forall clock st0, init clock = Some st0 -> dated (now clock) st0) /\
  (forall e st st',
     step e st = Some st' ->
     (forall t0, dated t0 st -> exists t1, dated t1 st') /\
     match e with
     | SetDate t => dated t st'
     | ChartClick t => dated t st' \/ st' = st
     | SelectLocation value =>
         exists loc t,
           lookup_location value locationDict = Some loc /\
           parse_date (loc_date loc) = Some t /\ dated t st'
     | _ => forall t, dated t st -> dated t st'
     end).
Proof.
  split; [exact init_dated|]. intros e st st' Hstep.
  destruct e as [coords|selected|value|t|t|value].
  - injection Hstep as <-.
    split; [intros t0 H0; exists t0|intros t0 H0]; by apply generateChart_dated.
  - injection Hstep as <-.
    destruct (layerSelect_onChange_frame selected (with_layerSelect selected st))
      as (_ & _ & Fd & _ & _ & _ & _ & Fds & _).
    assert (H : forall t, dated t st ->
              dated t (layerSelect_onChange selected (with_layerSelect selected st))).
    { intros t0.
      apply (forEach_dated t0 (fun e => setShown (name_is selected e) e));
        [done| |done..].
      by rewrite layerSelect_onChange_layers. }
    split; [intros t0 H0; exists t0; by apply H|exact H].
  - injection Hstep as <-.
    assert (H : forall t, dated t st ->
              dated t (opacitySlider_onSlide value (with_opacitySlider value st))).
    { intros t0. by apply (forEach_dated t0 (setOpacity value)). }
    split; [intros t0 H0; exists t0; by apply H|exact H].
  - injection Hstep as <-.
    split; [intros t0 _; exists t|]; apply dateSlider_setValue_dated.
  - destruct (chart_click_cases t st st' Hstep) as [->| ->].
    + split; [intros t0 _; exists t|left]; apply dateSlider_setValue_dated.
    + split; [intros t0 H0; by exists t0|by right].
  - destruct (location_selection_dated _ _ _ Hstep) as (loc & t & Hl & Hp & Hd).
    split; [intros t0 _; by exists t|]. by exists loc, t.
Qed.

(** *** The inspector *)

Lemma configureExample_widgets (text : list Widget) (o : Q) (st st' : State) :
  configureExample text o st = Some st' ->
  ActiveList_get 10 (widgets st') = Some (Panel text None []) /\
  ActiveList_get 11 (widgets st') = Some contact /\
  forall i, i <> 10%nat -> i <> 11%nat ->
    ActiveList_get i (widgets st') = ActiveList_get i (widgets st).
Proof.
  intros Hconf.
  destruct (configureExample_frame _ _ _ _ Hconf) as (_ & _ & _ & _ & _ & _ & _ & _ & _ & Fw).
  rewrite Fw. split; [|split].
  - rewrite ActiveList_get_set_ne by lia. apply ActiveList_get_set_eq.
  - apply ActiveList_get_set_eq.
  - intros i N10 N11. by rewrite !ActiveList_get_set_ne by lia.
Qed.

Lemma location_selection_widgets (value : string) (st st' : State) :
  locationSelect_onChange value st = Some st' ->
  exists text coords,
    widgets st' = ActiveList_set 11 contact
                    (ActiveList_set 10 (Panel text None [])
                       (widgets (generateChart coords st))).
Proof.
  intros Hstep.
  destruct (locationSelect_onChange_inv _ _ _ Hstep)
    as (loc & t & text & s' & _ & _ & Hs' & Hconf).
  cbn zeta in Hs'. exists text, (mkCoords (loc_lon loc) (loc_lat loc)).
  destruct (configureExample_frame _ _ _ _ Hconf)
    as (_ & _ & _ & _ & _ & _ & _ & _ & _ & ->).
  do 2 f_equal.
  pose proof (dateSlider_setValue_frame t
                (generateChart (mkCoords (loc_lon loc) (loc_lat loc))
                   (with_center (loc_lon loc, loc_lat loc, loc_zoom loc) st)))
    as (_ & Fw & _).
  rewrite (generateChart_widgets _ (with_center _ st)) in Fw.
  rewrite generateChart_widgets.
  change (widgets (with_center (loc_lon loc, loc_lat loc, loc_zoom loc) st))
    with (widgets st) in Fw.
  revert Hs' Fw.
  generalize (dateSlider_setValue t
                (generateChart (mkCoords (loc_lon loc) (loc_lat loc))
                   (with_center (loc_lon loc, loc_lat loc, loc_zoom loc) st))).
  intros s3 Hs' Fw. rewrite <- Fw.
  destruct Hs' as [[_ ->]|[_ ->]]; reflexivity.
Qed.

(** X19.  No gesture touches a slot of the inspector other than 3 (the
    chart), 10 (the text of an example) and 11 (the contact line).  Only
    a selection in the location menu writes slots 10 and 11: the text of
    an example stays in the inspector through every later click, date
    change, change of granularity and slide of the opacity, and the slot
    is empty until a first selection.  Only a click on the map and a
    selection in the location menu change the chart. *)
Theorem inspector_slots (e : Event) (st st' : State) :
  step e st = Some st' ->
  (forall i, i <> 3%nat -> i <> 10%nat -> i <> 11%nat ->
     ActiveList_get i (widgets st') = ActiveList_get i (widgets st)) /\
  ((forall value, e <> SelectLocation value) ->
     ActiveList_get 10 (widgets st') = ActiveList_get 10 (widgets st) /\
     ActiveList_get 11 (widgets st') = ActiveList_get 11 (widgets st)) /\
  ((forall value, e <> SelectLocation value) -> (forall coords, e <> MapClick coords) ->
     widgets st' = widgets st) /\
  (forall value, e = SelectLocation value ->
     (exists text, ActiveList_get 10 (widgets st') = Some (Panel text None [])) /\
     ActiveList_get 11 (widgets st') = Some contact).
Proof.
  intros Hstep.
  destruct e as [coords|selected|value|t|t|value].
  - injection Hstep as <-. rewrite generateChart_widgets.
    split; [intros i N3 _ _; by rewrite !ActiveList_get_set_ne by lia|].
    split; [intros _; by rewrite !ActiveList_get_set_ne by lia|].
    split; [intros _ H; by destruct (H coords)|]. intros ? [=].
  - injection Hstep as <-.
    destruct (layerSelect_onChange_frame selected (with_layerSelect selected st))
      as (_ & Fw & _).
    rewrite Fw. by repeat split.
  - injection Hstep as <-. by repeat split.
  - injection Hstep as <-.
    destruct (dateSlider_setValue_frame t st) as (_ & Fw & _).
    rewrite Fw. by repeat split.
  - assert (Fw : widgets st' = widgets st).
    { destruct (chart_click_cases t st st' Hstep) as [->| ->]; [|done].
      by destruct (dateSlider_setValue_frame t st) as (_ & Fw & _). }
    rewrite Fw. by repeat split.
  - cbn [step] in Hstep.
    destruct (location_selection_widgets _ _ _ Hstep) as (text & coords & Fw).
    rewrite Fw, generateChart_widgets. cbn [widgets with_locationSelect].
    split.
    { intros i N3 N10 N11. by rewrite !ActiveList_get_set_ne by lia. }
    split; [intros H; by destruct (H value)|].
    split; [intros H; by destruct (H value)|].
    intros ? _. split.
    + exists text. rewrite ActiveList_get_set_ne by lia. apply ActiveList_get_set_eq.
    + apply ActiveList_get_set_eq.
Qed.

(** *** The VV channel *)

Lemma is_pixel_max_ext (c1 c2 : ImageCollection) (n : string) (r : Raster) :
  (forall img, In img c1 <-> In img c2) ->
  is_pixel_max c1 n r -> is_pixel_max c2 n r.
Proof.
  intros Hiff H p. specialize (H p). destruct (r p) as [v|].
  - destruct H as [(img & b & Hin & Hb & Hv) Hub]. split.
    + exists img, b. by rewrite <- Hiff.
    + intros img' b' w Hin'. apply Hub. by rewrite Hiff.
  - intros img b Hin. apply H. by rewrite Hiff.
Qed.

(** X20.  When every pass of the collection is flagged ASCENDING or
    DESCENDING, the VV band of a composite is the per-pixel maximum of VV
    over all the passes of the window: merging the two directions loses
    no pass.  A pass flagged otherwise, or not flagged, would be left
    out of all three bands. *)
Theorem VV_band_over_all_passes (w : DateRange) :
  (forall img, In img vh ->
     orbitProperties_pass img = Some "ASCENDING" \/
     orbitProperties_pass img = Some "DESCENDING") ->
  (forall img, In img (restricted w (Collection_merge vhA vhD)) <->
               In img (restricted w vh)) /\
  is_pixel_max (restricted w vh) "VV"
    (pixel_max (stack "VV" (restricted w (Collection_merge vhA vhD)))) /\
  (restricted w vh <> [] ->
   band "VV" (bands (composite w))
   = Some (pixel_max (stack "VV" (restricted w (Collection_merge vhA vhD))))).
Proof.
  intros Hpass.
  assert (Hiff : forall img, In img (restricted w (Collection_merge vhA vhD)) <->
                             In img (restricted w vh)).
  { intros img. unfold restricted. rewrite !filterDate_In.
    unfold Collection_merge, vhA, vhD. rewrite in_app_iff, !filter_In.
    unfold Filter_eq. split.
    - intros [[[Hin _]|[Hin _]] Ht]; by split.
    - intros [Hin Ht]. split; [|done].
      destruct (Hpass img Hin) as [E|E]; rewrite E; [left|right]; by split. }
  split; [exact Hiff|]. split.
  { apply (is_pixel_max_ext _ _ _ _ Hiff), pixel_max_spec. }
  intros Hne. rewrite composite_bands_by_case.
  assert (Hm : restricted w (Collection_merge vhA vhD)
               = restricted w vhA ++ restricted w vhD).
  { unfold restricted. by rewrite filterDate_merge. }
  destruct (restricted w vhA) as [|a ra] eqn:EA;
    destruct (restricted w vhD) as [|d rd] eqn:ED.
  - destruct (restricted w vh) as [|img ?] eqn:E; [done|].
    specialize (Hiff img). rewrite Hm in Hiff. cbn in Hiff.
    destruct Hiff as [_ Hiff]. destruct Hiff. by left.
  - rewrite Hm. reflexivity.
  - rewrite Hm, app_nil_r. reflexivity.
  - reflexivity.
Qed.

(** *** Selecting a location again *)

Lemma ActiveList_ext {A} (l k : ActiveList A) :
  length l = length k ->
  (forall i, ActiveList_get i l = ActiveList_get i k) ->
  l = k.
Proof.
  intros Hlen Hget. apply list_eq. intros i. specialize (Hget i).
  unfold ActiveList_get in Hget.
  destruct (decide (i < length l)%nat) as [Hi|Hi].
  - destruct (lookup_lt_is_Some_2 l i Hi) as [x Hx].
    destruct (lookup_lt_is_Some_2 k i ltac:(lia)) as [y Hy].
    rewrite Hx, Hy in *. cbn in Hget. by rewrite Hget.
  - rewrite !lookup_ge_None_2 by lia. done.
Qed.

Lemma generateChart_widgets_once (coords : Coords) (st : State) :
  widgets (generateChart coords st)
  = ActiveList_set 3 (ChartWidget (onClick Callback_getDate (rfiChart coords)))
      (widgets st).
Proof. rewrite generateChart_widgets. apply ActiveList_set_set. Qed.

(** How a selection other than Dammam runs, for every state alike. *)
Lemma locationSelect_onChange_run (value : string) (loc : Location) :
  lookup_location value locationDict = Some loc ->
  value <> "Dammam, Saudi Arabia" ->
  exists t text,
    parse_date (loc_date loc) = Some t /\
    forall st,
      locationSelect_onChange value st
      = configureExample text (site_opacity value)
          (dateSlider_setValue t
             (generateChart (mkCoords (loc_lon loc) (loc_lat loc))
                (with_center (loc_lon loc, loc_lat loc, loc_zoom loc) st))).
Proof.
  destruct location_dates as (D1 & D2 & D3 & D4).
  unfold locationDict. cbn [lookup_location]. intros Hlook Hne.
  destruct (String.eqb_spec value "Dammam, Saudi Arabia") as [->|N1]; [done|].
  destruct (String.eqb_spec value "Dimona Radar Facility, Israel") as [->|N2].
  { injection Hlook as <-. eexists _, _. split; [exact D2|]. intros st.
    unfold locationSelect_onChange, locationDict. cbn [lookup_location String.eqb
      Ascii.eqb Bool.eqb mbind option_bind loc_lon loc_lat loc_zoom loc_date loc_func].
    rewrite D2. cbn [mbind option_bind]. unfold loc2_function.
    change (site_opacity "Dimona Radar Facility, Israel") with 0.8%Q. reflexivity. }
  destruct (String.eqb_spec value "Rostov-on-Don, Russia") as [->|N3].
  { injection Hlook as <-. eexists _, _. split; [exact D3|]. intros st.
    unfold locationSelect_onChange, locationDict. cbn [lookup_location String.eqb
      Ascii.eqb Bool.eqb mbind option_bind loc_lon loc_lat loc_zoom loc_date loc_func].
    rewrite D3. cbn [mbind option_bind]. unfold loc3_function.
    change (site_opacity "Rostov-on-Don, Russia") with 0.8%Q. reflexivity. }
  destruct (String.eqb_spec value "White Sands Missile Range, USA") as [->|N4].
  { injection Hlook as <-. eexists _, _. split; [exact D4|]. intros st.
    unfold locationSelect_onChange, locationDict. cbn [lookup_location String.eqb
      Ascii.eqb Bool.eqb mbind option_bind loc_lon loc_lat loc_zoom loc_date loc_func].
    rewrite D4. cbn [mbind option_bind]. unfold loc4_function.
    change (site_opacity "White Sands Missile Range, USA") with 0.8%Q. reflexivity. }
  done.
Qed.

(** The state a configured selection leaves, field by field. *)
Lemma configured_selection (c : Q * Q * Z) (coords : Coords) (t : Z)
  (text : list Widget) (o : Q) (st st' : State) :
  configureExample text o
    (dateSlider_setValue t (generateChart coords (with_center c st))) = Some st' ->
  center st' = c /\
  widgets st' = ActiveList_set 11 contact
                  (ActiveList_set 10 (Panel text None [])
                     (ActiveList_set 3
                        (ChartWidget (onClick Callback_getDate (rfiChart coords)))
                        (widgets st))) /\
  date st' = format_MMMM_dd_YYYY (dr_start (getRange t day)) /\
  image_info st' = image_info st /\
  lon st' = "lon: " +:+ toFixed2 (coords_lon coords) /\
  lat st' = "lat: " +:+ toFixed2 (coords_lat coords) /\
  layerSelect st' = layerSelect st /\
  opacitySlider st' = opacitySlider st /\
  dateSlider st' = Some (getRange t day) /\
  locationSelect st' = locationSelect st /\
  length (layers st') = Nat.max 4 (length (layers st)) /\
  (forall u, ActiveList_get (slot u) (layers st')
     = Some (configured o (slot u) (layer_of u (getRange t day) st))) /\
  ActiveList_get 3 (layers st') = Some (configured o 3 (dot coords)) /\
  (forall i, (4 <= i)%nat ->
     ActiveList_get i (layers st') = setShown false <$> ActiveList_get i (layers st)).
Proof.
  intros Hconf.
  destruct (configureExample_frame _ _ _ _ Hconf)
    as (Fc & Fd & Fi & Flon & Flat & Fs & Fo & Fds & Fl & Fw).
  destruct (configureExample_layers _ _ _ _ Hconf) as (Hlen & Hl).
  destruct (layers_before_func c coords t st) as (Hslots & Hdot & Hhigh & Hlen3).
  cbn zeta in Hslots, Hdot, Hhigh, Hlen3.
  destruct (dateSlider_setValue_frame t (generateChart coords (with_center c st)))
    as (Dc & Dw & Di & Dlon & Dlat & Ds & Do & Dl).
  destruct (dateSlider_setValue_date t (generateChart coords (with_center c st)))
    as (Dds & Dd).
  destruct (generateChart_frame coords (with_center c st))
    as (Gc & _ & Gi & Gs & Go & _ & Gl).
  destruct (generateChart_point coords (with_center c st)) as (Glon & Glat & _).
  pose proof (generateChart_widgets_once coords (with_center c st)) as Gw.
  rewrite Fc, Fw, Fd, Fi, Flon, Flat, Fs, Fo, Fds, Fl, Hlen.
  rewrite Dc, Dw, Di, Dlon, Dlat, Ds, Do, Dl, Dds, Dd, Hlen3.
  rewrite Gc, Gi, Gs, Go, Gl, Glon, Glat, Gw.
  repeat (split; [reflexivity|]).
  split; [|split].
  - intros u. by rewrite Hl, Hslots.
  - by rewrite Hl, Hdot.
  - intros i Hi. rewrite Hl, Hhigh by done. unfold configured.
    destruct (Nat.eqb_spec i 1); [lia|]. by destruct (Nat.eqb_spec i 3); [lia|].
Qed.

Lemma setShown_false_twice (o : option Layer) :
  setShown false <$> (setShown false <$> o) = setShown false <$> o.
Proof. by destruct o. Qed.

(** X21.  Selecting an example location that is already selected
    changes nothing: the selection leaves the same state when made a
    second time, whatever was on the map and in the inspector before the
    first.  (Dammam is the exception, each selection adding an outline.) *)
Theorem location_selection_idempotent (value : string) (st st1 : State) :
  value <> "Dammam, Saudi Arabia" ->
  step (SelectLocation value) st = Some st1 ->
  step (SelectLocation value) st1 = Some st1.
Proof.
  intros Hne Hstep. cbn [step] in *.
  destruct (locationSelect_onChange_inv _ _ _ Hstep) as (loc & _ & _ & _ & Hlook & _).
  destruct (locationSelect_onChange_run value loc Hlook Hne) as (t & text & Hparse & Hrun).
  rewrite Hrun in Hstep.
  assert (Htot : is_Some (locationSelect_onChange value (with_locationSelect value st1))).
  { apply (location_selection_total value st1), (lookup_location_In _ _ Hlook). }
  destruct Htot as [st2 Hstep2]. rewrite Hstep2. f_equal.
  rewrite Hrun in Hstep2.
  destruct (configured_selection _ _ _ _ _ _ _ Hstep)
    as (Fc & Fw & Fd & Fi & Flon & Flat & Fs & Fo & Fds & Fl & Hlen & Hslots & Hdot & Hhigh).
  destruct (configured_selection _ _ _ _ _ _ _ Hstep2)
    as (Fc2 & Fw2 & Fd2 & Fi2 & Flon2 & Flat2 & Fs2 & Fo2 & Fds2 & Fl2 & Hlen2
        & Hslots2 & Hdot2 & Hhigh2).
  cbn [widgets image_info layerSelect opacitySlider locationSelect layers
       with_locationSelect] in *.
  assert (Hlay : forall u,
            layer_of u (getRange t day) (with_locationSelect value st1)
            = layer_of u (getRange t day) (with_locationSelect value st)).
  { intros u. apply layer_of_window; [reflexivity|exact Fs]. }
  apply State_eq; try congruence.
  - apply ActiveList_ext; [rewrite Hlen2, Hlen; lia|].
    intros i.
    destruct (decide (i = 0%nat)) as [->|N0].
    { pose proof (Hslots2 day) as A. pose proof (Hslots day) as B. cbn [slot] in A, B.
      by rewrite A, B, Hlay. }
    destruct (decide (i = 1%nat)) as [->|N1].
    { pose proof (Hslots2 month) as A. pose proof (Hslots month) as B. cbn [slot] in A, B.
      by rewrite A, B, Hlay. }
    destruct (decide (i = 2%nat)) as [->|N2].
    { pose proof (Hslots2 year) as A. pose proof (Hslots year) as B. cbn [slot] in A, B.
      by rewrite A, B, Hlay. }
    destruct (decide (i = 3%nat)) as [->|N3]; [by rewrite Hdot2, Hdot|].
    rewrite Hhigh2, !Hhigh by lia. apply setShown_false_twice.
  - rewrite Fw2, Fw.
    rewrite (ActiveList_set_comm 3 11), (ActiveList_set_comm 3 10) by lia.
    rewrite ActiveList_set_set.
    rewrite (ActiveList_set_comm 10 11) by lia.
    by rewrite !ActiveList_set_set.
Qed.

(** *** The states the interface can be in *)

Lemma step_inspected (e : Event) (st st' : State) :
  step e st = Some st' ->
  (exists coords, inspected coords st) -> exists coords, inspected coords st'.
Proof.
  intros Hstep [c0 H0].
  destruct e as [coords|selected|value|t|t|value].
  - injection Hstep as <-. exists coords. apply generateChart_inspected.
  - injection Hstep as <-. exists c0.
    destruct (layerSelect_onChange_frame selected (with_layerSelect selected st))
      as (_ & Fw & _ & Flon & Flat & _).
    revert H0.
    apply (forEach_inspected c0 (fun e => setShown (name_is selected e) e));
      [done| |done..].
    by rewrite layerSelect_onChange_layers.
  - injection Hstep as <-. exists c0. revert H0.
    by apply (forEach_inspected c0 (setOpacity value)).
  - injection Hstep as <-. exists c0. by apply dateSlider_setValue_inspected.
  - exists c0. destruct (chart_click_cases t st st' Hstep) as [->| ->]; [|done].
    by apply dateSlider_setValue_inspected.
  - cbn [step] in Hstep.
    destruct (location_selection_inspected _ _ _ Hstep) as (loc & _ & _ & H).
    eauto.
Qed.

Lemma step_dated (e : Event) (st st' : State) :
  step e st = Some st' ->
  (exists t, dated t st) -> exists t, dated t st'.
Proof.
  intros Hstep [t0 H0].
  destruct e as [coords|selected|value|t|t|value].
  - injection Hstep as <-. exists t0. by apply generateChart_dated.
  - injection Hstep as <-. exists t0.
    destruct (layerSelect_onChange_frame selected (with_layerSelect selected st))
      as (_ & _ & Fd & _ & _ & _ & _ & Fds & _).
    revert H0.
    apply (forEach_dated t0 (fun e => setShown (name_is selected e) e));
      [done| |done..].
    by rewrite layerSelect_onChange_layers.
  - injection Hstep as <-. exists t0. revert H0.
    by apply (forEach_dated t0 (setOpacity value)).
  - injection Hstep as <-. exists t. apply dateSlider_setValue_dated.
  - destruct (chart_click_cases t st st' Hstep) as [->| ->]; [|by exists t0].
    exists t. apply dateSlider_setValue_dated.
  - cbn [step] in Hstep.
    destruct (location_selection_dated _ _ _ Hstep) as (loc & t & _ & _ & H).
    eauto.
Qed.

Lemma step_widgets_length (e : Event) (st st' : State) :
  step e st = Some st' ->
  length (widgets st) = 12%nat -> length (widgets st') = 12%nat.
Proof.
  intros Hstep H12.
  destruct e as [coords|selected|value|t|t|value].
  - injection Hstep as <-.
    rewrite generateChart_widgets, !ActiveList_set_length, H12. reflexivity.
  - injection Hstep as <-.
    by destruct (layerSelect_onChange_frame selected (with_layerSelect selected st))
      as (_ & -> & _).
  - injection Hstep as <-. exact H12.
  - injection Hstep as <-.
    by destruct (dateSlider_setValue_frame t st) as (_ & -> & _).
  - destruct (chart_click_cases t st st' Hstep) as [->| ->]; [|done].
    by destruct (dateSlider_setValue_frame t st) as (_ & -> & _).
  - cbn [step] in Hstep.
    destruct (location_selection_widgets _ _ _ Hstep) as (text & coords & ->).
    rewrite generateChart_widgets, !ActiveList_set_length.
    cbn [widgets with_locationSelect]. rewrite H12. reflexivity.
Qed.

Lemma init_widgets_length (clock : Z) (st : State) :
  init clock = Some st -> length (widgets st) = 12%nat.
Proof.
  intros Hi. destruct (init_inv clock st Hi) as (L1 & _ & Heq). cbn zeta in Heq.
  destruct (before_last_statement clock _ eq_refl)
    as (_ & _ & _ & _ & _ & _ & Wlen & _).
  revert Heq Wlen.
  generalize (generateChart initialPoint
                (with_widgets inspectorPanel_initial
                   (dateSlider_setValue (now clock) (blank clock)))).
  intros s3 -> Wlen. exact Wlen.
Qed.

Lemma reachable_facts (st : State) :
  reachable st ->
  (exists coords, inspected coords st) /\ (exists t, dated t st) /\
  length (widgets st) = 12%nat.
Proof.
  induction 1 as [clock st Hi|e st st' _ (IHi & IHd & IHw) Hstep].
  - split; [exists initialPoint; by apply (init_inspected clock)|].
    split; [exists (now clock); by apply init_dated|].
    by apply (init_widgets_length clock).
  - split; [by apply (step_inspected e st)|].
    split; [by apply (step_dated e st)|].
    by apply (step_widgets_length e st).
Qed.

(** X22.  In every state the interface can be in (the one the script
    leaves and all that gestures lead to from there) the marker, the
    chart and the coordinate labels are those of one point, the slider,
    the date label and the imagery those of one date, the map has at
    least four layers and the inspector at least ten slots.  There a
    click on the chart is possible exactly at the times of the points of
    the chart of that point, and is then the date change to that time;
    every other gesture runs to its end. *)
Theorem reachable_states (st : State) :
  reachable st ->
  exists coords t0,
    inspected coords st /\ dated t0 st /\
    (10 <= length (widgets st))%nat /\ (4 <= length (layers st))%nat /\
    (forall t, is_Some (step (ChartClick t) st) <->
               exists v, In (t, v) (chart_data (rfiChart coords))) /\
    (forall t st', step (ChartClick t) st = Some st' ->
                   st' = dateSlider_setValue t st) /\
    (forall e, (forall t, e <> ChartClick t) ->
               (forall value, e = SelectLocation value -> In value locations) ->
               is_Some (step e st)).
Proof.
  intros Hr.
  destruct (reachable_facts st Hr) as ([coords Hin] & [t0 Hd] & Hw).
  exists coords, t0. split; [exact Hin|]. split; [exact Hd|]. split; [lia|].
  destruct Hin as (_ & _ & (L & HL & _) & Hchart).
  split; [exact (ActiveList_get_Some_lt _ _ _ HL)|].
  split; [|split].
  - intros t. cbn [step]. unfold chart_click. rewrite Hchart.
    change (chart_data (onClick Callback_getDate (rfiChart coords)))
      with (chart_data (rfiChart coords)).
    destruct (existsb _ _) eqn:Hex.
    + split; [intros _|eauto].
      apply existsb_exists in Hex as ([t' v] & Hp & Ht).
      cbn [fst] in Ht. apply Z.eqb_eq in Ht as ->. by exists v.
    + split; [by intros [? [=]]|]. intros [v Hv].
      assert (existsb (fun p => p.1 =? t) (chart_data (rfiChart coords)) = true) as C.
      { apply existsb_exists. exists (t, v). split; [done|]. cbn. lia. }
      congruence.
  - intros t st'. cbn [step]. unfold chart_click. rewrite Hchart.
    destruct (existsb _ _); [|done].
    cbn [chart_onClick onClick run getDate]. by intros [= <-].
  - intros e Hc Hl. destruct e as [c|s|v|t|t|v]; cbn [step]; eauto.
    + by destruct (Hc t).
    + apply (location_selection_total v st). by apply Hl.
Qed.

(** *** What a selection overrides, and what commutes with a date change *)

Lemma selection_prepared (v : string) (c : Q * Q * Z) (c0 c1 : Coords) (t0 t : Z)
  (st : State) :
  dateSlider_setValue t0
    (generateChart c0 (with_center c (with_locationSelect v (dateSlider_setValue t st))))
  = dateSlider_setValue t0
      (generateChart c0 (with_center c (with_locationSelect v st))) /\
  dateSlider_setValue t0
    (generateChart c0 (with_center c (with_locationSelect v (generateChart c1 st))))
  = dateSlider_setValue t0
      (generateChart c0 (with_center c (with_locationSelect v st))).
Proof.
  split.
  - apply State_eq; unfold generateChart, dateSlider_setValue, slide; fields;
      try reflexivity.
    unfold daily, monthly, yearly. fields.
    rewrite (ActiveList_set_comm 3 2), (ActiveList_set_comm 3 1),
      (ActiveList_set_comm 3 0) by lia.
    rewrite (ActiveList_set_comm 0 2), (ActiveList_set_comm 0 1) by lia.
    rewrite ActiveList_set_set.
    rewrite (ActiveList_set_comm 1 2) by lia. rewrite ActiveList_set_set.
    by rewrite ActiveList_set_set.
  - apply State_eq; unfold generateChart, dateSlider_setValue, slide; fields;
      try reflexivity.
    + unfold daily, monthly, yearly. fields. by rewrite ActiveList_set_set.
    + by rewrite !ActiveList_set_set.
Qed.

Lemma locationSelect_onChange_ext (value : string) (s1 s2 : State) :
  (forall c c0 t0,
     dateSlider_setValue t0 (generateChart c0 (with_center c s1))
     = dateSlider_setValue t0 (generateChart c0 (with_center c s2))) ->
  locationSelect_onChange value s1 = locationSelect_onChange value s2.
Proof.
  intros H. unfold locationSelect_onChange.
  destruct (lookup_location value locationDict) as [loc|]; [|done].
  cbn [mbind option_bind].
  destruct (parse_date (loc_date loc)) as [t0|]; [|done].
  cbn [mbind option_bind]. by rewrite H.
Qed.

(** X23.  A selection in the location menu overrides the date, the
    marker and the chart that were there: made right after a date change
    or after a click on the map it leaves the very state it leaves
    without them (and fails alike for a value that is not in the menu). *)
Theorem location_selection_overrides (value : string) (t : Z) (coords : Coords)
  (st : State) :
  step (SetDate t) st ≫= step (SelectLocation value)
    = step (SelectLocation value) st /\
  step (MapClick coords) st ≫= step (SelectLocation value)
    = step (SelectLocation value) st.
Proof.
  cbn [step mbind option_bind].
  split; apply locationSelect_onChange_ext; intros c c0 t0;
    by destruct (selection_prepared value c c0 coords t0 t st) as [H1 H2].
Qed.

Lemma ActiveList_forEach_set {A} (f : A -> A) (i : nat) (x : A) (l : ActiveList A) :
  ActiveList_forEach f (ActiveList_set i x l)
  = ActiveList_set i (f x) (ActiveList_forEach f l).
Proof.
  unfold ActiveList_forEach, ActiveList_set. rewrite length_map.
  case_decide.
  - by rewrite list_fmap_insert.
  - rewrite !map_app. f_equal. f_equal.
    induction (i - length l)%nat as [|n IH]; [done|]. cbn. by rewrite IH.
Qed.

Lemma ActiveList_set_some {A} (i : nat) (x : A) (l : ActiveList A) :
  existsb (fun e => bool_decide (is_Some e)) (ActiveList_set i x l) = true.
Proof.
  apply existsb_exists. exists (Some x). split; [|by apply bool_decide_eq_true_2].
  apply list_elem_of_In, list_elem_of_lookup. exists i.
  rewrite ActiveList_set_lookup. by rewrite decide_True.
Qed.

Lemma dateSlider_setValue_some (t : Z) (st : State) :
  existsb (fun e => bool_decide (is_Some e)) (layers (dateSlider_setValue t st)) = true.
Proof. unfold dateSlider_setValue, slide. fields. by rewrite ActiveList_set_some. Qed.

Lemma layerSelect_onChange_some (selected : string) (st : State) :
  existsb (fun e => bool_decide (is_Some e)) (layers st) = true ->
  layerSelect_onChange selected st
  = with_image_info
      ("You are currently viewing " +:+ dict selected +:+ " Sentinel-1 imagery from ")
      (with_layers
         (ActiveList_forEach (fun e => setShown (name_is selected e) e) (layers st)) st).
Proof. intros H. unfold layerSelect_onChange. by rewrite H. Qed.

Lemma shown_layer_of (s : string) (u : Unit) (r : DateRange) (st st' : State) :
  layerSelect st' = s ->
  layer_of u r st' = setShown (name_is s (layer_of u r st)) (layer_of u r st).
Proof.
  intros <-. destruct u; unfold layer_of, yearly, monthly, daily, name_is;
    cbn [name setShown eeObject visParams opacity shown];
    by rewrite String.eqb_sym.
Qed.

Lemma dateSlider_setValue_layers (t : Z) (st : State) :
  layers (dateSlider_setValue t st)
  = ActiveList_set 2 (layer_of year (getRange t day) st)
      (ActiveList_set 1 (layer_of month (getRange t day) st)
         (ActiveList_set 0 (layer_of day (getRange t day) st) (layers st))).
Proof. reflexivity. Qed.

Lemma with_layerSelect_layers (s : string) (st : State) :
  layers (with_layerSelect s st) = layers st.
Proof. reflexivity. Qed.

Lemma dateSlider_setValue_unfold (t : Z) (st : State) :
  dateSlider_setValue t st
  = with_layers
      (ActiveList_set 2 (layer_of year (getRange t day) st)
         (ActiveList_set 1 (layer_of month (getRange t day) st)
            (ActiveList_set 0 (layer_of day (getRange t day) st) (layers st))))
      (with_date (format_MMMM_dd_YYYY (dr_start (getRange t day)))
         (with_dateSlider (getRange t day) st)).
Proof. reflexivity. Qed.

Lemma setters_commute (s I D : string) (r : DateRange)
  (LA LB L1 L2 : ActiveList Layer) (st : State) :
  LA = LB ->
  with_layers LA (with_date D (with_dateSlider r
     (with_image_info I (with_layers L1 (with_layerSelect s st)))))
  = with_image_info I (with_layers LB
     (with_layerSelect s (with_layers L2 (with_date D (with_dateSlider r st))))).
Proof. intros ->. reflexivity. Qed.

(** X24.  On a map that has a layer, a change of granularity and a date
    change can be made in either order: the layers shown, the label, the
    select and the date are the same.  (On a map without any layer the
    change of granularity made first does not set the label.) *)
Theorem granularity_date_change_commute (s : string) (t : Z) (st : State) :
  existsb (fun e => bool_decide (is_Some e)) (layers st) = true ->
  step (SelectLayer s) st ≫= step (SetDate t)
    = step (SetDate t) st ≫= step (SelectLayer s).
Proof.
  intros Hex. cbn [step mbind option_bind]. f_equal.
  assert (Hex2 : existsb (fun e => bool_decide (is_Some e))
                   (layers (with_layerSelect s (dateSlider_setValue t st))) = true).
  { rewrite with_layerSelect_layers. apply dateSlider_setValue_some. }
  rewrite (layerSelect_onChange_some s (with_layerSelect s st) Hex).
  rewrite (layerSelect_onChange_some s _ Hex2).
  rewrite !dateSlider_setValue_unfold.
  apply setters_commute.
  cbn [layers with_layers with_date with_dateSlider with_layerSelect with_image_info].
  rewrite !ActiveList_forEach_set.
  f_equal; [|f_equal; [|f_equal]]; by apply shown_layer_of.
Qed.

End Tracker.

Section Archives.

Context {Pixel V : Type} {decibel : Backscatter V}.

Lemma fmap_ActiveList_set {A B} (g : A -> B) (i : nat) (x : A) (l : ActiveList A) :
  map (fmap g) (ActiveList_set i x l) = ActiveList_set i (g x) (map (fmap g) l).
Proof.
  unfold ActiveList_set. rewrite length_map. case_decide.
  - change (map (fmap g) ?k) with (fmap (M:=list) (fmap g) k).
    by rewrite list_fmap_insert.
  - rewrite !map_app. f_equal. f_equal.
    change (map (fmap g) ?k) with (fmap (M:=list) (fmap g) k).
    by rewrite fmap_replicate.
Qed.

Lemma restricted_empty (a : ImageCollection (Pixel:=Pixel) (V:=V)) (w : DateRange) :
  restricted w (vh a) = [] ->
  restricted w (vhA a) = [] /\ restricted w (vhD a) = [].
Proof.
  intros E. split.
  - destruct (restricted w (vhA a)) as [|img rest] eqn:EA; [done|].
    assert (In img (restricted w (vh a))) as Hin; [|by rewrite E in Hin].
    assert (In img (restricted w (vhA a))) as HA by (rewrite EA; by left).
    unfold restricted in *. apply filterDate_In in HA as [HA Ht].
    apply filterDate_In. split; [by apply vhA_incl|done].
  - destruct (restricted w (vhD a)) as [|img rest] eqn:ED; [done|].
    assert (In img (restricted w (vh a))) as Hin; [|by rewrite E in Hin].
    assert (In img (restricted w (vhD a))) as HD by (rewrite ED; by left).
    unfold restricted in *. apply filterDate_In in HD as [HD Ht].
    apply filterDate_In. split; [by apply vhD_incl|done].
Qed.

(** C8 (as amended).  A date change builds its three layers the same way
    whatever the archive holds: between two archives the states it leaves
    differ in nothing but the images and collections displayed.  When no
    image of [vh] falls in the month (or year) of the date, the layer of
    that granularity is still set, and displays the concatenation of three
    reductions of empty collections, an image without bands. *)
Theorem date_change_surface (a1 a2 : ImageCollection (Pixel:=Pixel) (V:=V))
  (t : Z) (st : State) :
  surface (dateSlider_setValue a1 t st) = surface (dateSlider_setValue a2 t st) /\
  (forall u, u <> day ->
     restricted (window u (getRange t day)) (vh a1) = [] ->
     exists L,
       ActiveList_get (slot u) (layers (dateSlider_setValue a1 t st)) = Some L /\
       eeObject L = Displayed_Image (composite a1 (window u (getRange t day))) /\
       bands (composite a1 (window u (getRange t day))) = []).
Proof.
  split.
  - unfold surface, dateSlider_setValue, slide.
    cbn [center layers widgets date image_info lon lat layerSelect opacitySlider
         dateSlider locationSelect with_layers with_date with_dateSlider].
    by rewrite !fmap_ActiveList_set.
  - intros u Hu E. apply restricted_empty in E as [EA ED].
    exists (layer_of a1 u (getRange t day) (with_dateSlider (getRange t day) st)).
    split; [apply slide_layer|]. split.
    { destruct u; [exact (f_equal Displayed_Image (comp_annual_composite a1 _))
                  |exact (f_equal Displayed_Image (comp_monthly_composite a1 _))
                  |by destruct Hu]. }
    unfold composite. by rewrite EA, ED.
Qed.

End Archives.

(** ** 7. A small archive

    Integer decibels on a grid of numbered pixels; every point is sampled
    at pixels 0 and 1. *)

Module Scenario.

#[export] Instance decibels : Backscatter Z :=
  {| vleb := Z.leb;
     vleb_refl := Z.leb_refl;
     vleb_trans := Zle_bool_trans;
     vleb_total := fun x y =>
       match Zle_bool_total x y with
       | left e => or_introl e
       | right e => or_intror e
       end |}.

(** Four pixels on a line going east from the Dammam site, 300 m apart.
    A degree is taken for 100 km; [footprint point d] is the pixels
    within the distance [d] (in metres) of the point. *)
Definition offset (point : Q * Q) : Z * Z :=
  (Qfloor ((point.1 - 49.949916) * 100000)%Q,
   Qfloor ((point.2 - 26.606379) * 100000)%Q).

Definition footprint (point : Q * Q) (d : Z) : list nat :=
  List.filter
    (fun p => (((offset point).1 - 300 * Z.of_nat p) ^ 2 + (offset point).2 ^ 2 <=? d ^ 2))
    [0; 1; 2; 3]%nat.

(** A raster with the given values at pixels 0 and 1, masked elsewhere. *)
Definition raster (v0 v1 : option Z) : nat -> option Z :=
  fun p => match p with O => v0 | S O => v1 | _ => None end.

(** A dual-polarisation scene in interferometric wide swath mode. *)
Definition scene (t : Z) (pass : string) (vh0 vh1 vv0 : option Z) : Image :=
  mkImage (Some t) (Some "IW") (Some pass)
    [("VV", raster vv0 None); ("VH", raster vh0 vh1);
     ("angle", raster (Some 30) (Some 31))].

Definition t_dec14 : Z := instant 2021 12 14 + 3600000.
Definition t_dec20 : Z := instant 2021 12 20.
Definition t_jun10 : Z := instant 2018 6 10 + 7200000.

(** An ascending and a descending pass in December 2021, a pass that does
    not cover the sampled pixels, a single-polarisation scene and a scene
    in another mode. *)
Definition archive : ImageCollection :=
  [ scene t_dec14 "ASCENDING" (Some (-5)) (Some (-9)) (Some (-3));
    mkImage (Some (t_dec14 + 1)) (Some "IW") (Some "ASCENDING")
      [("VV", raster (Some (-1)) None); ("angle", raster (Some 30) None)];
    scene (t_dec14 + 2) "DESCENDING" None None None;
    mkImage (Some (t_dec14 + 3)) (Some "EW") (Some "DESCENDING")
      [("VV", raster (Some 0) None); ("VH", raster (Some 4) None)];
    scene t_dec20 "DESCENDING" (Some (-7)) None (Some (-2)) ].

(** Ascending passes only. *)
Definition archive_ascending : ImageCollection :=
  [ scene t_jun10 "ASCENDING" (Some (-5)) (Some (-9)) (Some (-3)) ].

(** Two scenes with the same acquisition time. *)
Definition archive_same_time : ImageCollection :=
  [ scene t_dec14 "ASCENDING" (Some (-5)) None (Some (-3));
    scene t_dec14 "ASCENDING" (Some (-7)) None (Some (-2)) ].

Definition clock : Z := instant 2022 2 1.

Definition st0 : State (Pixel:=nat) (V:=Z) := blank clock.

Definition dammam : Coords := mkCoords 49.949916 26.606379.

(** The state after a click on the map at Dammam, and its chart. *)
Definition clicked : State := generateChart footprint archive dammam st0.
Definition the_chart : Chart :=
  onClick Callback_getDate (rfiChart footprint archive dammam).

(** The state the script leaves, and the state a selection in the
    location menu leads to. *)
Definition started : State := default st0 (init footprint archive clock).
Definition visit (value : string) (st : State) : State :=
  default st (step footprint archive (SelectLocation value) st).

Example vh_of_archive :
  map system_time_start (vh archive) = [Some t_dec14; Some (t_dec14 + 2); Some t_dec20].
Proof. vm_compute. reflexivity. Qed.

Example init_archive :
  (fun st => (date st, lon st, lat st, length (layers st), length (widgets st),
              map (fmap (fun l => (name l, shown l))) (layers st)))
    <$> init footprint archive clock
  = Some ("January 25, 2022", "lon: 49.95", "lat: 26.61", 4%nat, 12%nat,
          [Some (Some "Day", false); Some (Some "Month", true);
           Some (Some "Year", false); Some (Some "clicked location", true)]).
Proof. vm_compute. reflexivity. Qed.

(** The composite of December 2021 at pixel 0 and pixel 1. *)
Example composite_december :
  map (fun b => (b.1, b.2 0%nat, b.2 1%nat))
      (bands (comp_monthly archive (getRange t_dec14 day)))
  = [("VH", Some (-5), Some (-9)); ("VV", Some (-2), None);
     ("VH_1", Some (-7), None)].
Proof. vm_compute. reflexivity. Qed.

(** Witness of [slide_window_canonical]: the UTC day of 10 June 2018,
    02:00, handed to [slide]. *)
Lemma slide_window_canonical_witness :
  is_canonical day (getRange t_jun10 day) = true /\
  dr_start (getRange t_jun10 day) <= t_jun10 < dr_end (getRange t_jun10 day) /\
  instant 2018 6 10 <= t_jun10 < instant 2018 6 11 /\
  dr_start (window month (getRange t_jun10 day)) <= t_jun10
    < dr_end (window month (getRange t_jun10 day)) /\
  window month (getRange t_jun10 day)
    = mkDateRange (instant 2018 6 1) (instant 2018 7 1) /\
  window year (getRange t_jun10 day)
    = mkDateRange (instant 2018 1 1) (instant 2019 1 1).
Proof.
  assert (Hc : is_canonical day (getRange t_jun10 day) = true)
    by (vm_compute; reflexivity).
  assert (Ht : dr_start (getRange t_jun10 day) <= t_jun10
               < dr_end (getRange t_jun10 day))
    by (vm_compute; split; [discriminate|reflexivity]).
  assert (Hd : instant 2018 6 10 <= t_jun10 < instant 2018 6 11)
    by (vm_compute; split; [discriminate|reflexivity]).
  split; [exact Hc|]. split; [exact Ht|]. split; [exact Hd|].
  destruct (proj2 (proj2 (proj2 (slide_window_canonical archive)))
              t_jun10 (getRange t_jun10 day) month Hc Ht) as (Hin & _ & _).
  destruct (proj2 (proj2 (proj2 (slide_window_canonical archive)))
              t_jun10 (getRange t_jun10 day) year Hc Ht) as (_ & _ & Hy).
  split; [exact Hin|]. split; [vm_compute; reflexivity|]. exact (Hy Hd).
Defined.

(** The hypothesis of C1 on the range is needed: [slide] takes the month
    and the year of the start of the range it is handed.  A one-day range
    that starts at 04:05 UTC on 31 December 2017 holds 00:30 UTC of 1
    January 2018; its Month and Year windows are December 2017 and 2017,
    and do not. *)
Example range_not_on_midnight :
  let t := instant 2018 1 1 + 1800000 in
  let range := mkDateRange (instant 2017 12 31 + 14700000)
                           (instant 2018 1 1 + 14700000) in
  dr_start range <= t < dr_end range /\
  dr_end range = dr_start range + msPerDay /\
  window month range = mkDateRange (instant 2017 12 1) (instant 2018 1 1) /\
  window year range = mkDateRange (instant 2017 1 1) (instant 2018 1 1) /\
  ~ t < dr_end (window year range).
Proof.
  cbv zeta. split; [vm_compute; split; [discriminate|reflexivity]|].
  split; [vm_compute; reflexivity|]. split; [vm_compute; reflexivity|].
  split; [vm_compute; reflexivity|]. vm_compute. discriminate.
Qed.

(** Witness of [composites_are_pixel_max]: the month of 14 December 2021,
    which holds passes of both directions. *)
Lemma composites_are_pixel_max_witness :
  month <> day /\
  restricted (window month (getRange t_dec14 day)) (vhA archive) <> [] /\
  restricted (window month (getRange t_dec14 day)) (vhD archive) <> [] /\
  exists L img,
    ActiveList_get (slot month) (layers (slide archive (getRange t_dec14 day) st0))
      = Some L /\
    eeObject L = Displayed_Image img /\
    img = composite archive (window month (getRange t_dec14 day)) /\
    is_composite archive (window month (getRange t_dec14 day)) img.
Proof.
  assert (Hu : month <> day) by discriminate.
  assert (HA : restricted (window month (getRange t_dec14 day)) (vhA archive) <> [])
    by (vm_compute; discriminate).
  assert (HD : restricted (window month (getRange t_dec14 day)) (vhD archive) <> [])
    by (vm_compute; discriminate).
  split; [exact Hu|]. split; [exact HA|]. split; [exact HD|].
  destruct (composites_are_pixel_max archive (getRange t_dec14 day) st0 month Hu)
    as (L & img & HL & Hobj & Himg & Hcomp & _).
  exists L, img. split; [exact HL|]. split; [exact Hobj|]. split; [exact Himg|].
  exact (Hcomp HA HD).
Defined.

(** C2, as stated, fails: in a month with ascending passes only, the
    composite of the Month layer has two bands, VH and VV. *)
Lemma composite_two_bands :
  exists L img,
    ActiveList_get 1 (layers (dateSlider_setValue archive_ascending t_jun10 st0))
      = Some L /\
    eeObject L = Displayed_Image img /\
    bandNames img = ["VH"; "VV"] /\
    length (bands img) <> 3%nat.
Proof.
  eexists _, _. split; [vm_compute; reflexivity|].
  split; [reflexivity|]. split; [vm_compute; reflexivity|].
  vm_compute. discriminate.
Qed.

(** Witness of [chart_data_of_vh]: the times of [vh archive] increase
    strictly, and so do those of the chart.  The pixels within 500 m of
    the Dammam site are pixels 0 and 1; a point one kilometre to the east
    is covered by no pass and has an empty chart. *)
Lemma chart_data_of_vh_witness :
  StronglySorted Z.lt (omap system_time_start (vh archive)) /\
  StronglySorted Z.lt (chart_data (rfiChart footprint archive dammam)).*1 /\
  footprint (coords_lon dammam, coords_lat dammam) 500 = [0; 1]%nat /\
  chart_data (rfiChart footprint archive dammam) = [(t_dec14, -5); (t_dec20, -7)] /\
  footprint (49.96%Q, 26.606379%Q) 500 = [2; 3]%nat /\
  chart_data (rfiChart footprint archive (mkCoords 49.96 26.606379)) = [].
Proof.
  assert (Hs : StronglySorted Z.lt (omap system_time_start (vh archive))).
  { vm_compute. repeat constructor. }
  split; [exact Hs|]. split.
  - exact (proj2 (proj2 (proj2 (proj2 (proj2
             (chart_data_of_vh footprint archive dammam st0))))) Hs).
  - repeat split; vm_compute; reflexivity.
Defined.

(** Witness of [chart_click_is_date_change]: a click on the point of 14
    December 2021 of the chart made for Dammam. *)
Lemma chart_click_is_date_change_witness :
  ActiveList_get 3 (widgets clicked) = Some (ChartWidget the_chart) /\
  chart_onClick the_chart = Some Callback_getDate /\
  In (t_dec14, -5) (chart_data the_chart) /\
  step footprint archive (ChartClick t_dec14) clicked
    = step footprint archive (SetDate t_dec14) clicked.
Proof.
  assert (H1 : ActiveList_get 3 (widgets clicked) = Some (ChartWidget the_chart))
    by reflexivity.
  assert (H2 : chart_onClick the_chart = Some Callback_getDate) by reflexivity.
  assert (H3 : In (t_dec14, -5) (chart_data the_chart))
    by (vm_compute; left; reflexivity).
  split; [exact H1|]. split; [exact H2|]. split; [exact H3|].
  exact (proj1 (proj2 (chart_click_is_date_change footprint archive
                         the_chart t_dec14 (-5) clicked H1 H2 H3))).
Defined.

(** C4, as stated, fails: two scenes of the same acquisition time give
    two points at the same time. *)
Lemma chart_times_not_strict :
  chart_data (rfiChart footprint archive_same_time dammam)
    = [(t_dec14, -5); (t_dec14, -7)] /\
  ~ StronglySorted Z.lt (chart_data (rfiChart footprint archive_same_time dammam)).*1.
Proof.
  assert (E : chart_data (rfiChart footprint archive_same_time dammam)
              = [(t_dec14, -5); (t_dec14, -7)]) by (vm_compute; reflexivity).
  split; [exact E|]. rewrite E. cbn [fmap list_fmap fst]. intros Hs.
  apply StronglySorted_inv in Hs as [_ Hall].
  apply Forall_inv in Hall. lia.
Qed.

(** C5, as stated, fails: after the script has started, the clicked
    location is shown; selecting Day hides it. *)
Lemma granularity_change_hides_marker :
  exists st st' L L',
    init footprint archive clock = Some st /\
    step footprint archive (SelectLayer "Day") st = Some st' /\
    ActiveList_get 3 (layers st) = Some L /\
    ActiveList_get 3 (layers st') = Some L' /\
    name L = Some "clicked location" /\
    shown L = true /\ shown L' = false.
Proof.
  eexists _, _, _, _. split; [vm_compute; reflexivity|].
  split; [reflexivity|]. split; [vm_compute; reflexivity|].
  split; [vm_compute; reflexivity|]. repeat split.
Qed.

(** Witness of [date_change_surface]: an archive without images. *)
Lemma date_change_surface_witness :
  month <> day /\
  restricted (window month (getRange t_dec14 day)) (vh (Pixel:=nat) (V:=Z) []) = [] /\
  surface (dateSlider_setValue [] t_dec14 st0)
    = surface (dateSlider_setValue archive t_dec14 st0) /\
  exists L,
    ActiveList_get (slot month) (layers (dateSlider_setValue [] t_dec14 st0))
      = Some L /\
    eeObject L = Displayed_Image (composite [] (window month (getRange t_dec14 day))) /\
    bands (composite (Pixel:=nat) (V:=Z) [] (window month (getRange t_dec14 day))) = [].
Proof.
  assert (Hu : month <> day) by discriminate.
  assert (He : restricted (window month (getRange t_dec14 day))
                 (vh (Pixel:=nat) (V:=Z) []) = []) by reflexivity.
  split; [exact Hu|]. split; [exact He|].
  destruct (date_change_surface [] archive t_dec14 st0) as [Hs Hb].
  split; [exact Hs|]. exact (Hb month Hu He).
Defined.

(** C8, as stated, fails: with no image in December 2021 the date change
    leaves the same labels, widgets and layer settings as with images in
    it; nothing in the interface tells the two apart. *)
Lemma empty_window_not_flagged :
  restricted (window month (getRange t_dec14 day)) (vh (Pixel:=nat) (V:=Z) []) = [] /\
  restricted (window month (getRange t_dec14 day)) (vh archive) <> [] /\
  surface (dateSlider_setValue [] t_dec14 st0)
    = surface (dateSlider_setValue archive t_dec14 st0).
Proof.
  split; [reflexivity|]. split; [vm_compute; discriminate|].
  vm_compute. reflexivity.
Qed.

(** Witness of [location_selection_layers]: Dammam, from the state the
    script starts in with Year selected. *)
Lemma location_selection_layers_witness :
  In "Dammam, Saudi Arabia" (locations (Pixel:=nat) (V:=Z)) /\
  exists st',
    step footprint archive (SelectLocation "Dammam, Saudi Arabia")
      (with_layerSelect "Year" st0) = Some st' /\
    location_layers (site_opacity "Dammam, Saudi Arabia")
      (with_layerSelect "Year" st0) st' /\
    ("Dammam, Saudi Arabia" = "Dammam, Saudi Arabia" ->
     ActiveList_get (Nat.max 4 (length (layers (with_layerSelect "Year" st0))))
       (layers st')
     = Some (setShown false outline_layer)).
Proof.
  assert (Hin : In "Dammam, Saudi Arabia" (locations (Pixel:=nat) (V:=Z)))
    by (left; reflexivity).
  split; [exact Hin|].
  exact (location_selection_layers footprint archive "Dammam, Saudi Arabia"
           (with_layerSelect "Year" st0) Hin).
Defined.

(** Selecting Dammam and then White Sands: the text slot holds the two
    White Sands labels, and the Dammam outline is still on the map,
    hidden. *)
Example dammam_then_white_sands :
  (fun st => (ActiveList_get 10 (widgets st),
              map (fmap (fun l => (name l, shown l, opacity l))) (layers st)))
    <$> ((init footprint archive clock
          ≫= step footprint archive (SelectLocation "Dammam, Saudi Arabia"))
         ≫= step footprint archive (SelectLocation white_sands))
  = Some (Some (Panel white_sands_labels None []),
          [Some (Some "Day", false, 1%Q); Some (Some "Month", true, 0.8%Q);
           Some (Some "Year", false, 1%Q);
           Some (Some "clicked location", true, 1%Q);
           Some (None, false, 1%Q)]).
Proof. vm_compute. reflexivity. Qed.


(** C7, as stated, fails: there is no request number in the state of
    the interface.  Whatever number is read off the state, a date change
    repeated leaves it as it is, and so does a click repeated. *)
Lemma no_sequence_number :
  ~ exists seq : State (Pixel:=nat) (V:=Z) -> nat,
      (forall t st, (seq st < seq (dateSlider_setValue archive t st))%nat) \/
      (forall c st, (seq st < seq (generateChart footprint archive c st))%nat).
Proof.
  intros [seq [H|H]].
  - specialize (H t_dec14 (dateSlider_setValue archive t_dec14 st0)).
    rewrite dateSlider_setValue_twice in H. lia.
  - specialize (H dammam clicked). unfold clicked in H.
    rewrite generateChart_twice in H. lia.
Qed.

(** Witness of [init_loads]: the archive, whose first image is of 14
    December 2021, with the clock on 1 February 2022. *)
Lemma init_loads_witness :
  start archive = Some t_dec14 /\ t_dec14 <= now clock /\
  exists st,
    init footprint archive clock = Some st /\
    length (layers st) = 4%nat /\ layerSelect st = "Month".
Proof.
  assert (Hs : start archive = Some t_dec14) by reflexivity.
  assert (Hle : t_dec14 <= now clock) by (vm_compute; discriminate).
  split; [exact Hs|]. split; [exact Hle|].
  destruct (proj2 (init_loads footprint archive clock) t_dec14 Hs Hle)
    as (st & Hi & _ & Hsel & _ & _ & Hlen & _).
  exists st. split; [exact Hi|]. split; [exact Hlen|exact Hsel].
Defined.

(** Witness of [date_change_resets_opacity]: the opacity slid to 0.5 on
    the state with the Dammam chart, then the date set to 14 December
    2021. *)
Lemma date_change_resets_opacity_witness :
  step footprint archive (SlideOpacity 0.5) clicked
    = Some (opacitySlider_onSlide 0.5 (with_opacitySlider 0.5 clicked)) /\
  opacitySlider
    (dateSlider_setValue archive t_dec14
       (opacitySlider_onSlide 0.5 (with_opacitySlider 0.5 clicked))) = 0.5%Q /\
  forall i L, (3 <= i)%nat ->
    ActiveList_get i
      (layers (dateSlider_setValue archive t_dec14
                 (opacitySlider_onSlide 0.5 (with_opacitySlider 0.5 clicked))))
      = Some L ->
    opacity L = 0.5%Q.
Proof.
  assert (E : step footprint archive (SlideOpacity 0.5) clicked
              = Some (opacitySlider_onSlide 0.5 (with_opacitySlider 0.5 clicked)))
    by reflexivity.
  split; [exact E|].
  destruct (date_change_resets_opacity footprint archive 0.5 t_dec14 clicked _ E)
    as (H1 & _ & H3).
  exact (conj H1 H3).
Defined.

(** Witness of [selection_visible_invariant]: a click on the map after a
    date change. *)
Lemma selection_visible_invariant_witness :
  (forall value, MapClick dammam <> SelectLocation value) /\
  step footprint archive (MapClick dammam) (dateSlider_setValue archive t_dec14 st0)
    = Some (generateChart footprint archive dammam
              (dateSlider_setValue archive t_dec14 st0)) /\
  selection_visible (dateSlider_setValue archive t_dec14 st0) /\
  selection_visible (generateChart footprint archive dammam
                       (dateSlider_setValue archive t_dec14 st0)).
Proof.
  assert (H1 : forall value, MapClick dammam <> SelectLocation value)
    by (intros value; discriminate).
  assert (H2 : step footprint archive (MapClick dammam)
                 (dateSlider_setValue archive t_dec14 st0)
               = Some (generateChart footprint archive dammam
                         (dateSlider_setValue archive t_dec14 st0)))
    by reflexivity.
  assert (H3 : selection_visible (dateSlider_setValue archive t_dec14 st0))
    by apply date_change_selection_visible.
  split; [exact H1|]. split; [exact H2|]. split; [exact H3|].
  exact (proj2 (proj2 (selection_visible_invariant footprint archive))
           _ _ _ H1 H2 H3).
Defined.

(** Witness of [location_selection_ignores_select]: White Sands selected
    while Year is. *)
Lemma location_selection_ignores_select_witness :
  step footprint archive (SelectLocation white_sands) (with_layerSelect "Year" st0)
    = Some (visit white_sands (with_layerSelect "Year" st0)) /\
  layerSelect (visit white_sands (with_layerSelect "Year" st0)) = "Year" /\
  ~ selection_visible (visit white_sands (with_layerSelect "Year" st0)).
Proof.
  assert (E : step footprint archive (SelectLocation white_sands)
                (with_layerSelect "Year" st0)
              = Some (visit white_sands (with_layerSelect "Year" st0)))
    by (vm_compute; reflexivity).
  split; [exact E|].
  destruct (location_selection_ignores_select footprint archive _ _ _ E)
    as (Hs & _ & _ & _ & Hn).
  split; [exact Hs|]. apply Hn. discriminate.
Defined.

(** Witness of [layers_never_removed]: Dammam selected on the state with
    its chart. *)
Lemma layers_never_removed_witness :
  step footprint archive (SelectLocation "Dammam, Saudi Arabia") clicked
    = Some (visit "Dammam, Saudi Arabia" clicked) /\
  (length (layers clicked)
   <= length (layers (visit "Dammam, Saudi Arabia" clicked)))%nat /\
  length (layers (visit "Dammam, Saudi Arabia" clicked)) = 5%nat.
Proof.
  assert (E : step footprint archive (SelectLocation "Dammam, Saudi Arabia") clicked
              = Some (visit "Dammam, Saudi Arabia" clicked))
    by (vm_compute; reflexivity).
  split; [exact E|].
  destruct (layers_never_removed footprint archive _ _ _ E) as (Hle & _ & Hn).
  split; [exact Hle|]. exact (Hn _ eq_refl).
Defined.

(** Witness of [same_window_same_layer]: 14 and 20 December 2021 and the
    Month layer. *)
Lemma same_window_same_layer_witness :
  dr_start (window month (getRange t_dec14 day)) <= t_dec20
    < dr_end (window month (getRange t_dec14 day)) /\
  ActiveList_get 1 (layers (dateSlider_setValue archive t_dec20 st0))
  = ActiveList_get 1 (layers (dateSlider_setValue archive t_dec14 st0)).
Proof.
  assert (H : dr_start (window month (getRange t_dec14 day)) <= t_dec20
              < dr_end (window month (getRange t_dec14 day)))
    by (vm_compute; split; [discriminate|reflexivity]).
  split; [exact H|].
  exact (proj2 (same_window_same_layer archive month t_dec14 t_dec20 st0 H)).
Defined.

(** Witness of [year_dominates_month]: December 2021, which holds
    ascending and descending passes. *)
Lemma year_dominates_month_witness :
  restricted (window month (getRange t_dec14 day)) (vhA archive) <> [] /\
  restricted (window month (getRange t_dec14 day)) (vhD archive) <> [] /\
  bandNames (composite archive (window year (getRange t_dec14 day)))
    = ["VH"; "VV"; "VH_1"].
Proof.
  assert (HA : restricted (window month (getRange t_dec14 day)) (vhA archive) <> [])
    by (vm_compute; discriminate).
  assert (HD : restricted (window month (getRange t_dec14 day)) (vhD archive) <> [])
    by (vm_compute; discriminate).
  split; [exact HA|]. split; [exact HD|].
  exact (proj1 (proj2 (proj2 (proj2 (year_dominates_month archive t_dec14)) HA HD))).
Defined.

(** Witness of [chart_click_loads_observation]: the point of 14 December
    2021 of the Dammam chart. *)
Lemma chart_click_loads_observation_witness :
  In (t_dec14, -5) (chart_data (rfiChart footprint archive dammam)) /\
  exists img,
    In img (vh archive) /\ system_time_start img = Some t_dec14 /\
    forall range st,
      dr_start range <= t_dec14 < dr_end range ->
      exists L c,
        ActiveList_get 0 (layers (slide archive range st)) = Some L /\
        name L = Some "Day" /\
        eeObject L = Displayed_Collection c /\
        In img c.
Proof.
  assert (H : In (t_dec14, -5) (chart_data (rfiChart footprint archive dammam)))
    by (vm_compute; left; reflexivity).
  split; [exact H|].
  destruct (chart_click_loads_observation footprint archive dammam t_dec14 (-5) H)
    as (_ & img & Hin & Ht & _ & Hday).
  exists img. split; [exact Hin|]. split; [exact Ht|]. exact Hday.
Defined.

(** Witness of [inspected_point_invariant]: a click on the map at
    Dammam. *)
Lemma inspected_point_invariant_witness :
  step footprint archive (MapClick dammam) st0 = Some clicked /\
  inspected footprint archive dammam clicked.
Proof.
  assert (E : step footprint archive (MapClick dammam) st0 = Some clicked)
    by reflexivity.
  split; [exact E|].
  exact (proj2 (inspected_point_invariant footprint archive) _ _ _ E).
Defined.

(** Witness of [dated_invariant]: the date set to 14 December 2021. *)
Lemma dated_invariant_witness :
  step footprint archive (SetDate t_dec14) st0
    = Some (dateSlider_setValue archive t_dec14 st0) /\
  dated archive t_dec14 (dateSlider_setValue archive t_dec14 st0).
Proof.
  assert (E : step footprint archive (SetDate t_dec14) st0
              = Some (dateSlider_setValue archive t_dec14 st0))
    by reflexivity.
  split; [exact E|].
  exact (proj2 (proj2 (dated_invariant footprint archive) _ _ _ E)).
Defined.

(** Witness of [inspector_slots]: White Sands selected on the state with
    the Dammam chart. *)
Lemma inspector_slots_witness :
  step footprint archive (SelectLocation white_sands) clicked
    = Some (visit white_sands clicked) /\
  (forall i, i <> 3%nat -> i <> 10%nat -> i <> 11%nat ->
     ActiveList_get i (widgets (visit white_sands clicked))
     = ActiveList_get i (widgets clicked)) /\
  ActiveList_get 11 (widgets (visit white_sands clicked)) = Some contact.
Proof.
  assert (E : step footprint archive (SelectLocation white_sands) clicked
              = Some (visit white_sands clicked))
    by (vm_compute; reflexivity).
  split; [exact E|].
  destruct (inspector_slots footprint archive _ _ _ E) as (H1 & _ & _ & H4).
  split; [exact H1|]. exact (proj2 (H4 _ eq_refl)).
Defined.

(** Witness of [VV_band_over_all_passes]: every pass of the archive is
    ascending or descending. *)
Lemma VV_band_over_all_passes_witness :
  (forall img, In img (vh archive) ->
     orbitProperties_pass img = Some "ASCENDING" \/
     orbitProperties_pass img = Some "DESCENDING") /\
  is_pixel_max (restricted (getRange t_dec14 month) (vh archive)) "VV"
    (pixel_max (stack "VV" (restricted (getRange t_dec14 month)
                              (Collection_merge (vhA archive) (vhD archive))))).
Proof.
  assert (H : forall img, In img (vh archive) ->
            orbitProperties_pass img = Some "ASCENDING" \/
            orbitProperties_pass img = Some "DESCENDING").
  { intros img Hin. vm_compute in Hin.
    destruct Hin as [<-|[<-|[<-|[]]]]; [left|right|right]; reflexivity. }
  split; [exact H|].
  exact (proj1 (proj2 (VV_band_over_all_passes archive (getRange t_dec14 month) H))).
Defined.

(** Witness of [location_selection_idempotent]: White Sands, twice. *)
Lemma location_selection_idempotent_witness :
  white_sands <> "Dammam, Saudi Arabia" /\
  step footprint archive (SelectLocation white_sands) st0
    = Some (visit white_sands st0) /\
  step footprint archive (SelectLocation white_sands) (visit white_sands st0)
    = Some (visit white_sands st0).
Proof.
  assert (Hne : white_sands <> "Dammam, Saudi Arabia") by discriminate.
  assert (E : step footprint archive (SelectLocation white_sands) st0
              = Some (visit white_sands st0))
    by (vm_compute; reflexivity).
  split; [exact Hne|]. split; [exact E|].
  exact (location_selection_idempotent footprint archive _ _ _ Hne E).
Defined.

(** Witness of [reachable_states]: the state the script leaves, after a
    selection of Dammam. *)
Lemma reachable_states_witness :
  init footprint archive clock = Some started /\
  step footprint archive (SelectLocation "Dammam, Saudi Arabia") started
    = Some (visit "Dammam, Saudi Arabia" started) /\
  reachable footprint archive (visit "Dammam, Saudi Arabia" started) /\
  (10 <= length (widgets (visit "Dammam, Saudi Arabia" started)))%nat /\
  exists coords,
    inspected footprint archive coords (visit "Dammam, Saudi Arabia" started).
Proof.
  assert (Hi : init footprint archive clock = Some started)
    by (vm_compute; reflexivity).
  assert (E : step footprint archive (SelectLocation "Dammam, Saudi Arabia") started
              = Some (visit "Dammam, Saudi Arabia" started))
    by (vm_compute; reflexivity).
  split; [exact Hi|]. split; [exact E|].
  assert (Hr : reachable footprint archive (visit "Dammam, Saudi Arabia" started)).
  { eapply reachable_step; [|exact E]. eapply reachable_init. exact Hi. }
  split; [exact Hr|].
  destruct (reachable_states footprint archive _ Hr)
    as (coords & t0 & Hin & _ & Hw & _).
  split; [exact Hw|]. by exists coords.
Defined.


(** Witness of [granularity_date_change_commute]: on the state with the
    Dammam marker, Year selected and the date set to 14 December 2021. *)
Lemma granularity_date_change_commute_witness :
  existsb (fun e => bool_decide (is_Some e)) (layers clicked) = true /\
  step footprint archive (SelectLayer "Year") clicked
    ≫= step footprint archive (SetDate t_dec14)
  = step footprint archive (SetDate t_dec14) clicked
      ≫= step footprint archive (SelectLayer "Year").
Proof.
  assert (H : existsb (fun e => bool_decide (is_Some e)) (layers clicked) = true)
    by reflexivity.
  split; [exact H|].
  exact (granularity_date_change_commute footprint archive "Year" t_dec14 clicked H).
Defined.

End Scenario.
